(** * Carbon-emissions backend: calculator, record store and dashboard

    A shallow embedding of [core/models.py], [core/serializers.py],
    [core/views.py] and [core/management/commands/seed_emission_factors.py].

    - Python [float] is IEEE binary64: Rocq's primitive [float], with [*] and
      [+] the correctly rounded operations.
    - A [datetime.date] is represented by its proleptic Gregorian ordinal
      ([date.toordinal()]); year and month are read back with CPython's
      [_ord2ymd].
    - The database is a record of two tables, rows in insertion order; every
      operation that may raise returns its outcome together with the database
      it leaves behind.  The [created_at] and [updated_at] columns are left
      out: no operation modelled here reads them.
    - An SQL aggregate adds the values of its rows in table order. *)

From Stdlib Require Import ZArith Floats.
From stdpp Require Import gmap strings list sorting.
Set Warnings "-inexact-float".

(** ** Outcomes and exceptions *)

Inductive error :=
  | ValidationError (fields : list string)
  | IntegrityError
  | ValueError
  | Http404.

Inductive result (A : Type) :=
  | Ok (a : A)
  | Err (e : error).
Arguments Ok {A} a.
Arguments Err {A} e.

(** A request field as the framework's field parser classifies it: the key is
    absent, the payload is not parseable for the field's type, or it parses to
    a value. *)
Inductive field_input (A : Type) :=
  | Absent
  | Malformed
  | Given (a : A).
Arguments Absent {A}.
Arguments Malformed {A}.
Arguments Given {A} a.

(** ** Python numbers at the aggregation boundary

    [x or 0] yields the [int] 0 when [x] is [None] or a zero float, and
    [round(n, 2)] returns an [int] unchanged. *)

Inductive pynum :=
  | PyInt (z : Z)
  | PyFloat (f : float).

Definition or_0 (x : option float) : pynum :=
  match x with
  | None => PyInt 0
  | Some f => if PrimFloat.eqb f 0%float then PyInt 0 else PyFloat f
  end.

(** Round-half-even quotient of [a] by a positive [b]. *)
Definition rne_div (a b : Z) : Z :=
  let q := (a `div` b)%Z in
  let r := (a `mod` b)%Z in
  if (2 * r <? b)%Z then q
  else if (b <? 2 * r)%Z then (q + 1)%Z
  else if Z.even q then q else (q + 1)%Z.

(** [float.__round__(x, 2)]: the exact binary value is rounded half-even to a
    multiple of 1/100, and that decimal is converted to the nearest double;
    zeros, infinities and NaN round to themselves. *)
Definition float_round2 (x : float) : float :=
  match Prim2SF x with
  | S754_finite s m e =>
      let n := if (0 <=? e)%Z then (Z.pos m * 2 ^ e * 100)%Z
               else rne_div (Z.pos m * 100) (2 ^ (- e)) in
      match n with
      | Zpos p =>
          SF2Prim (SFdiv prec emax (S754_finite s p 0) (S754_finite false 100 0))
      | _ => if s then (-0)%float else 0%float
      end
  | _ => x
  end.

Definition round2 (n : pynum) : pynum :=
  match n with
  | PyInt z => PyInt z
  | PyFloat f => PyFloat (float_round2 f)
  end.

(** ** Dates *)

Module datetime.

(** A date is its ordinal: day 1 is 0001-01-01. *)
Definition date := Z.

Definition MINYEAR : Z := 1.
Definition MAXYEAR : Z := 9999.

Definition _DAYS_IN_MONTH : list Z :=
  [-1; 31; 28; 31; 30; 31; 30; 31; 31; 30; 31; 30; 31]%Z.
Definition _DAYS_BEFORE_MONTH : list Z :=
  [-1; 0; 31; 59; 90; 120; 151; 181; 212; 243; 273; 304; 334]%Z.

Definition _DI400Y : Z := 146097.
Definition _DI100Y : Z := 36524.
Definition _DI4Y : Z := 1461.

Definition _is_leap (year : Z) : bool :=
  ((year `mod` 4 =? 0) && (negb (year `mod` 100 =? 0) || (year `mod` 400 =? 0)))%Z.

Definition _days_before_year (year : Z) : Z :=
  let y := (year - 1)%Z in
  (y * 365 + y `div` 4 - y `div` 100 + y `div` 400)%Z.

Definition _days_before_month (year month : Z) : Z :=
  (_DAYS_BEFORE_MONTH !!! Z.to_nat month
   + (if (2 <? month)%Z && _is_leap year then 1 else 0))%Z.

Definition _ymd2ord (year month day : Z) : date :=
  (_days_before_year year + _days_before_month year month + day)%Z.

Definition _ord2ymd (n0 : date) : Z * Z * Z :=
  let n := (n0 - 1)%Z in
  let n400 := (n `div` _DI400Y)%Z in
  let n := (n `mod` _DI400Y)%Z in
  let year := (n400 * 400 + 1)%Z in
  let n100 := (n `div` _DI100Y)%Z in
  let n := (n `mod` _DI100Y)%Z in
  let n4 := (n `div` _DI4Y)%Z in
  let n := (n `mod` _DI4Y)%Z in
  let n1 := (n `div` 365)%Z in
  let n := (n `mod` 365)%Z in
  let year := (year + n100 * 100 + n4 * 4 + n1)%Z in
  if ((n1 =? 4) || (n100 =? 4))%Z then ((year - 1)%Z, 12%Z, 31%Z)
  else
    let leapyear := ((n1 =? 3) && (negb (n4 =? 24) || (n100 =? 3)))%Z in
    let month := Z.shiftr (n + 50) 5 in
    let preceding :=
      (_DAYS_BEFORE_MONTH !!! Z.to_nat month
       + (if (2 <? month)%Z && leapyear then 1 else 0))%Z in
    if (n <? preceding)%Z then
      let month := (month - 1)%Z in
      let preceding :=
        (preceding
         - (_DAYS_IN_MONTH !!! Z.to_nat month
            + (if (month =? 2)%Z && leapyear then 1 else 0)))%Z in
      (year, month, (n - preceding + 1)%Z)
    else (year, month, (n - preceding + 1)%Z).

Definition year (d : date) : Z := (_ord2ymd d).1.1.
Definition month (d : date) : Z := (_ord2ymd d).1.2.
Definition day (d : date) : Z := (_ord2ymd d).2.

(** [d - timedelta(days=n)] *)
Definition sub_days (d : date) (n : Z) : date := (d - n)%Z.

Definition digit (z : Z) : string :=
  String (Ascii.ascii_of_nat (48 + Z.to_nat (z `mod` 10))) EmptyString.

(** [d.strftime('%Y-%m')], the year written with four digits. *)
Definition strftime_Y_m (d : date) : string :=
  let y := year d in
  let m := month d in
  digit (y `div` 1000) +:+ digit (y `div` 100) +:+ digit (y `div` 10) +:+ digit y
    +:+ "-" +:+ digit (m `div` 10) +:+ digit m.

End datetime.

(** [TruncMonth('date')]: the first day of the date's month. *)
Definition TruncMonth (d : datetime.date) : datetime.date :=
  (d - (datetime.day d - 1))%Z.

(** ** Models ([core/models.py]) *)

Module EmissionFactor.

Definition CATEGORY_CHOICES : list (string * string) :=
  [("ELECTRICITY", "Electricity"); ("FUEL", "Fuel"); ("WATER", "Water");
   ("WASTE", "Waste")].

Definition SUB_CATEGORY_CHOICES : list (string * string) :=
  [("GRID", "Grid Electricity"); ("DIESEL", "Diesel"); ("PETROL", "Petrol");
   ("LPG", "LPG"); ("CNG", "CNG"); ("MUNICIPAL_WATER", "Municipal Water");
   ("ORGANIC_WASTE", "Organic Waste"); ("PLASTIC_WASTE", "Plastic Waste");
   ("E_WASTE", "E-Waste"); ("GENERAL_WASTE", "General Waste")].

Record t := mk {
  category : string;
  sub_category : string;
  factor : float;
  unit : string;
  description : option string;
  source : option string;
}.

End EmissionFactor.

Module ConsumptionRecord.

Definition DEPARTMENT_CHOICES : list (string * string) :=
  [("HOSTEL", "Hostel"); ("CANTEEN", "Canteen"); ("ADMIN", "Administration");
   ("LABS", "Laboratories"); ("TRANSPORT", "Transport")].

(** The columns of a record apart from its primary key and its two
    timestamps; [institute] is the owner's primary key. *)
Record t := mk {
  institute : Z;
  department : string;
  date : datetime.date;
  electricity_kwh : float;
  diesel_liters : float;
  petrol_liters : float;
  lpg_kg : float;
  water_kl : float;
  waste_kg : float;
  electricity_emissions : float;
  fuel_emissions : float;
  water_emissions : float;
  waste_emissions : float;
  total_emissions : float;
}.

Definition set_electricity_emissions (v : float) (r : t) : t :=
  mk (institute r) (department r) (date r) (electricity_kwh r) (diesel_liters r)
     (petrol_liters r) (lpg_kg r) (water_kl r) (waste_kg r)
     v (fuel_emissions r) (water_emissions r) (waste_emissions r) (total_emissions r).
Definition set_fuel_emissions (v : float) (r : t) : t :=
  mk (institute r) (department r) (date r) (electricity_kwh r) (diesel_liters r)
     (petrol_liters r) (lpg_kg r) (water_kl r) (waste_kg r)
     (electricity_emissions r) v (water_emissions r) (waste_emissions r) (total_emissions r).
Definition set_water_emissions (v : float) (r : t) : t :=
  mk (institute r) (department r) (date r) (electricity_kwh r) (diesel_liters r)
     (petrol_liters r) (lpg_kg r) (water_kl r) (waste_kg r)
     (electricity_emissions r) (fuel_emissions r) v (waste_emissions r) (total_emissions r).
Definition set_waste_emissions (v : float) (r : t) : t :=
  mk (institute r) (department r) (date r) (electricity_kwh r) (diesel_liters r)
     (petrol_liters r) (lpg_kg r) (water_kl r) (waste_kg r)
     (electricity_emissions r) (fuel_emissions r) (water_emissions r) v (total_emissions r).
Definition set_total_emissions (v : float) (r : t) : t :=
  mk (institute r) (department r) (date r) (electricity_kwh r) (diesel_liters r)
     (petrol_liters r) (lpg_kg r) (water_kl r) (waste_kg r)
     (electricity_emissions r) (fuel_emissions r) (water_emissions r) (waste_emissions r) v.

(** [Meta.unique_together = ['institute', 'department', 'date']] *)
Definition unique_together (r : t) : Z * string * datetime.date :=
  (institute r, department r, date r).

End ConsumptionRecord.

(** ** The database *)

Record DB := mkDB {
  core_emissionfactor : list EmissionFactor.t;
  core_consumptionrecord : list (Z * ConsumptionRecord.t);
  next_id : Z;
}.

(** A database operation: its outcome and the database it leaves. *)
Definition M (A : Type) : Type := DB → result A * DB.

Definition ret {A} (a : A) : M A := λ db, (Ok a, db).
Definition raise {A} (e : error) : M A := λ db, (Err e, db).
Definition bind {A B} (m : M A) (k : A → M B) : M B := λ db,
  match m db with
  | (Ok a, db') => k a db'
  | (Err e, db') => (Err e, db')
  end.

Notation "x <~ m ;; k" := (bind m (λ x, k))
  (at level 100, m at next level, right associativity).

(** ** The emissions calculator *)

(** [{ef.sub_category: ef.factor for ef in EmissionFactor.objects.all()}]:
    a later row overrides an earlier one with the same sub-category. *)
Definition factors (efs : list EmissionFactor.t) : gmap string float :=
  foldl (λ m ef, <[EmissionFactor.sub_category ef := EmissionFactor.factor ef]> m) ∅ efs.

(** [d.get(k, dflt)] *)
Definition dict_get (d : gmap string float) (k : string) (dflt : float) : float :=
  default dflt (d !! k).

(** [ConsumptionRecord.calculate_emissions], reading the factor table [efs]. *)
Definition calculate_emissions (efs : list EmissionFactor.t)
    (self : ConsumptionRecord.t) : ConsumptionRecord.t :=
  let factors := factors efs in
  let self :=
    ConsumptionRecord.set_electricity_emissions
      (ConsumptionRecord.electricity_kwh self * dict_get factors "GRID" 0.82)%float self in
  let self :=
    ConsumptionRecord.set_fuel_emissions
      (ConsumptionRecord.diesel_liters self * dict_get factors "DIESEL" 2.68
       + ConsumptionRecord.petrol_liters self * dict_get factors "PETROL" 2.31
       + ConsumptionRecord.lpg_kg self * dict_get factors "LPG" 2.98)%float self in
  let self :=
    ConsumptionRecord.set_water_emissions
      (ConsumptionRecord.water_kl self * dict_get factors "MUNICIPAL_WATER" 0.344)%float self in
  let self :=
    ConsumptionRecord.set_waste_emissions
      (ConsumptionRecord.waste_kg self * dict_get factors "GENERAL_WASTE" 0.58)%float self in
  ConsumptionRecord.set_total_emissions
    (ConsumptionRecord.electricity_emissions self
     + ConsumptionRecord.fuel_emissions self
     + ConsumptionRecord.water_emissions self
     + ConsumptionRecord.waste_emissions self)%float self.

(** ** Saving a record *)

(** Does a row other than [pk] already hold the unique-together triple of [r]? *)
Definition violates_unique_together (pk : option Z) (r : ConsumptionRecord.t)
    (rows : list (Z * ConsumptionRecord.t)) : bool :=
  bool_decide (Exists (λ row,
    ConsumptionRecord.unique_together row.2 = ConsumptionRecord.unique_together r
    ∧ Some row.1 ≠ pk) rows).

Definition replace_row (pk : Z) (r : ConsumptionRecord.t)
    (rows : list (Z * ConsumptionRecord.t)) : list (Z * ConsumptionRecord.t) :=
  (λ row, if decide (row.1 = pk) then (pk, r) else row) <$> rows.

Definition lookup_row (pk : Z) (rows : list (Z * ConsumptionRecord.t))
    : option ConsumptionRecord.t :=
  (λ found, found.2.2) <$> list_find (λ row, row.1 = pk) rows.

(** [ConsumptionRecord.save]: recompute the derived fields, then write the row:
    an UPDATE when the instance has a primary key that is in the table, an
    INSERT otherwise.  The table's uniqueness constraint rejects the write with
    [IntegrityError]. *)
Definition save (pk : option Z) (self : ConsumptionRecord.t)
    : M (Z * ConsumptionRecord.t) := λ db,
  let self := calculate_emissions (core_emissionfactor db) self in
  let rows := core_consumptionrecord db in
  if violates_unique_together pk self rows then (Err IntegrityError, db)
  else
    match pk with
    | Some k =>
        if bool_decide (is_Some (lookup_row k rows)) then
          (Ok (k, self),
           mkDB (core_emissionfactor db) (replace_row k self rows) (next_id db))
        else
          (Ok (k, self),
           mkDB (core_emissionfactor db) (rows ++ [(k, self)])
                (Z.max (next_id db) (k + 1)))
    | None =>
        let k := next_id db in
        (Ok (k, self),
         mkDB (core_emissionfactor db) (rows ++ [(k, self)]) (k + 1)%Z)
    end.

(** ** Seeding the factor table ([seed_emission_factors.py]) *)

Definition same_key (category sub_category : string) (ef : EmissionFactor.t) : Prop :=
  EmissionFactor.category ef = category ∧ EmissionFactor.sub_category ef = sub_category.

#[global] Instance same_key_dec c s ef : Decision (same_key c s ef).
Proof. unfold same_key. apply _. Defined.

(** [EmissionFactor.objects.update_or_create(category=, sub_category=,
    defaults=)]: the row with that key (the table's [unique_together] allows
    one at most) takes the defaults, or a new row is appended; the flag tells
    whether a row was created. *)
Definition update_or_create (defaults : EmissionFactor.t) : M (EmissionFactor.t * bool) := λ db,
  let c := EmissionFactor.category defaults in
  let s := EmissionFactor.sub_category defaults in
  let efs := core_emissionfactor db in
  if bool_decide (Exists (same_key c s) efs) then
    (Ok (defaults, false),
     mkDB ((λ ef, if decide (same_key c s ef) then defaults else ef) <$> efs)
          (core_consumptionrecord db) (next_id db))
  else
    (Ok (defaults, true),
     mkDB (efs ++ [defaults]) (core_consumptionrecord db) (next_id db)).

Module Command.

Definition emission_factors : list EmissionFactor.t :=
  [ EmissionFactor.mk "ELECTRICITY" "GRID" 0.82 "kWh"
      (Some "CO2 emissions from Indian grid electricity")
      (Some "India GHG Program / CEA 2023");
    EmissionFactor.mk "FUEL" "DIESEL" 2.68 "liter"
      (Some "CO2 emissions from diesel combustion") (Some "IPCC 2006 Guidelines");
    EmissionFactor.mk "FUEL" "PETROL" 2.31 "liter"
      (Some "CO2 emissions from petrol/gasoline combustion") (Some "IPCC 2006 Guidelines");
    EmissionFactor.mk "FUEL" "LPG" 2.98 "kg"
      (Some "CO2 emissions from LPG combustion") (Some "IPCC 2006 Guidelines");
    EmissionFactor.mk "FUEL" "CNG" 2.75 "kg"
      (Some "CO2 emissions from CNG combustion") (Some "IPCC 2006 Guidelines");
    EmissionFactor.mk "WATER" "MUNICIPAL_WATER" 0.344 "kL"
      (Some "CO2 emissions from water treatment and distribution")
      (Some "Water Research Foundation");
    EmissionFactor.mk "WASTE" "ORGANIC_WASTE" 0.58 "kg"
      (Some "CO2e emissions from organic waste decomposition") (Some "EPA WARM Model");
    EmissionFactor.mk "WASTE" "PLASTIC_WASTE" 6.0 "kg"
      (Some "CO2e emissions from plastic waste (lifecycle)") (Some "EPA WARM Model");
    EmissionFactor.mk "WASTE" "E_WASTE" 2.0 "kg"
      (Some "CO2e emissions from e-waste processing") (Some "Estimated");
    EmissionFactor.mk "WASTE" "GENERAL_WASTE" 0.58 "kg"
      (Some "CO2e emissions from general mixed waste") (Some "EPA WARM Model") ].

(** The loop of [handle]: the counts of created and updated rows. *)
Fixpoint seed (efs : list EmissionFactor.t) (created_count updated_count : nat)
    : M (nat * nat) :=
  match efs with
  | [] => ret (created_count, updated_count)
  | ef_data :: efs =>
      oc <~ update_or_create ef_data ;;
      if oc.2 then seed efs (S created_count) updated_count
      else seed efs created_count (S updated_count)
  end.

Definition handle : M (nat * nat) := seed emission_factors 0 0.

End Command.

(** ** The record serializer ([core/serializers.py]) *)

Module ConsumptionRecordSerializer.

(** The request body, restricted to the serializer's fields.  The last five
    are the serializer's [read_only_fields]. *)
Module data.
Record t := mk {
  department : field_input string;
  date : field_input datetime.date;
  electricity_kwh : field_input float;
  diesel_liters : field_input float;
  petrol_liters : field_input float;
  lpg_kg : field_input float;
  water_kl : field_input float;
  waste_kg : field_input float;
  electricity_emissions : field_input float;
  fuel_emissions : field_input float;
  water_emissions : field_input float;
  waste_emissions : field_input float;
  total_emissions : field_input float;
}.
End data.

(** The writable fields that were supplied and passed their field's check. *)
Module validated_data.
Record t := mk {
  department : option string;
  date : option datetime.date;
  electricity_kwh : option float;
  diesel_liters : option float;
  petrol_liters : option float;
  lpg_kg : option float;
  water_kl : option float;
  waste_kg : option float;
}.
End validated_data.

(** One writable field: the names it adds to the error dict and the value
    it contributes. *)
Definition run_field {A} (name : string) (required : bool) (valid : A → bool)
    (x : field_input A) : list string * option A :=
  match x with
  | Absent => (if required then [name] else [], None)
  | Malformed => ([name], None)
  | Given a => if valid a then ([], Some a) else ([name], None)
  end.

(** [ChoiceField] over [DEPARTMENT_CHOICES]. *)
Definition valid_department (s : string) : bool :=
  bool_decide (s ∈ ConsumptionRecord.DEPARTMENT_CHOICES.*1).

(** [department] and [date] have no model default and are required unless
    the update is partial; the six quantities default to 0 in the model and
    are plain [FloatField]s without bounds. *)
Definition to_internal_value (partial : bool) (d : data.t) : result validated_data.t :=
  let required := negb partial in
  let f1 := run_field "department" required valid_department (data.department d) in
  let f2 := run_field "date" required (λ _, true) (data.date d) in
  let f3 := run_field "electricity_kwh" false (λ _, true) (data.electricity_kwh d) in
  let f4 := run_field "diesel_liters" false (λ _, true) (data.diesel_liters d) in
  let f5 := run_field "petrol_liters" false (λ _, true) (data.petrol_liters d) in
  let f6 := run_field "lpg_kg" false (λ _, true) (data.lpg_kg d) in
  let f7 := run_field "water_kl" false (λ _, true) (data.water_kl d) in
  let f8 := run_field "waste_kg" false (λ _, true) (data.waste_kg d) in
  match f1.1 ++ f2.1 ++ f3.1 ++ f4.1 ++ f5.1 ++ f6.1 ++ f7.1 ++ f8.1 with
  | [] => Ok (validated_data.mk f1.2 f2.2 f3.2 f4.2 f5.2 f6.2 f7.2 f8.2)
  | errors => Err (ValidationError errors)
  end.

(** The model instance built from the validated data and the owner: absent
    quantities take the model default 0 and an absent department the empty
    string; the derived columns start at their default 0. *)
Definition new_instance (user : Z) (vd : validated_data.t) (d : datetime.date)
    : ConsumptionRecord.t :=
  ConsumptionRecord.mk user
    (default "" (validated_data.department vd)) d
    (default 0%float (validated_data.electricity_kwh vd))
    (default 0%float (validated_data.diesel_liters vd))
    (default 0%float (validated_data.petrol_liters vd))
    (default 0%float (validated_data.lpg_kg vd))
    (default 0%float (validated_data.water_kl vd))
    (default 0%float (validated_data.waste_kg vd))
    0%float 0%float 0%float 0%float 0%float.

(** [create]: the owner is the requesting user and the new instance is
    saved.  A row without a date violates NOT NULL. *)
Definition create (user : Z) (vd : validated_data.t) : M (Z * ConsumptionRecord.t) :=
  match validated_data.date vd with
  | None => raise IntegrityError
  | Some d => save None (new_instance user vd d)
  end.

(** [setattr(instance, attr, value)] for every validated attribute. *)
Definition set_attrs (r : ConsumptionRecord.t) (vd : validated_data.t)
    : ConsumptionRecord.t :=
  ConsumptionRecord.mk (ConsumptionRecord.institute r)
    (default (ConsumptionRecord.department r) (validated_data.department vd))
    (default (ConsumptionRecord.date r) (validated_data.date vd))
    (default (ConsumptionRecord.electricity_kwh r) (validated_data.electricity_kwh vd))
    (default (ConsumptionRecord.diesel_liters r) (validated_data.diesel_liters vd))
    (default (ConsumptionRecord.petrol_liters r) (validated_data.petrol_liters vd))
    (default (ConsumptionRecord.lpg_kg r) (validated_data.lpg_kg vd))
    (default (ConsumptionRecord.water_kl r) (validated_data.water_kl vd))
    (default (ConsumptionRecord.waste_kg r) (validated_data.waste_kg vd))
    (ConsumptionRecord.electricity_emissions r)
    (ConsumptionRecord.fuel_emissions r)
    (ConsumptionRecord.water_emissions r)
    (ConsumptionRecord.waste_emissions r)
    (ConsumptionRecord.total_emissions r).

(** [update]: the validated attributes are set on the instance, which is
    then saved. *)
Definition update (instance : Z * ConsumptionRecord.t) (vd : validated_data.t)
    : M (Z * ConsumptionRecord.t) :=
  save (Some instance.1) (set_attrs instance.2 vd).

End ConsumptionRecordSerializer.

(** ** Views ([core/views.py]) *)

(** [ConsumptionRecord.objects.filter(institute=user)] *)
Definition owned_by (user : Z) (rows : list (Z * ConsumptionRecord.t))
    : list (Z * ConsumptionRecord.t) :=
  filter (λ row, ConsumptionRecord.institute row.2 = user) rows.

Definition is_valid (partial : bool) (d : ConsumptionRecordSerializer.data.t)
    : M ConsumptionRecordSerializer.validated_data.t :=
  match ConsumptionRecordSerializer.to_internal_value partial d with
  | Ok vd => ret vd
  | Err e => raise e
  end.

(** [Meta.ordering = ['-date']]: a row may come before another when its date
    is no earlier. *)
Definition date_descending (row1 row2 : Z * ConsumptionRecord.t) : Prop :=
  (ConsumptionRecord.date row2.2 ≤ ConsumptionRecord.date row1.2)%Z.

#[global] Instance date_descending_dec : RelDecision date_descending.
Proof. intros row1 row2. unfold date_descending. apply _. Defined.

#[global] Instance date_descending_total : Total date_descending.
Proof. intros row1 row2. unfold date_descending. lia. Defined.

#[global] Instance date_descending_trans : Transitive date_descending.
Proof. intros row1 row2 row3. unfold date_descending. lia. Defined.

Module ConsumptionRecordListCreateView.

Definition get_queryset (user : Z) (db : DB) : list (Z * ConsumptionRecord.t) :=
  owned_by user (core_consumptionrecord db).

(** [get]: the caller's records in the model's default ordering. *)
Definition get (user : Z) (db : DB) : list (Z * ConsumptionRecord.t) :=
  merge_sort date_descending (get_queryset user db).

Definition post (user : Z) (d : ConsumptionRecordSerializer.data.t)
    : M (Z * ConsumptionRecord.t) :=
  vd <~ is_valid false d ;;
  ConsumptionRecordSerializer.create user vd.

End ConsumptionRecordListCreateView.

Module ConsumptionRecordDetailView.

Definition get_queryset (user : Z) (db : DB) : list (Z * ConsumptionRecord.t) :=
  owned_by user (core_consumptionrecord db).

(** [get_object_or_404(queryset, pk=pk)] *)
Definition get_object (user pk : Z) : M (Z * ConsumptionRecord.t) := λ db,
  match lookup_row pk (get_queryset user db) with
  | Some r => (Ok (pk, r), db)
  | None => (Err Http404, db)
  end.

Definition update (partial : bool) (user pk : Z)
    (d : ConsumptionRecordSerializer.data.t) : M (Z * ConsumptionRecord.t) :=
  instance <~ get_object user pk ;;
  vd <~ is_valid partial d ;;
  ConsumptionRecordSerializer.update instance vd.

Definition put := update false.
Definition patch := update true.

Definition delete (user pk : Z) : M () :=
  instance <~ get_object user pk ;;
  λ db, (Ok (),
         mkDB (core_emissionfactor db)
              (filter (λ row, row.1 ≠ instance.1) (core_consumptionrecord db))
              (next_id db)).

End ConsumptionRecordDetailView.

(** [Sum(column)] over a set of rows: NULL on no rows, else the running
    binary64 sum in row order. *)
Definition Sum (xs : list float) : option float :=
  match xs with
  | [] => None
  | x :: xs => Some (foldl PrimFloat.add x xs)
  end.

(** [.values(key).annotate(...).order_by(key)]: one group per distinct key,
    groups in ascending key order, each with the rows that carry the key. *)
Definition group_by {K} `{EqDecision K} (R : relation K) `{!RelDecision R}
    (key : Z * ConsumptionRecord.t → K) (rows : list (Z * ConsumptionRecord.t))
    : list (K * list (Z * ConsumptionRecord.t)) :=
  (λ k, (k, filter (λ row, key row = k) rows))
    <$> merge_sort R (remove_dups (key <$> rows)).

Definition sum_of (column : ConsumptionRecord.t → float)
    (rows : list (Z * ConsumptionRecord.t)) : pynum :=
  round2 (or_0 (Sum ((λ row, column row.2) <$> rows))).

Module DashboardStatsView.

Module item.
Record t := mk {
  month : string;
  total_emissions : pynum;
  electricity_emissions : pynum;
  fuel_emissions : pynum;
  water_emissions : pynum;
  waste_emissions : pynum;
}.
End item.

Module Response.
Record t := mk {
  total_emissions : pynum;
  electricity_emissions : pynum;
  fuel_emissions : pynum;
  water_emissions : pynum;
  waste_emissions : pynum;
  department_breakdown : list (string * pynum);
  monthly_trend : list item.t;
  record_count : nat;
}.
End Response.

(** [records.filter(date__year=int(year))] when [year] is a non-empty
    parameter.  The lookup is compiled to the bounds [date(y, 1, 1)] and
    [date(y, 12, 31)], which do not exist outside [MINYEAR..MAXYEAR]. *)
Definition filter_year (year : field_input Z) (records : list (Z * ConsumptionRecord.t))
    : result (list (Z * ConsumptionRecord.t)) :=
  match year with
  | Absent => Ok records
  | Malformed => Err ValueError
  | Given y =>
      if bool_decide (datetime.MINYEAR ≤ y ≤ datetime.MAXYEAR)%Z then
        Ok (filter (λ row, datetime.year (ConsumptionRecord.date row.2) = y) records)
      else Err ValueError
  end.

(** [records.filter(date__month=int(month))] when [month] is a non-empty
    parameter. *)
Definition filter_month (month : field_input Z) (records : list (Z * ConsumptionRecord.t))
    : result (list (Z * ConsumptionRecord.t)) :=
  match month with
  | Absent => Ok records
  | Malformed => Err ValueError
  | Given m =>
      Ok (filter (λ row, datetime.month (ConsumptionRecord.date row.2) = m) records)
  end.

(** The queryset [records] after both optional filters. *)
Definition records (user : Z) (year month : field_input Z) (db : DB)
    : result (list (Z * ConsumptionRecord.t)) :=
  match filter_year year (owned_by user (core_consumptionrecord db)) with
  | Err e => Err e
  | Ok records => filter_month month records
  end.

Definition department_data (records : list (Z * ConsumptionRecord.t))
    : list (string * list (Z * ConsumptionRecord.t)) :=
  group_by String.le (λ row, ConsumptionRecord.department row.2) records.

Definition department_breakdown (records : list (Z * ConsumptionRecord.t))
    : list (string * pynum) :=
  (λ g, (g.1, sum_of ConsumptionRecord.total_emissions g.2)) <$> department_data records.

(** The rows of the monthly-trend query: the user's rows dated on or after
    [twelve_months_ago]. *)
Definition trend_rows (user : Z) (today : datetime.date) (db : DB)
    : list (Z * ConsumptionRecord.t) :=
  let twelve_months_ago := datetime.sub_days today 365 in
  filter (λ row, ConsumptionRecord.institute row.2 = user
                 ∧ (twelve_months_ago ≤ ConsumptionRecord.date row.2)%Z)
         (core_consumptionrecord db).

Definition monthly_data (user : Z) (today : datetime.date) (db : DB)
    : list (datetime.date * list (Z * ConsumptionRecord.t)) :=
  group_by Z.le (λ row, TruncMonth (ConsumptionRecord.date row.2)) (trend_rows user today db).

Definition trend_item (g : datetime.date * list (Z * ConsumptionRecord.t)) : item.t :=
  item.mk (datetime.strftime_Y_m g.1)
    (sum_of ConsumptionRecord.total_emissions g.2)
    (sum_of ConsumptionRecord.electricity_emissions g.2)
    (sum_of ConsumptionRecord.fuel_emissions g.2)
    (sum_of ConsumptionRecord.water_emissions g.2)
    (sum_of ConsumptionRecord.waste_emissions g.2).

Definition monthly_trend (user : Z) (today : datetime.date) (db : DB) : list item.t :=
  trend_item <$> monthly_data user today db.

(** [get]: [today] is [timezone.now().date()]. *)
Definition get (user : Z) (year month : field_input Z) (today : datetime.date)
    (db : DB) : result Response.t :=
  match records user year month db with
  | Err e => Err e
  | Ok records =>
      Ok (Response.mk
            (sum_of ConsumptionRecord.total_emissions records)
            (sum_of ConsumptionRecord.electricity_emissions records)
            (sum_of ConsumptionRecord.fuel_emissions records)
            (sum_of ConsumptionRecord.water_emissions records)
            (sum_of ConsumptionRecord.waste_emissions records)
            (department_breakdown records)
            (monthly_trend user today db)
            (length records))
  end.

End DashboardStatsView.

(** [dict(pairs)]: a later pair overrides an earlier one with the same key. *)
Definition dict (pairs : list (string * string)) : gmap string string :=
  foldl (λ m kv, <[kv.1 := kv.2]> m) ∅ pairs.

Module ComparisonView.

Module consumption.
Record t := mk {
  electricity_kwh : pynum;
  diesel_liters : pynum;
  petrol_liters : pynum;
  lpg_kg : pynum;
  water_kl : pynum;
  waste_kg : pynum;
}.
End consumption.

Module item.
Record t := mk {
  department : string;
  department_name : string;
  total_emissions : pynum;
  electricity_emissions : pynum;
  fuel_emissions : pynum;
  water_emissions : pynum;
  waste_emissions : pynum;
  consumption : consumption.t;
}.
End item.

(** [records.values('department').annotate(...).order_by('department')] *)
Definition comparison (records : list (Z * ConsumptionRecord.t))
    : list (string * list (Z * ConsumptionRecord.t)) :=
  group_by String.le (λ row, ConsumptionRecord.department row.2) records.

Definition dept_names : gmap string string := dict ConsumptionRecord.DEPARTMENT_CHOICES.

(** One element of [result]; the name falls back to the code. *)
Definition result_item (g : string * list (Z * ConsumptionRecord.t)) : item.t :=
  item.mk g.1 (default g.1 (dept_names !! g.1))
    (sum_of ConsumptionRecord.total_emissions g.2)
    (sum_of ConsumptionRecord.electricity_emissions g.2)
    (sum_of ConsumptionRecord.fuel_emissions g.2)
    (sum_of ConsumptionRecord.water_emissions g.2)
    (sum_of ConsumptionRecord.waste_emissions g.2)
    (consumption.mk
       (sum_of ConsumptionRecord.electricity_kwh g.2)
       (sum_of ConsumptionRecord.diesel_liters g.2)
       (sum_of ConsumptionRecord.petrol_liters g.2)
       (sum_of ConsumptionRecord.lpg_kg g.2)
       (sum_of ConsumptionRecord.water_kl g.2)
       (sum_of ConsumptionRecord.waste_kg g.2)).

Definition get (user : Z) (db : DB) : list item.t :=
  result_item <$> comparison (owned_by user (core_consumptionrecord db)).

End ComparisonView.

(** The department breakdown of the PDF report ([GenerateReportView.get]).
    Of the story only its data is modelled: a flowable is a paragraph with
    its text or a table with its cells; styles and page layout are left out.
    The rendering [f"{x:,.2f}"] of a number is a parameter. *)
Module GenerateReportView.

Inductive flowable :=
  | Paragraph (text : string)
  | Table (data : list (list string)).

(** [records], after the optional [date__year] filter. *)
Definition records (user : Z) (year : field_input Z) (db : DB)
    : result (list (Z * ConsumptionRecord.t)) :=
  DashboardStatsView.filter_year year (owned_by user (core_consumptionrecord db)).

(** [records.values('department').annotate(total=Sum('total_emissions'))
    .order_by('department')] *)
Definition department_data (records : list (Z * ConsumptionRecord.t))
    : list (string * option float) :=
  (λ g, (g.1, Sum ((λ row, ConsumptionRecord.total_emissions row.2) <$> g.2)))
    <$> group_by String.le (λ row, ConsumptionRecord.department row.2) records.

Definition dept_names : gmap string string := dict ConsumptionRecord.DEPARTMENT_CHOICES.

Section story.
Variable format_2f : pynum → string.

Definition dept_data (records : list (Z * ConsumptionRecord.t)) : list (list string) :=
  ["Department"; "Emissions (kg CO2e)"]
  :: ((λ item, [default item.1 (dept_names !! item.1); format_2f (or_0 item.2)])
        <$> department_data records).

(** What the story gets below the heading of the department breakdown. *)
Definition department_breakdown (records : list (Z * ConsumptionRecord.t)) : flowable :=
  let dept_data := dept_data records in
  if bool_decide (1 < length dept_data) then Table dept_data
  else Paragraph "No department data available.".

(** [get], as far as the department breakdown goes: the request fails where
    the year filter does, and otherwise the story gets the table or the
    note. *)
Definition get (user : Z) (year : field_input Z) (db : DB) : result flowable :=
  match records user year db with
  | Err e => Err e
  | Ok records => Ok (department_breakdown records)
  end.

End story.

End GenerateReportView.

(** ** Specification-side notions *)

(** The factor a table gives a sub-category: that of the last row carrying it. *)
Definition factor_lookup (efs : list EmissionFactor.t) (k : string) : option float :=
  EmissionFactor.factor
    <$> last (filter (λ ef, EmissionFactor.sub_category ef = k) efs).

(** The sub-categories the calculator reads, with their hardcoded defaults. *)
Definition used_sub_categories : list (string * float) :=
  [("GRID", 0.82%float); ("DIESEL", 2.68%float); ("PETROL", 2.31%float);
   ("LPG", 2.98%float); ("MUNICIPAL_WATER", 0.344%float);
   ("GENERAL_WASTE", 0.58%float)].

(** The raw columns of two records coincide. *)
Definition same_raw (r1 r2 : ConsumptionRecord.t) : Prop :=
  ConsumptionRecord.institute r1 = ConsumptionRecord.institute r2
  ∧ ConsumptionRecord.department r1 = ConsumptionRecord.department r2
  ∧ ConsumptionRecord.date r1 = ConsumptionRecord.date r2
  ∧ ConsumptionRecord.electricity_kwh r1 = ConsumptionRecord.electricity_kwh r2
  ∧ ConsumptionRecord.diesel_liters r1 = ConsumptionRecord.diesel_liters r2
  ∧ ConsumptionRecord.petrol_liters r1 = ConsumptionRecord.petrol_liters r2
  ∧ ConsumptionRecord.lpg_kg r1 = ConsumptionRecord.lpg_kg r2
  ∧ ConsumptionRecord.water_kl r1 = ConsumptionRecord.water_kl r2
  ∧ ConsumptionRecord.waste_kg r1 = ConsumptionRecord.waste_kg r2.

(** The derived columns of two records coincide. *)
Definition same_derived (r1 r2 : ConsumptionRecord.t) : Prop :=
  ConsumptionRecord.electricity_emissions r1 = ConsumptionRecord.electricity_emissions r2
  ∧ ConsumptionRecord.fuel_emissions r1 = ConsumptionRecord.fuel_emissions r2
  ∧ ConsumptionRecord.water_emissions r1 = ConsumptionRecord.water_emissions r2
  ∧ ConsumptionRecord.waste_emissions r1 = ConsumptionRecord.waste_emissions r2
  ∧ ConsumptionRecord.total_emissions r1 = ConsumptionRecord.total_emissions r2.

(** The derived columns of [r] follow the five formulas for the factor
    assignment [factor]. *)
Definition derived_by (factor : string → float → float) (r : ConsumptionRecord.t) : Prop :=
  ConsumptionRecord.electricity_emissions r
    = (ConsumptionRecord.electricity_kwh r * factor "GRID" 0.82)%float
  ∧ ConsumptionRecord.fuel_emissions r
    = (ConsumptionRecord.diesel_liters r * factor "DIESEL" 2.68
       + ConsumptionRecord.petrol_liters r * factor "PETROL" 2.31
       + ConsumptionRecord.lpg_kg r * factor "LPG" 2.98)%float
  ∧ ConsumptionRecord.water_emissions r
    = (ConsumptionRecord.water_kl r * factor "MUNICIPAL_WATER" 0.344)%float
  ∧ ConsumptionRecord.waste_emissions r
    = (ConsumptionRecord.waste_kg r * factor "GENERAL_WASTE" 0.58)%float
  ∧ ConsumptionRecord.total_emissions r
    = (ConsumptionRecord.electricity_emissions r
       + ConsumptionRecord.fuel_emissions r
       + ConsumptionRecord.water_emissions r
       + ConsumptionRecord.waste_emissions r)%float.

(** The invariant of the record table: primary keys are distinct and below the
    next key to hand out, and no two rows share a unique-together triple. *)
Record wf (db : DB) : Prop := mk_wf {
  wf_pk : NoDup (core_consumptionrecord db).*1;
  wf_next_id : ∀ row, row ∈ core_consumptionrecord db → (row.1 < next_id db)%Z;
  wf_unique_together : ∀ row1 row2,
    row1 ∈ core_consumptionrecord db → row2 ∈ core_consumptionrecord db →
    ConsumptionRecord.unique_together row1.2 = ConsumptionRecord.unique_together row2.2 →
    row1.1 = row2.1;
}.

(** The sample of the specification's worked example. *)
Definition sample_raw : ConsumptionRecord.t :=
  ConsumptionRecord.mk 1 "HOSTEL" (datetime._ymd2ord 2024 6 5)
    100 10 5 2 3 20 0 0 0 0 0.

(** The value a request field carries, if any. *)
Definition field_value {A} (x : field_input A) : option A :=
  match x with
  | Given a => Some a
  | _ => None
  end.

(** What the serializer demands of one field: presence when required,
    parsability, and the field's own check. *)
Definition field_ok {A} (required : bool) (valid : A → bool) (x : field_input A) : Prop :=
  match x with
  | Absent => required = false
  | Malformed => False
  | Given a => valid a = true
  end.

(** What the serializer demands of a request body.  Nothing is demanded of
    the sign or size of a quantity. *)
Definition acceptable (partial : bool) (d : ConsumptionRecordSerializer.data.t) : Prop :=
  field_ok (negb partial) ConsumptionRecordSerializer.valid_department
    (ConsumptionRecordSerializer.data.department d)
  ∧ field_ok (negb partial) (λ _, true) (ConsumptionRecordSerializer.data.date d)
  ∧ field_ok false (λ _, true) (ConsumptionRecordSerializer.data.electricity_kwh d)
  ∧ field_ok false (λ _, true) (ConsumptionRecordSerializer.data.diesel_liters d)
  ∧ field_ok false (λ _, true) (ConsumptionRecordSerializer.data.petrol_liters d)
  ∧ field_ok false (λ _, true) (ConsumptionRecordSerializer.data.lpg_kg d)
  ∧ field_ok false (λ _, true) (ConsumptionRecordSerializer.data.water_kl d)
  ∧ field_ok false (λ _, true) (ConsumptionRecordSerializer.data.waste_kg d).

(** The writable part of a request body. *)
Definition writable (d : ConsumptionRecordSerializer.data.t)
    : ConsumptionRecordSerializer.validated_data.t :=
  ConsumptionRecordSerializer.validated_data.mk
    (field_value (ConsumptionRecordSerializer.data.department d))
    (field_value (ConsumptionRecordSerializer.data.date d))
    (field_value (ConsumptionRecordSerializer.data.electricity_kwh d))
    (field_value (ConsumptionRecordSerializer.data.diesel_liters d))
    (field_value (ConsumptionRecordSerializer.data.petrol_liters d))
    (field_value (ConsumptionRecordSerializer.data.lpg_kg d))
    (field_value (ConsumptionRecordSerializer.data.water_kl d))
    (field_value (ConsumptionRecordSerializer.data.waste_kg d)).

(** The body [d] with its five derived fields replaced. *)
Definition with_derived (d : ConsumptionRecordSerializer.data.t)
    (e f w g t : field_input float) : ConsumptionRecordSerializer.data.t :=
  ConsumptionRecordSerializer.data.mk
    (ConsumptionRecordSerializer.data.department d)
    (ConsumptionRecordSerializer.data.date d)
    (ConsumptionRecordSerializer.data.electricity_kwh d)
    (ConsumptionRecordSerializer.data.diesel_liters d)
    (ConsumptionRecordSerializer.data.petrol_liters d)
    (ConsumptionRecordSerializer.data.lpg_kg d)
    (ConsumptionRecordSerializer.data.water_kl d)
    (ConsumptionRecordSerializer.data.waste_kg d)
    e f w g t.

(** The value a column takes from a request field: the submitted value, and
    [dflt] when the field is not submitted. *)
Definition submitted {A} (x : field_input A) (dflt : A) : A :=
  match x with
  | Given a => a
  | _ => dflt
  end.

(** The raw columns of a record created from the body [d] by [user]: the
    owner is the caller, department and date are the submitted ones, and each
    quantity is the submitted one, 0 when it is not submitted. *)
Definition created_from (user : Z) (d : ConsumptionRecordSerializer.data.t)
    (r : ConsumptionRecord.t) : Prop :=
  ConsumptionRecord.institute r = user
  ∧ ConsumptionRecordSerializer.data.department d = Given (ConsumptionRecord.department r)
  ∧ ConsumptionRecordSerializer.data.date d = Given (ConsumptionRecord.date r)
  ∧ ConsumptionRecord.electricity_kwh r
    = submitted (ConsumptionRecordSerializer.data.electricity_kwh d) 0%float
  ∧ ConsumptionRecord.diesel_liters r
    = submitted (ConsumptionRecordSerializer.data.diesel_liters d) 0%float
  ∧ ConsumptionRecord.petrol_liters r
    = submitted (ConsumptionRecordSerializer.data.petrol_liters d) 0%float
  ∧ ConsumptionRecord.lpg_kg r
    = submitted (ConsumptionRecordSerializer.data.lpg_kg d) 0%float
  ∧ ConsumptionRecord.water_kl r
    = submitted (ConsumptionRecordSerializer.data.water_kl d) 0%float
  ∧ ConsumptionRecord.waste_kg r
    = submitted (ConsumptionRecordSerializer.data.waste_kg d) 0%float.

(** The raw columns of the record [old] after an update with the body [d]:
    the owner is kept, and each other column is the submitted value, the old
    one when the field is not submitted. *)
Definition updated_from (old : ConsumptionRecord.t)
    (d : ConsumptionRecordSerializer.data.t) (r : ConsumptionRecord.t) : Prop :=
  ConsumptionRecord.institute r = ConsumptionRecord.institute old
  ∧ ConsumptionRecord.department r
    = submitted (ConsumptionRecordSerializer.data.department d)
        (ConsumptionRecord.department old)
  ∧ ConsumptionRecord.date r
    = submitted (ConsumptionRecordSerializer.data.date d) (ConsumptionRecord.date old)
  ∧ ConsumptionRecord.electricity_kwh r
    = submitted (ConsumptionRecordSerializer.data.electricity_kwh d)
        (ConsumptionRecord.electricity_kwh old)
  ∧ ConsumptionRecord.diesel_liters r
    = submitted (ConsumptionRecordSerializer.data.diesel_liters d)
        (ConsumptionRecord.diesel_liters old)
  ∧ ConsumptionRecord.petrol_liters r
    = submitted (ConsumptionRecordSerializer.data.petrol_liters d)
        (ConsumptionRecord.petrol_liters old)
  ∧ ConsumptionRecord.lpg_kg r
    = submitted (ConsumptionRecordSerializer.data.lpg_kg d)
        (ConsumptionRecord.lpg_kg old)
  ∧ ConsumptionRecord.water_kl r
    = submitted (ConsumptionRecordSerializer.data.water_kl d)
        (ConsumptionRecord.water_kl old)
  ∧ ConsumptionRecord.waste_kg r
    = submitted (ConsumptionRecordSerializer.data.waste_kg d)
        (ConsumptionRecord.waste_kg old).

(** Some quantity of the body is a negative number. *)
Definition has_negative_quantity (d : ConsumptionRecordSerializer.data.t) : Prop :=
  ∃ q, Given q ∈ [ConsumptionRecordSerializer.data.electricity_kwh d;
                  ConsumptionRecordSerializer.data.diesel_liters d;
                  ConsumptionRecordSerializer.data.petrol_liters d;
                  ConsumptionRecordSerializer.data.lpg_kg d;
                  ConsumptionRecordSerializer.data.water_kl d;
                  ConsumptionRecordSerializer.data.waste_kg d]
       ∧ PrimFloat.ltb q 0%float = true.

(** The request's filters read as one conjunction over the rows. *)
Definition year_matches (year : field_input Z) (d : datetime.date) : Prop :=
  match year with
  | Given y => datetime.year d = y
  | _ => True
  end.

Definition month_matches (month : field_input Z) (d : datetime.date) : Prop :=
  match month with
  | Given m => datetime.month d = m
  | _ => True
  end.

#[global] Instance year_matches_dec year d : Decision (year_matches year d).
Proof. destruct year; simpl; apply _. Defined.

#[global] Instance month_matches_dec month d : Decision (month_matches month d).
Proof. destruct month; simpl; apply _. Defined.

Definition in_filtered_set (user : Z) (year month : field_input Z)
    (row : Z * ConsumptionRecord.t) : Prop :=
  ConsumptionRecord.institute row.2 = user
  ∧ year_matches year (ConsumptionRecord.date row.2)
  ∧ month_matches month (ConsumptionRecord.date row.2).

#[global] Instance in_filtered_set_dec user year month row :
  Decision (in_filtered_set user year month row).
Proof. unfold in_filtered_set. apply _. Defined.

(** The filtered set of a dashboard request. *)
Definition filtered_set (user : Z) (year month : field_input Z) (db : DB)
    : list (Z * ConsumptionRecord.t) :=
  filter (in_filtered_set user year month) (core_consumptionrecord db).

(** The monthly trend of a set of rows, as the specification describes it:
    the rows of the trailing 365 days grouped by calendar month, in
    ascending order of month. *)
Definition trend_of (today : datetime.date) (rows : list (Z * ConsumptionRecord.t))
    : list DashboardStatsView.item.t :=
  DashboardStatsView.trend_item
    <$> group_by Z.le (λ row, TruncMonth (ConsumptionRecord.date row.2))
          (filter (λ row, (datetime.sub_days today 365 ≤ ConsumptionRecord.date row.2)%Z)
                  rows).

(** A month lies within the trailing 365 days of [today] when one of the days
    from [today - 365] to [today] falls in it. *)
Definition within_trailing_year (today month : datetime.date) : Prop :=
  ∃ d, (datetime.sub_days today 365 ≤ d ≤ today)%Z ∧ TruncMonth d = month.

(** One request or command acting on the database. *)
Inductive step (db : DB) : DB → Prop :=
  | step_post user d :
      step db (ConsumptionRecordListCreateView.post user d db).2
  | step_update partial user pk d :
      step db (ConsumptionRecordDetailView.update partial user pk d db).2
  | step_delete user pk :
      step db (ConsumptionRecordDetailView.delete user pk db).2
  | step_update_or_create defaults :
      step db (update_or_create defaults db).2
  | step_seed :
      step db (Command.handle db).2.

(** ** Example data *)

Definition empty_db : DB := mkDB [] [] 1.

(** The database after the seeding command has run on an empty one. *)
Definition seeded_db : DB := (Command.handle empty_db).2.

(** The worked example as a create request, for 5 June 2024. *)
Definition sample_body : ConsumptionRecordSerializer.data.t :=
  ConsumptionRecordSerializer.data.mk
    (Given "HOSTEL") (Given (datetime._ymd2ord 2024 6 5))
    (Given 100%float) (Given 10%float) (Given 5%float)
    (Given 2%float) (Given 3%float) (Given 20%float)
    Absent Absent Absent Absent Absent.

(** Institute 7 has created the sample record. *)
Definition one_record_db : DB :=
  (ConsumptionRecordListCreateView.post 7 sample_body seeded_db).2.

(** A create request with a negative electricity reading. *)
Definition negative_body : ConsumptionRecordSerializer.data.t :=
  ConsumptionRecordSerializer.data.mk
    (Given "ADMIN") (Given (datetime._ymd2ord 2024 8 5))
    (Given (-100)%float) Absent Absent Absent Absent Absent
    Absent Absent Absent Absent Absent.

(** An update of the sample record that doubles its electricity reading. *)
Definition doubled_body : ConsumptionRecordSerializer.data.t :=
  ConsumptionRecordSerializer.data.mk
    (Given "HOSTEL") (Given (datetime._ymd2ord 2024 6 5))
    (Given 200%float) (Given 10%float) (Given 5%float)
    (Given 2%float) (Given 3%float) (Given 20%float)
    Absent Absent Absent Absent Absent.

(** A partial update that submits a new electricity reading. *)
Definition reading_body : ConsumptionRecordSerializer.data.t :=
  ConsumptionRecordSerializer.data.mk
    Absent Absent (Given 200%float) Absent Absent Absent Absent Absent
    Absent Absent Absent Absent Absent.

(** A new grid factor. *)
Definition grid_factor_2025 : EmissionFactor.t :=
  EmissionFactor.mk "ELECTRICITY" "GRID" 0.71 "kWh" None (Some "CEA 2025").

(** The seeded table with the CNG factor changed, the e-waste row dropped and
    a row for an unknown sub-category added. *)
Definition other_factors : list EmissionFactor.t :=
  EmissionFactor.mk "FUEL" "BIOGAS" 1.5 "kg" None None
  :: ((λ ef, if decide (EmissionFactor.sub_category ef = "CNG")
             then EmissionFactor.mk "FUEL" "CNG" 9.99 "kg" None None else ef)
        <$> filter (λ ef, EmissionFactor.sub_category ef ≠ "E_WASTE")
                   Command.emission_factors).

(** The evaluation date of the dashboard examples. *)
Definition today_example : datetime.date := datetime._ymd2ord 2024 6 15.

(** The sample quantities again, dated 25 December 2024. *)
Definition december_body : ConsumptionRecordSerializer.data.t :=
  ConsumptionRecordSerializer.data.mk
    (Given "LABS") (Given (datetime._ymd2ord 2024 12 25))
    (Given 100%float) (Given 10%float) (Given 5%float)
    (Given 2%float) (Given 3%float) (Given 20%float)
    Absent Absent Absent Absent Absent.

(** Institute 7 holds the sample record of June and the one of December. *)
Definition two_record_db : DB :=
  (ConsumptionRecordListCreateView.post 7 december_body one_record_db).2.

(** ** Notions for the properties of the store and the views *)

(** One write request of [user]. *)
Inductive request_by (user : Z) (db : DB) : DB → Prop :=
  | by_post d :
      request_by user db (ConsumptionRecordListCreateView.post user d db).2
  | by_update partial pk d :
      request_by user db (ConsumptionRecordDetailView.update partial user pk d db).2
  | by_delete pk :
      request_by user db (ConsumptionRecordDetailView.delete user pk db).2.

(** The total of a row is the sum of its four components. *)
Definition total_is_sum (r : ConsumptionRecord.t) : Prop :=
  ConsumptionRecord.total_emissions r
  = (ConsumptionRecord.electricity_emissions r
     + ConsumptionRecord.fuel_emissions r
     + ConsumptionRecord.water_emissions r
     + ConsumptionRecord.waste_emissions r)%float.

(** [name] is what is shown for the department [code]: the name that
    [DEPARTMENT_CHOICES] pairs with the code, and the code itself when the
    choices do not list it. *)
Definition display_name_of (code name : string) : Prop :=
  (code, name) ∈ ConsumptionRecord.DEPARTMENT_CHOICES
  ∨ ((code ∉ ConsumptionRecord.DEPARTMENT_CHOICES.*1) ∧ name = code).

(** A request body without any field. *)
Definition empty_body : ConsumptionRecordSerializer.data.t :=
  ConsumptionRecordSerializer.data.mk
    Absent Absent Absent Absent Absent Absent Absent Absent
    Absent Absent Absent Absent Absent.

(** The key of a factor row. *)
Definition factor_key (ef : EmissionFactor.t) : string * string :=
  (EmissionFactor.category ef, EmissionFactor.sub_category ef).

(** A factor table that holds an outdated grid factor and a factor for a
    fuel the command does not know. *)
Definition biogas_factor : EmissionFactor.t :=
  EmissionFactor.mk "FUEL" "BIOGAS" 1.5 "kg" None None.

Definition stale_factors_db : DB := mkDB [grid_factor_2025; biogas_factor] [] 1.

(** Institute 8 creates a record for the same department and day as
    institute 7's sample record. *)
Definition shared_db : DB :=
  (ConsumptionRecordListCreateView.post 8 sample_body two_record_db).2.

(** A request that moves a record to the department and day of the December
    record. *)
Definition moved_body : ConsumptionRecordSerializer.data.t :=
  ConsumptionRecordSerializer.data.mk
    (Given "LABS") (Given (datetime._ymd2ord 2024 12 25))
    Absent Absent Absent Absent Absent Absent
    Absent Absent Absent Absent Absent.

(** A second record of the hostel, dated 5 July 2024. *)
Definition july_body : ConsumptionRecordSerializer.data.t :=
  ConsumptionRecordSerializer.data.mk
    (Given "HOSTEL") (Given (datetime._ymd2ord 2024 7 5))
    (Given 50%float) Absent Absent Absent Absent Absent
    Absent Absent Absent Absent Absent.

(** Institute 7 holds two records of the hostel and one of the laboratories,
    institute 8 one of the hostel. *)
Definition four_record_db : DB :=
  (ConsumptionRecordListCreateView.post 7 july_body shared_db).2.

(** * Properties *)

(** ** The builtins, checked on known values *)

Example float_round2_known_values :
  float_round2 2.675 = 2.67%float
  ∧ float_round2 0.125 = 0.12%float
  ∧ float_round2 0.375 = 0.38%float
  ∧ float_round2 1.005 = 1.0%float
  ∧ float_round2 138.942 = 138.94%float
  ∧ float_round2 (-2.675) = (-2.67)%float
  ∧ float_round2 1e22 = 1e22%float
  ∧ float_round2 infinity = infinity.
Proof. repeat split; vm_compute; reflexivity. Qed.

Example or_0_round2_None : round2 (or_0 None) = PyInt 0.
Proof. reflexivity. Qed.

Example ord2ymd_known_values :
  datetime._ord2ymd 1%Z = (1, 1, 1)%Z
  ∧ datetime._ord2ymd 719163%Z = (1970, 1, 1)%Z
  ∧ datetime._ord2ymd 730120%Z = (2000, 1, 1)%Z
  ∧ datetime._ord2ymd 3652059%Z = (9999, 12, 31)%Z
  ∧ datetime._ymd2ord 2024 2 29 = 738945%Z
  ∧ datetime._ord2ymd (datetime._ymd2ord 2024 2 29) = (2024, 2, 29)%Z
  ∧ datetime._ord2ymd (datetime._ymd2ord 2024 12 31) = (2024, 12, 31)%Z
  ∧ datetime._ord2ymd (datetime._ymd2ord 1900 3 1) = (1900, 3, 1)%Z.
Proof. repeat split; vm_compute; reflexivity. Qed.

Example TruncMonth_strftime :
  TruncMonth (datetime._ymd2ord 2024 6 15) = datetime._ymd2ord 2024 6 1
  ∧ datetime.strftime_Y_m (datetime._ymd2ord 2024 6 15) = "2024-06".
Proof. split; vm_compute; reflexivity. Qed.

(** Seeding an empty database creates the ten rows, and seeding again
    updates them. *)
Example handle_counts :
  (Command.handle empty_db).1 = Ok (10, 0)
  ∧ (Command.handle seeded_db).1 = Ok (0, 10)
  ∧ (Command.handle seeded_db).2 = seeded_db.
Proof. repeat split; vm_compute; reflexivity. Qed.

(** ** The factor dictionary *)

Lemma factors_snoc efs ef :
  factors (efs ++ [ef])
  = <[EmissionFactor.sub_category ef := EmissionFactor.factor ef]> (factors efs).
Proof. unfold factors. by rewrite foldl_app. Qed.

Lemma factors_lookup efs k : factors efs !! k = factor_lookup efs k.
Proof.
  unfold factor_lookup.
  induction efs as [|ef efs IH] using rev_ind; [done|].
  rewrite factors_snoc, filter_app, filter_cons, filter_nil.
  destruct (decide (EmissionFactor.sub_category ef = k)) as [<-|Hne].
  - by rewrite lookup_insert_eq, last_snoc.
  - by rewrite lookup_insert_ne, app_nil_r.
Qed.

Lemma factor_lookup_absent efs k :
  factor_lookup efs k = None ↔ ∀ ef, ef ∈ efs → EmissionFactor.sub_category ef ≠ k.
Proof.
  unfold factor_lookup. rewrite fmap_None, last_None. split.
  - intros Hnil ef Hin Heq.
    assert (ef ∈ filter (λ ef, EmissionFactor.sub_category ef = k) efs) as Hf
      by (by apply list_elem_of_filter).
    rewrite Hnil in Hf. by apply elem_of_nil in Hf.
  - intros Hall. induction efs as [|ef efs IH]; [done|].
    rewrite filter_cons_False by (apply Hall; left).
    apply IH. intros ef' Hin. apply Hall. by right.
Qed.

Lemma factor_lookup_present efs k ef :
  last (filter (λ ef, EmissionFactor.sub_category ef = k) efs) = Some ef →
  factor_lookup efs k = Some (EmissionFactor.factor ef)
  ∧ ef ∈ efs ∧ EmissionFactor.sub_category ef = k.
Proof.
  intros Hlast. unfold factor_lookup. rewrite Hlast. split; [done|].
  apply last_Some_elem_of, list_elem_of_filter in Hlast. tauto.
Qed.

(** ** The calculator *)

Lemma calculate_emissions_same_raw efs self :
  same_raw (calculate_emissions efs self) self.
Proof. by repeat split. Qed.

Lemma calculate_emissions_derived efs self :
  derived_by (λ k dflt, default dflt (factor_lookup efs k)) (calculate_emissions efs self).
Proof.
  unfold derived_by, calculate_emissions, dict_get; simpl.
  by rewrite !factors_lookup.
Qed.

(** The calculator reads the table only through the six sub-categories. *)
Lemma calculate_emissions_ext efs1 efs2 self :
  (∀ k, k ∈ used_sub_categories.*1 → factor_lookup efs1 k = factor_lookup efs2 k) →
  calculate_emissions efs1 self = calculate_emissions efs2 self.
Proof.
  intros Hagree. unfold calculate_emissions, dict_get; simpl.
  rewrite !factors_lookup.
  rewrite (Hagree "GRID"), (Hagree "DIESEL"), (Hagree "PETROL"), (Hagree "LPG"),
    (Hagree "MUNICIPAL_WATER"), (Hagree "GENERAL_WASTE") by (cbn; set_solver).
  done.
Qed.

(** The derived columns already stored on the instance play no part. *)
Lemma calculate_emissions_ignores_derived efs r1 r2 :
  same_raw r1 r2 → calculate_emissions efs r1 = calculate_emissions efs r2.
Proof.
  destruct r1, r2. unfold same_raw; simpl.
  intros (-> & -> & -> & -> & -> & -> & -> & -> & ->). done.
Qed.

(** ** The record table *)

Lemma violates_unique_together_true pk r rows :
  violates_unique_together pk r rows = true ↔
  ∃ row, row ∈ rows
         ∧ ConsumptionRecord.unique_together row.2 = ConsumptionRecord.unique_together r
         ∧ Some row.1 ≠ pk.
Proof.
  unfold violates_unique_together. rewrite bool_decide_eq_true, Exists_exists.
  naive_solver.
Qed.

Lemma violates_unique_together_false pk r rows :
  violates_unique_together pk r rows = false ↔
  ∀ row, row ∈ rows →
         ConsumptionRecord.unique_together row.2 = ConsumptionRecord.unique_together r →
         Some row.1 = pk.
Proof.
  rewrite <-not_true_iff_false, violates_unique_together_true. split.
  - intros Hno row Hin Heq. destruct (decide (Some row.1 = pk)); [done|].
    exfalso. apply Hno. eauto.
  - intros Hall (row & Hin & Heq & Hne). by apply Hne, Hall.
Qed.

Lemma lookup_row_Some pk rows r :
  lookup_row pk rows = Some r → (pk, r) ∈ rows.
Proof.
  unfold lookup_row. rewrite fmap_Some. intros ([i [k r']] & Hfind & ->).
  apply list_find_Some in Hfind as (Hi & Hk & _). simpl in *. subst k.
  by eapply list_elem_of_lookup_2.
Qed.

Lemma lookup_row_None pk rows :
  lookup_row pk rows = None ↔ ∀ row, row ∈ rows → row.1 ≠ pk.
Proof.
  unfold lookup_row. rewrite fmap_None, list_find_None, Forall_forall. done.
Qed.

Lemma NoDup_fst_unique {A} (l : list (Z * A)) k a b :
  NoDup l.*1 → (k, a) ∈ l → (k, b) ∈ l → a = b.
Proof.
  induction l as [|[k' c] l IH]; simpl; intros Hnd Ha Hb.
  - by apply elem_of_nil in Ha.
  - apply NoDup_cons in Hnd as [Hk' Hnd].
    apply elem_of_cons in Ha as [Ha|Ha], Hb as [Hb|Hb]; simplify_eq; try done.
    + exfalso. apply Hk'. apply list_elem_of_fmap. by exists (k', b).
    + exfalso. apply Hk'. apply list_elem_of_fmap. by exists (k', a).
    + by apply IH.
Qed.

Lemma lookup_row_elem_of pk rows r :
  NoDup rows.*1 → (pk, r) ∈ rows → lookup_row pk rows = Some r.
Proof.
  intros Hnd Hin.
  destruct (lookup_row pk rows) as [r'|] eqn:Hl.
  - f_equal. apply lookup_row_Some in Hl. by eapply NoDup_fst_unique.
  - exfalso. by eapply (proj1 (lookup_row_None pk rows) Hl (pk, r)).
Qed.

Lemma replace_row_fst pk r rows : (replace_row pk r rows).*1 = rows.*1.
Proof.
  unfold replace_row. rewrite <-list_fmap_compose. apply list_fmap_ext.
  intros i [k x] _. simpl. by case_decide; simplify_eq.
Qed.

Lemma elem_of_replace_row pk r rows row :
  row ∈ replace_row pk r rows ↔
  (row = (pk, r) ∧ ∃ old, (pk, old) ∈ rows) ∨ (row ∈ rows ∧ row.1 ≠ pk).
Proof.
  unfold replace_row. rewrite list_elem_of_fmap. split.
  - intros ([k x] & -> & Hin). simpl. case_decide; simplify_eq; eauto.
  - intros [[-> [old Hin]]|[Hin Hne]].
    + exists (pk, old). simpl. by rewrite decide_True.
    + exists row. by rewrite decide_False.
Qed.

Lemma owned_by_elem_of user rows row :
  row ∈ owned_by user rows ↔ ConsumptionRecord.institute row.2 = user ∧ row ∈ rows.
Proof. unfold owned_by. by rewrite list_elem_of_filter. Qed.

Lemma owned_by_NoDup user rows : NoDup rows.*1 → NoDup (owned_by user rows).*1.
Proof.
  unfold owned_by. induction rows as [|row rows IH]; [done|].
  rewrite fmap_cons, NoDup_cons. intros [Hrow Hnd].
  rewrite filter_cons. case_decide; [|by apply IH].
  rewrite fmap_cons, NoDup_cons. split; [|by apply IH].
  rewrite list_elem_of_fmap in *. intros (row' & Heq & Hin). apply Hrow.
  exists row'. split; [done|]. apply list_elem_of_filter in Hin. tauto.
Qed.

(** What [save] does, by cases. *)
Lemma save_cases pk self db out db' :
  save pk self db = (out, db') →
  let r := calculate_emissions (core_emissionfactor db) self in
  let rows := core_consumptionrecord db in
  (out = Err IntegrityError ∧ db' = db ∧ violates_unique_together pk r rows = true)
  ∨ (violates_unique_together pk r rows = false
     ∧ core_emissionfactor db' = core_emissionfactor db
     ∧ ∃ k, out = Ok (k, r)
         ∧ ((pk = Some k ∧ is_Some (lookup_row k rows)
             ∧ core_consumptionrecord db' = replace_row k r rows
             ∧ next_id db' = next_id db)
            ∨ (pk = Some k ∧ lookup_row k rows = None
               ∧ core_consumptionrecord db' = rows ++ [(k, r)]
               ∧ next_id db' = Z.max (next_id db) (k + 1))
            ∨ (pk = None ∧ k = next_id db
               ∧ core_consumptionrecord db' = rows ++ [(k, r)]
               ∧ next_id db' = (k + 1)%Z))).
Proof.
  unfold save. simpl. intros Hs.
  destruct (violates_unique_together _ _ _) eqn:Hv; [injection Hs as <- <-; by left|].
  right. split; [done|]. destruct pk as [k|].
  - case_bool_decide as Hl; injection Hs as <- <-; simpl; (split; [done|]); exists k.
    + split; [done|]. left. done.
    + split; [done|]. right; left. repeat split; try done.
      by apply eq_None_not_Some.
  - injection Hs as <- <-. simpl. split; [done|]. exists (next_id db). split; [done|].
    right; right. done.
Qed.

Lemma save_Err pk self db e db' :
  save pk self db = (Err e, db') → e = IntegrityError ∧ db' = db.
Proof.
  intros Hs. apply save_cases in Hs as [(He & Hdb & _)|(_ & _ & k & Hout & _)].
  - by injection He as <-.
  - discriminate Hout.
Qed.

Lemma save_Ok pk self db res db' :
  save pk self db = (Ok res, db') →
  res.2 = calculate_emissions (core_emissionfactor db) self
  ∧ res ∈ core_consumptionrecord db'
  ∧ core_emissionfactor db' = core_emissionfactor db
  ∧ (∀ k, pk = Some k → res.1 = k)
  ∧ (∀ row, row.1 ≠ res.1 →
       row ∈ core_consumptionrecord db' ↔ row ∈ core_consumptionrecord db).
Proof.
  intros Hs. apply save_cases in Hs as [[Hout _]|(_ & Hefs & k & Hres & Hcase)]; [done|].
  injection Hres as ->. simpl. split; [done|].
  destruct Hcase as [(-> & [old Hold] & -> & _)|[(-> & Hnone & -> & _)|(-> & -> & -> & _)]].
  - apply lookup_row_Some in Hold. repeat split.
    + apply elem_of_replace_row. left. eauto.
    + done.
    + by intros ? [= ->].
    + rewrite elem_of_replace_row. intros [[Heq _]|[Hin _]]; [by subst row|done].
    + intros Hin. apply elem_of_replace_row. by right.
  - repeat split.
    + set_solver.
    + done.
    + by intros ? [= ->].
    + rewrite elem_of_app, list_elem_of_singleton. intros [Hin| ->]; [done|]. by simpl in *.
    + set_solver.
  - repeat split.
    + set_solver.
    + done.
    + done.
    + rewrite elem_of_app, list_elem_of_singleton. intros [Hin| ->]; [done|]. by simpl in *.
    + set_solver.
Qed.

(** Appending a row with a fresh key and a fresh triple keeps the invariant. *)
Lemma wf_append efs rows n k r n' :
  wf (mkDB efs rows n) →
  (∀ row, row ∈ rows → row.1 ≠ k) →
  (∀ row, row ∈ rows →
     ConsumptionRecord.unique_together row.2 ≠ ConsumptionRecord.unique_together r) →
  (n ≤ n')%Z → (k < n')%Z →
  wf (mkDB efs (rows ++ [(k, r)]) n').
Proof.
  intros [Hpk Hnext Hut] Hfresh Htriple Hn Hk. simpl in *. split; simpl.
  - rewrite fmap_app. apply NoDup_app. split; [done|]. split; [|apply NoDup_singleton].
    intros k' Hin Hk'. apply list_elem_of_singleton in Hk' as ->.
    apply list_elem_of_fmap in Hin as (row & Heq & Hin). by apply (Hfresh row).
  - intros row [Hin| ->%list_elem_of_singleton]%elem_of_app; [|done].
    specialize (Hnext row Hin). lia.
  - intros row1 row2 [H1| ->%list_elem_of_singleton]%elem_of_app
      [H2| ->%list_elem_of_singleton]%elem_of_app Heq; simpl in *.
    + by apply Hut.
    + by destruct (Htriple row1 H1).
    + by destruct (Htriple row2 H2).
    + done.
Qed.

(** [save] keeps the invariant. *)
Lemma save_wf pk self db out db' :
  wf db → save pk self db = (out, db') → wf db'.
Proof.
  intros Hwf Hs. pose proof Hwf as [Hpk Hnext Hut].
  apply save_cases in Hs as [(_ & -> & _)|(Hv & Hefs & k & _ & Hcase)]; [done|].
  rewrite violates_unique_together_false in Hv.
  destruct db as [efs rows n], db' as [efs' rows' n']. simpl in *. subst efs'.
  destruct Hcase as [(-> & _ & -> & ->)|[(-> & Hnone & -> & ->)|(-> & -> & -> & ->)]].
  - split; simpl.
    + by rewrite replace_row_fst.
    + intros row [[-> [old Hold]]|[Hin _]]%elem_of_replace_row; [|by apply Hnext].
      by apply (Hnext (k, old)).
    + intros row1 row2 [[-> _]|[H1 Hk1]]%elem_of_replace_row
        [[-> _]|[H2 Hk2]]%elem_of_replace_row Heq; simpl in *.
      * done.
      * specialize (Hv row2 H2 (eq_sym Heq)). by simplify_eq.
      * specialize (Hv row1 H1 Heq). by simplify_eq.
      * by apply Hut.
  - rewrite lookup_row_None in Hnone.
    apply (wf_append _ _ n); [done|done| |lia|lia].
    intros row Hin Heq. specialize (Hv row Hin Heq). simplify_eq.
    by apply (Hnone row).
  - apply (wf_append _ _ n); [done| | |lia|lia].
    + intros row Hin Heq. specialize (Hnext row Hin). simpl in *. lia.
    + intros row Hin Heq. by specialize (Hv row Hin Heq).
Qed.

(** After a successful [save] the table holds the saved record under its key. *)
Lemma save_lookup pk self db res db' :
  wf db → save pk self db = (Ok res, db') →
  lookup_row res.1 (core_consumptionrecord db') = Some res.2.
Proof.
  intros Hwf Hs. pose proof (save_wf _ _ _ _ _ Hwf Hs) as [Hpk' _ _].
  apply save_Ok in Hs as (_ & Hin & _). destruct res as [k r].
  by apply lookup_row_elem_of.
Qed.

(** ** The factor table and the seeding command *)

Lemma update_or_create_frame defaults db out db' :
  update_or_create defaults db = (out, db') →
  core_consumptionrecord db' = core_consumptionrecord db ∧ next_id db' = next_id db.
Proof. unfold update_or_create. case_bool_decide; by intros [= <- <-]. Qed.

Lemma update_or_create_elem_of defaults db out db' :
  update_or_create defaults db = (out, db') →
  defaults ∈ core_emissionfactor db'.
Proof.
  unfold update_or_create. case_bool_decide as Hex; intros [= <- <-]; simpl.
  - apply Exists_exists in Hex as (ef & Hin & Hkey).
    apply list_elem_of_fmap. exists ef. by rewrite decide_True.
  - set_solver.
Qed.

Lemma seed_frame efs c u db out db' :
  Command.seed efs c u db = (out, db') →
  core_consumptionrecord db' = core_consumptionrecord db ∧ next_id db' = next_id db.
Proof.
  revert c u db. induction efs as [|ef efs IH]; simpl; intros c u db.
  - by intros [= <- <-].
  - unfold bind. destruct (update_or_create ef db) as [[[ef' created]|e] db1] eqn:Hu.
    + apply update_or_create_frame in Hu as [Hr Hn].
      destruct created; simpl; intros Hs; apply IH in Hs as [Hr' Hn'];
        split; congruence.
    + apply update_or_create_frame in Hu as [Hr Hn]. by intros [= <- <-].
Qed.

(** ** The serializer *)

Lemma run_field_nil {A} name required valid (x : field_input A) :
  (ConsumptionRecordSerializer.run_field name required valid x).1 = []
  ↔ field_ok required valid x.
Proof.
  destruct x as [| |a]; simpl.
  - by destruct required.
  - done.
  - by destruct (valid a).
Qed.

Lemma run_field_value {A} name required valid (x : field_input A) :
  field_ok required valid x →
  (ConsumptionRecordSerializer.run_field name required valid x).2 = field_value x.
Proof.
  destruct x as [| |a]; simpl; [by destruct required|done|].
  by intros ->.
Qed.

(** Validation succeeds exactly on acceptable bodies, and then returns their
    writable part. *)
Lemma to_internal_value_Ok partial d vd :
  ConsumptionRecordSerializer.to_internal_value partial d = Ok vd
  ↔ acceptable partial d ∧ vd = writable d.
Proof.
  unfold ConsumptionRecordSerializer.to_internal_value, acceptable, writable.
  rewrite <-!run_field_nil.
  destruct (_ ++ _) as [|name errors] eqn:Herr.
  - repeat (apply app_eq_nil in Herr as [? Herr]).
    split.
    + intros [= <-]. split; [done|].
      rewrite !run_field_value by (by eapply run_field_nil). done.
    + intros [_ ->].
      rewrite !run_field_value by (by eapply run_field_nil). done.
  - split; [done|]. intros [(E1 & E2 & E3 & E4 & E5 & E6 & E7 & E8) _].
    by rewrite E1, E2, E3, E4, E5, E6, E7, E8 in Herr.
Qed.

Lemma to_internal_value_Err partial d e :
  ConsumptionRecordSerializer.to_internal_value partial d = Err e →
  ∃ fields, e = ValidationError fields ∧ fields ≠ [].
Proof.
  unfold ConsumptionRecordSerializer.to_internal_value.
  destruct (_ ++ _) as [|name errors]; [done|]. intros [= <-]. eauto.
Qed.

Lemma to_internal_value_with_derived partial d e f w g t :
  ConsumptionRecordSerializer.to_internal_value partial (with_derived d e f w g t)
  = ConsumptionRecordSerializer.to_internal_value partial d.
Proof. done. Qed.

Lemma is_valid_cases partial d db out db' :
  is_valid partial d db = (out, db') →
  db' = db
  ∧ ((∃ fields, out = Err (ValidationError fields) ∧ ¬ acceptable partial d)
     ∨ (out = Ok (writable d) ∧ acceptable partial d)).
Proof.
  unfold is_valid.
  destruct (ConsumptionRecordSerializer.to_internal_value partial d) as [vd|e] eqn:Hv;
    intros [= <- <-]; (split; [done|]).
  - apply to_internal_value_Ok in Hv as [Hacc ->]. by right.
  - left. destruct (to_internal_value_Err _ _ _ Hv) as (fields & -> & _).
    exists fields. split; [done|]. intros Hacc.
    assert (ConsumptionRecordSerializer.to_internal_value partial d = Ok (writable d)) as Hok
      by (by apply to_internal_value_Ok).
    congruence.
Qed.

(** ** The record views *)

(** What a create request does, by cases. *)
Lemma post_cases user d db out db' :
  ConsumptionRecordListCreateView.post user d db = (out, db') →
  (¬ acceptable false d ∧ db' = db ∧ ∃ fields, out = Err (ValidationError fields))
  ∨ (acceptable false d
     ∧ ∃ date, ConsumptionRecordSerializer.data.date d = Given date
        ∧ save None (ConsumptionRecordSerializer.new_instance user (writable d) date) db
          = (out, db')).
Proof.
  unfold ConsumptionRecordListCreateView.post, bind.
  destruct (is_valid false d db) as [[vd|e] db1] eqn:Hv;
    apply is_valid_cases in Hv as [-> [(fields & Hout & Hacc)|[Hout Hacc]]];
    simplify_eq.
  - intros Hc. right. split; [done|].
    pose proof Hacc as (_ & Hdate & _).
    unfold ConsumptionRecordSerializer.create in Hc. simpl in Hc.
    destruct (ConsumptionRecordSerializer.data.date d) as [| |date]; try done.
    by exists date.
  - intros [= <- <-]. left. eauto.
Qed.

(** What an update request does, by cases. *)
Lemma update_cases partial user pk d db out db' :
  ConsumptionRecordDetailView.update partial user pk d db = (out, db') →
  (lookup_row pk (owned_by user (core_consumptionrecord db)) = None
   ∧ out = Err Http404 ∧ db' = db)
  ∨ (∃ r, lookup_row pk (owned_by user (core_consumptionrecord db)) = Some r
     ∧ ((¬ acceptable partial d ∧ db' = db ∧ ∃ fields, out = Err (ValidationError fields))
        ∨ (acceptable partial d
           ∧ save (Some pk) (ConsumptionRecordSerializer.set_attrs r (writable d)) db
             = (out, db')))).
Proof.
  unfold ConsumptionRecordDetailView.update, bind,
    ConsumptionRecordDetailView.get_object, ConsumptionRecordDetailView.get_queryset.
  destruct (lookup_row pk _) as [r|]; [|intros [= <- <-]; by left].
  intros Hu. right. exists r. split; [done|].
  destruct (is_valid partial d db) as [[vd|e] db1] eqn:Hv;
    apply is_valid_cases in Hv as [-> [(fields & Hout & Hacc)|[Hout Hacc]]];
    simplify_eq.
  - by right.
  - left. eauto.
Qed.

(** A rejected request writes nothing. *)
Lemma post_Err user d db e db' :
  ConsumptionRecordListCreateView.post user d db = (Err e, db') → db' = db.
Proof.
  intros [(_ & -> & _)|(_ & date & _ & Hs)]%post_cases; [done|].
  by apply save_Err in Hs as [_ ->].
Qed.

Lemma update_Err partial user pk d db e db' :
  ConsumptionRecordDetailView.update partial user pk d db = (Err e, db') → db' = db.
Proof.
  intros [(_ & _ & ->)|(r & _ & [(_ & -> & _)|[_ Hs]])]%update_cases; [done|done|].
  by apply save_Err in Hs as [_ ->].
Qed.

(** The views keep the invariant of the record table. *)
Lemma post_wf user d db out db' :
  wf db → ConsumptionRecordListCreateView.post user d db = (out, db') → wf db'.
Proof.
  intros Hwf [(_ & -> & _)|(_ & date & _ & Hs)]%post_cases; [done|].
  by eapply save_wf.
Qed.

Lemma update_wf partial user pk d db out db' :
  wf db → ConsumptionRecordDetailView.update partial user pk d db = (out, db') → wf db'.
Proof.
  intros Hwf [(_ & _ & ->)|(r & _ & [(_ & -> & _)|[_ Hs]])]%update_cases; [done|done|].
  by eapply save_wf.
Qed.

Lemma wf_empty efs n : wf (mkDB efs [] n).
Proof.
  split; simpl.
  - apply NoDup_nil_2.
  - by intros row ?%elem_of_nil.
  - by intros row1 row2 ?%elem_of_nil.
Qed.

(** The invariant speaks of the record table and the key counter only. *)
Lemma wf_frame db db' :
  core_consumptionrecord db' = core_consumptionrecord db →
  next_id db' = next_id db →
  wf db → wf db'.
Proof.
  intros Hrows Hnext [Hpk Hn Hut]. split; rewrite ?Hrows, ?Hnext; done.
Qed.

Lemma delete_wf user pk db out db' :
  wf db → ConsumptionRecordDetailView.delete user pk db = (out, db') → wf db'.
Proof.
  intros Hwf. pose proof Hwf as [Hpk Hn Hut].
  unfold ConsumptionRecordDetailView.delete, bind,
    ConsumptionRecordDetailView.get_object.
  destruct (lookup_row pk _) as [r|]; [|by intros [= <- <-]].
  intros [= <- <-]. split; simpl.
  - apply NoDup_fmap_fst.
    + intros k a b [_ Ha]%list_elem_of_filter [_ Hb]%list_elem_of_filter.
      by eapply NoDup_fst_unique.
    + apply NoDup_filter. by eapply NoDup_fmap_1.
  - intros row [_ Hin]%list_elem_of_filter. by apply Hn.
  - intros row1 row2 [_ H1]%list_elem_of_filter [_ H2]%list_elem_of_filter.
    by apply Hut.
Qed.

(** Every request and command keeps the invariant, so it holds of every
    database that grew from an empty record table. *)
Lemma step_wf db db' : step db db' → wf db → wf db'.
Proof.
  intros Hstep Hwf. destruct Hstep.
  - eapply post_wf; [done|]. apply surjective_pairing.
  - eapply update_wf; [done|]. apply surjective_pairing.
  - eapply delete_wf; [done|]. apply surjective_pairing.
  - destruct (update_or_create_frame defaults db _ _ (surjective_pairing _)).
    by eapply wf_frame.
  - destruct (seed_frame _ _ _ db _ _
                (surjective_pairing (Command.handle db))).
    by eapply wf_frame.
Qed.

Lemma steps_wf db db' : rtc step db db' → wf db → wf db'.
Proof.
  induction 1 as [db|db1 db2 db3 Hstep _ IH]; [done|].
  intros Hwf. by apply IH, (step_wf db1).
Qed.

Lemma reachable_wf efs n db : rtc step (mkDB efs [] n) db → wf db.
Proof. intros Hsteps. apply (steps_wf _ _ Hsteps), wf_empty. Qed.

(** Forward forms: what the views do on acceptable bodies. *)
Lemma is_valid_acceptable partial d db :
  acceptable partial d → is_valid partial d db = (Ok (writable d), db).
Proof.
  intros Hacc. unfold is_valid.
  by rewrite (proj2 (to_internal_value_Ok partial d (writable d)) (conj Hacc eq_refl)).
Qed.

Lemma post_acceptable user d db date :
  acceptable false d →
  ConsumptionRecordSerializer.data.date d = Given date →
  ConsumptionRecordListCreateView.post user d db
  = save None (ConsumptionRecordSerializer.new_instance user (writable d) date) db.
Proof.
  intros Hacc Hdate. unfold ConsumptionRecordListCreateView.post, bind.
  rewrite is_valid_acceptable by done.
  unfold ConsumptionRecordSerializer.create. simpl. by rewrite Hdate.
Qed.

Lemma update_acceptable partial user pk d db r :
  lookup_row pk (owned_by user (core_consumptionrecord db)) = Some r →
  acceptable partial d →
  ConsumptionRecordDetailView.update partial user pk d db
  = save (Some pk) (ConsumptionRecordSerializer.set_attrs r (writable d)) db.
Proof.
  intros Hl Hacc.
  unfold ConsumptionRecordDetailView.update, bind,
    ConsumptionRecordDetailView.get_object, ConsumptionRecordDetailView.get_queryset.
  rewrite Hl. by rewrite is_valid_acceptable.
Qed.

Lemma acceptable_partial partial d : acceptable false d → acceptable partial d.
Proof.
  destruct partial; [|done]. unfold acceptable.
  intros (Hdep & Hdate & Hrest). repeat split; try apply Hrest.
  - by destruct (ConsumptionRecordSerializer.data.department d).
  - by destruct (ConsumptionRecordSerializer.data.date d).
Qed.

Lemma save_conflict pk self db :
  violates_unique_together pk self (core_consumptionrecord db) = true →
  save pk self db = (Err IntegrityError, db).
Proof.
  intros Hv. unfold save.
  change (violates_unique_together pk (calculate_emissions (core_emissionfactor db) self)
            (core_consumptionrecord db))
    with (violates_unique_together pk self (core_consumptionrecord db)).
  by rewrite Hv.
Qed.

Lemma save_existing pk self db :
  violates_unique_together (Some pk) self (core_consumptionrecord db) = false →
  is_Some (lookup_row pk (core_consumptionrecord db)) →
  save (Some pk) self db
  = (Ok (pk, calculate_emissions (core_emissionfactor db) self),
     mkDB (core_emissionfactor db)
          (replace_row pk (calculate_emissions (core_emissionfactor db) self)
             (core_consumptionrecord db))
          (next_id db)).
Proof.
  intros Hv Hl. unfold save.
  change (violates_unique_together (Some pk)
            (calculate_emissions (core_emissionfactor db) self)
            (core_consumptionrecord db))
    with (violates_unique_together (Some pk) self (core_consumptionrecord db)).
  rewrite Hv. by rewrite bool_decide_eq_true_2.
Qed.

(** Whether [save] succeeds does not depend on the factor table. *)
Lemma save_succeeds_for_any_factors pk self efs rows n res db' efs' :
  save pk self (mkDB efs rows n) = (Ok res, db') →
  ∃ res' db'', save pk self (mkDB efs' rows n) = (Ok res', db'').
Proof.
  unfold save. simpl.
  change (violates_unique_together pk (calculate_emissions efs self) rows)
    with (violates_unique_together pk self rows).
  change (violates_unique_together pk (calculate_emissions efs' self) rows)
    with (violates_unique_together pk self rows).
  destruct (violates_unique_together pk self rows); [done|]. intros _.
  destruct pk as [k|]; [case_bool_decide|]; eauto.
Qed.

(** * The emissions calculator on save *)

(** C1: every record that is saved carries derived fields computed by the
    five formulas from its raw quantities, with the factor of each of the six
    sub-categories read from the factor table and replaced by its hardcoded
    default when the table has no row for it; whether the save succeeds does
    not depend on the factor table, so missing reference data never makes the
    calculation fail. *)
Theorem save_computes_emissions pk self db res db' :
  save pk self db = (Ok res, db') →
  let efs := core_emissionfactor db in
  let factor := λ k dflt, default dflt (factor_lookup efs k) in
  res ∈ core_consumptionrecord db'
  ∧ res.2 = calculate_emissions efs self
  ∧ same_raw res.2 self
  ∧ derived_by factor res.2
  ∧ (∀ k dflt, (∀ ef, ef ∈ efs → EmissionFactor.sub_category ef ≠ k) →
               factor k dflt = dflt)
  ∧ (∀ k dflt ef,
       last (filter (λ ef, EmissionFactor.sub_category ef = k) efs) = Some ef →
       factor k dflt = EmissionFactor.factor ef)
  ∧ (∀ efs', ∃ res' db'',
       save pk self (mkDB efs' (core_consumptionrecord db) (next_id db))
       = (Ok res', db'')).
Proof.
  intros Hs efs factor.
  pose proof (save_Ok _ _ _ _ _ Hs) as (Hres & Hin & _).
  split; [done|]. split; [done|]. rewrite Hres.
  split; [apply calculate_emissions_same_raw|].
  split; [apply calculate_emissions_derived|].
  split; [|split].
  - intros k dflt Habs. unfold factor.
    by rewrite (proj2 (factor_lookup_absent efs k) Habs).
  - intros k dflt ef Hlast. unfold factor.
    by destruct (factor_lookup_present _ _ _ Hlast) as [-> _].
  - intros efs'. destruct db as [efs0 rows n].
    by eapply save_succeeds_for_any_factors.
Qed.

(** With no factor row at all, the sample record is saved with the emissions
    of the hardcoded defaults. *)
Lemma save_computes_emissions_witness :
  save None sample_raw empty_db
  = (Ok (1%Z, calculate_emissions [] sample_raw),
     mkDB [] [(1%Z, calculate_emissions [] sample_raw)] 2)
  ∧ derived_by (λ k dflt, default dflt (factor_lookup [] k))
      (calculate_emissions [] sample_raw).
Proof.
  split; [reflexivity|].
  destruct (save_computes_emissions None sample_raw empty_db
              (1%Z, calculate_emissions [] sample_raw)
              (mkDB [] [(1%Z, calculate_emissions [] sample_raw)] 2) eq_refl)
    as (_ & _ & _ & Hd & _).
  exact Hd.
Defined.

(** C3: for the sample input (electricity 100 kWh, diesel 10 l, petrol 5 l,
    LPG 2 kg, water 3 kl, waste 20 kg) and the default factors, the calculator
    gives electricity 82.0, fuel 44.31, water 1.032, waste 11.6 and total
    138.942, both when the defaults come from the fallback (empty table) and
    when they come from the seeded table. *)
Theorem sample_emissions :
  Forall (λ efs,
    let r := calculate_emissions efs sample_raw in
    ConsumptionRecord.electricity_emissions r = 82.0%float
    ∧ ConsumptionRecord.fuel_emissions r = 44.31%float
    ∧ ConsumptionRecord.water_emissions r = 1.032%float
    ∧ ConsumptionRecord.waste_emissions r = 11.6%float
    ∧ ConsumptionRecord.total_emissions r = 138.942%float)
  [ []; Command.emission_factors; core_emissionfactor seeded_db ].
Proof. repeat constructor; vm_compute; reflexivity. Qed.

(** * Independence from the other sub-categories *)

(** C10: the calculator's output depends on the factor table only through
    the factors of GRID, DIESEL, PETROL, LPG, MUNICIPAL_WATER and
    GENERAL_WASTE: two tables that give these six the same factor (or both
    none) yield identical emissions for every record, whatever else they
    hold. *)
Theorem emissions_depend_on_six_factors efs1 efs2 self :
  (∀ k, k ∈ ["GRID"; "DIESEL"; "PETROL"; "LPG"; "MUNICIPAL_WATER"; "GENERAL_WASTE"] →
        factor_lookup efs1 k = factor_lookup efs2 k) →
  calculate_emissions efs1 self = calculate_emissions efs2 self.
Proof. intros Hagree. by apply calculate_emissions_ext. Qed.

(** The seeded table against one with another CNG factor, no e-waste row and
    an extra sub-category. *)
Lemma emissions_depend_on_six_factors_witness :
  factor_lookup Command.emission_factors "CNG" ≠ factor_lookup other_factors "CNG"
  ∧ calculate_emissions Command.emission_factors sample_raw
    = calculate_emissions other_factors sample_raw.
Proof.
  split; [vm_compute; discriminate|].
  apply (emissions_depend_on_six_factors Command.emission_factors other_factors).
  intros k Hk.
  repeat (apply elem_of_cons in Hk as [->|Hk]; [vm_compute; reflexivity|]).
  by apply elem_of_nil in Hk.
Defined.

(** * Frozen snapshots *)

(** C2: changing an emission factor leaves every stored consumption record as
    it was, derived fields included; the new factor table is used by the
    saves that follow, and each such save rewrites only the record it saves. *)
Theorem factor_change_keeps_saved_records defaults db out db1 :
  update_or_create defaults db = (out, db1) →
  core_consumptionrecord db1 = core_consumptionrecord db
  ∧ defaults ∈ core_emissionfactor db1
  ∧ (∀ pk self res db2,
       save pk self db1 = (Ok res, db2) →
       res.2 = calculate_emissions (core_emissionfactor db1) self
       ∧ res ∈ core_consumptionrecord db2
       ∧ ∀ row, row.1 ≠ res.1 →
           row ∈ core_consumptionrecord db2 ↔ row ∈ core_consumptionrecord db).
Proof.
  intros Hu. pose proof (update_or_create_frame _ _ _ _ Hu) as [Hrows _].
  split; [done|]. split; [by eapply update_or_create_elem_of|].
  intros pk self res db2 Hs.
  apply save_Ok in Hs as (Hres & Hin & _ & _ & Hother).
  split; [done|]. split; [done|]. intros row Hne. rewrite <-Hrows. by apply Hother.
Qed.

(** The grid factor is lowered after the sample record was saved: the stored
    total stays 138.942, and the same record saved again totals 127.942. *)
Lemma factor_change_keeps_saved_records_witness :
  core_consumptionrecord (update_or_create grid_factor_2025 one_record_db).2
  = core_consumptionrecord one_record_db
  ∧ ConsumptionRecord.total_emissions
      <$> lookup_row 1 (core_consumptionrecord
                          (update_or_create grid_factor_2025 one_record_db).2)
    = Some 138.942%float
  ∧ ConsumptionRecord.total_emissions
      <$> lookup_row 1 (core_consumptionrecord
            (ConsumptionRecordDetailView.patch 7 1 sample_body
               (update_or_create grid_factor_2025 one_record_db).2).2)
    = Some 127.942%float.
Proof.
  split; [|split; vm_compute; reflexivity].
  apply (factor_change_keeps_saved_records grid_factor_2025 one_record_db
           (update_or_create grid_factor_2025 one_record_db).1
           (update_or_create grid_factor_2025 one_record_db).2).
  vm_compute; reflexivity.
Defined.

(** * Creating and updating records through the API *)

Lemma one_record_db_rows :
  core_consumptionrecord one_record_db
  = [(1%Z, calculate_emissions Command.emission_factors
             (ConsumptionRecordSerializer.new_instance 7 (writable sample_body)
                (datetime._ymd2ord 2024 6 5)))]
  ∧ next_id one_record_db = 2%Z.
Proof. split; vm_compute; reflexivity. Qed.

Lemma one_record_db_wf : wf one_record_db.
Proof.
  destruct one_record_db_rows as [Hrows Hnext]. split; rewrite ?Hrows, ?Hnext.
  - apply NoDup_singleton.
  - by intros row ->%list_elem_of_singleton.
  - by intros row1 row2 ->%list_elem_of_singleton ->%list_elem_of_singleton.
Qed.

Lemma submitted_default {A} (x : field_input A) (dflt : A) :
  default dflt (field_value x) = submitted x dflt.
Proof. by destruct x. Qed.

(** The instance a create builds from an acceptable body carries the
    submitted columns. *)
Lemma new_instance_created_from user d date :
  acceptable false d →
  ConsumptionRecordSerializer.data.date d = Given date →
  created_from user d (ConsumptionRecordSerializer.new_instance user (writable d) date).
Proof.
  intros [Hdept _] Hdate. unfold created_from; simpl.
  rewrite !submitted_default. split; [done|]. split; [|done].
  by destruct (ConsumptionRecordSerializer.data.department d).
Qed.

(** The instance an update saves carries the submitted columns and keeps the
    others. *)
Lemma set_attrs_updated_from old d :
  updated_from old d (ConsumptionRecordSerializer.set_attrs old (writable d)).
Proof. unfold updated_from; simpl. by rewrite !submitted_default. Qed.

(** The calculator leaves the raw columns as they are. *)
Lemma calculate_emissions_created_from efs user d self :
  created_from user d self → created_from user d (calculate_emissions efs self).
Proof. done. Qed.

Lemma calculate_emissions_updated_from efs old d self :
  updated_from old d self → updated_from old d (calculate_emissions efs self).
Proof. done. Qed.

(** C9: the five derived fields of a request body are ignored.  Replacing
    them by anything leaves the outcome of a create or an update and the
    database it produces unchanged.  A create that succeeds persists a record
    of the caller with the submitted department, date and quantities, 0 for a
    quantity that is not submitted; an update that succeeds persists, under
    the same id, the caller's old record with each submitted column replaced
    and every other raw column kept.  In both cases the five derived columns
    of the persisted record are the calculator's outputs for these raw
    quantities under the factor table at save time.  A create or update that
    fails writes nothing. *)
Theorem derived_fields_are_read_only (partial : bool) user pk d e f w g t db :
  let body := with_derived d e f w g t in
  let factor := λ k dflt, default dflt (factor_lookup (core_emissionfactor db) k) in
  ConsumptionRecordListCreateView.post user body db
  = ConsumptionRecordListCreateView.post user d db
  ∧ ConsumptionRecordDetailView.update partial user pk body db
    = ConsumptionRecordDetailView.update partial user pk d db
  ∧ (∀ res db',
       ConsumptionRecordListCreateView.post user body db = (Ok res, db') →
       res ∈ core_consumptionrecord db'
       ∧ created_from user d res.2
       ∧ derived_by factor res.2)
  ∧ (∀ res db',
       ConsumptionRecordDetailView.update partial user pk body db = (Ok res, db') →
       res ∈ core_consumptionrecord db' ∧ res.1 = pk
       ∧ (∃ old, (pk, old) ∈ core_consumptionrecord db
            ∧ ConsumptionRecord.institute old = user
            ∧ updated_from old d res.2)
       ∧ derived_by factor res.2)
  ∧ (∀ err db',
       ConsumptionRecordListCreateView.post user body db = (Err err, db') → db' = db)
  ∧ (∀ err db',
       ConsumptionRecordDetailView.update partial user pk body db = (Err err, db') →
       db' = db).
Proof.
  intros body factor.
  assert (ConsumptionRecordListCreateView.post user body db
          = ConsumptionRecordListCreateView.post user d db) as Hpost by reflexivity.
  assert (ConsumptionRecordDetailView.update partial user pk body db
          = ConsumptionRecordDetailView.update partial user pk d db) as Hupd
    by reflexivity.
  split; [done|]. split; [done|]. rewrite Hpost, Hupd.
  split; [|split; [|split]].
  - intros res db' [(_ & _ & fields & Hout)|(Hacc & date & Hdate & Hs)]%post_cases;
      [done|].
    apply save_Ok in Hs as (Hres & Hin & _).
    split; [done|]. rewrite Hres. split.
    + by apply calculate_emissions_created_from, new_instance_created_from.
    + apply calculate_emissions_derived.
  - intros res db' [(_ & Hout & _)|(old & Hold & [(_ & _ & fields & Hout)|[_ Hs]])]%update_cases;
      [done|done|].
    apply save_Ok in Hs as (Hres & Hin & _ & Hpk & _).
    apply lookup_row_Some, owned_by_elem_of in Hold as [Howner Hold].
    split; [done|]. split; [by apply Hpk|]. rewrite Hres. split.
    + exists old. split; [done|]. split; [done|].
      apply calculate_emissions_updated_from, set_attrs_updated_from.
    + apply calculate_emissions_derived.
  - intros err db'. apply post_Err.
  - intros err db'. apply update_Err.
Qed.

(** Institute 7 patches its sample record with a new electricity reading and
    claims a total of a billion: the outcome is that of the patch without the
    claimed values, and the stored record has the new reading, the old diesel
    quantity and the emissions computed from them.  The same claim on a create
    is ignored as well. *)
Lemma derived_fields_are_read_only_witness :
  (∃ res db',
     ConsumptionRecordDetailView.update true 7 1
       (with_derived reading_body (Given 1%float) (Given 2%float) (Given 3%float)
          (Given 4%float) (Given 1e9%float)) one_record_db
     = (Ok res, db')
     ∧ ConsumptionRecordDetailView.update true 7 1 reading_body one_record_db
       = (Ok res, db')
     ∧ lookup_row 1 (core_consumptionrecord db') = Some res.2
     ∧ ConsumptionRecord.department res.2 = "HOSTEL"
     ∧ ConsumptionRecord.electricity_kwh res.2 = 200%float
     ∧ ConsumptionRecord.diesel_liters res.2 = 10%float
     ∧ ConsumptionRecord.electricity_emissions res.2 = 164%float
     ∧ ConsumptionRecord.fuel_emissions res.2 = 44.31%float
     ∧ ConsumptionRecord.total_emissions res.2 = 220.942%float)
  ∧ ConsumptionRecord.total_emissions
      <$> lookup_row 1 (core_consumptionrecord
            (ConsumptionRecordListCreateView.post 7
               (with_derived sample_body Absent Absent Absent Absent (Given 1e9%float))
               seeded_db).2)
    = Some 138.942%float.
Proof.
  split; [|vm_compute; reflexivity].
  assert (∃ res db',
            ConsumptionRecordDetailView.update true 7 1 reading_body one_record_db
            = (Ok res, db')
            ∧ lookup_row 1 (core_consumptionrecord db') = Some res.2
            ∧ ConsumptionRecord.electricity_emissions res.2 = 164%float
            ∧ ConsumptionRecord.fuel_emissions res.2 = 44.31%float
            ∧ ConsumptionRecord.total_emissions res.2 = 220.942%float)
    as (res & db' & Hplain & Hstored & Helectricity & Hfuel & Htotal).
  { eexists _, _. split; [|split; [|split; [|split]]]; vm_compute; reflexivity. }
  assert (lookup_row 1 (owned_by 7 (core_consumptionrecord one_record_db))
          = Some (calculate_emissions Command.emission_factors
                    (ConsumptionRecordSerializer.new_instance 7 (writable sample_body)
                       (datetime._ymd2ord 2024 6 5)))) as Hold
    by (vm_compute; reflexivity).
  destruct (derived_fields_are_read_only true 7 1 reading_body
              (Given 1%float) (Given 2%float) (Given 3%float) (Given 4%float)
              (Given 1e9%float) one_record_db)
    as (_ & Hsame & _ & Hupdated & _).
  rewrite <-Hsame in Hplain.
  destruct (Hupdated res db' Hplain) as (_ & _ & (old & Hin & _ & Hraw) & _).
  assert (old = calculate_emissions Command.emission_factors
                  (ConsumptionRecordSerializer.new_instance 7 (writable sample_body)
                     (datetime._ymd2ord 2024 6 5))) as ->.
  { apply (NoDup_fst_unique (core_consumptionrecord one_record_db) 1);
      [apply one_record_db_wf|exact Hin|].
    by apply lookup_row_Some, owned_by_elem_of in Hold as [_ Hold]. }
  destruct Hraw as (_ & Hdept & _ & Hkwh & Hdiesel & _).
  vm_compute in Hdept, Hkwh, Hdiesel.
  exists res, db'. split; [exact Hplain|]. split; [by rewrite <-Hsame|].
  split; [exact Hstored|]. split; [exact Hdept|]. split; [exact Hkwh|].
  split; [exact Hdiesel|]. split; [exact Helectricity|].
  split; [exact Hfuel|exact Htotal].
Defined.

(** C7: creating a record whose (institute, department, date) is that of an
    existing record fails with the uniqueness conflict and leaves the database
    as it was; updating the existing record with the same triple succeeds, and
    the stored record then carries the submitted quantities and the derived
    fields recomputed from them, all other records being untouched. *)
Theorem duplicate_create_conflicts_update_recomputes (partial : bool) user pk old d db :
  wf db →
  (pk, old) ∈ core_consumptionrecord db →
  ConsumptionRecord.institute old = user →
  acceptable false d →
  ConsumptionRecordSerializer.data.department d = Given (ConsumptionRecord.department old) →
  ConsumptionRecordSerializer.data.date d = Given (ConsumptionRecord.date old) →
  let factor := λ k dflt, default dflt (factor_lookup (core_emissionfactor db) k) in
  ConsumptionRecordListCreateView.post user d db = (Err IntegrityError, db)
  ∧ ∃ r' db',
      ConsumptionRecordDetailView.update partial user pk d db = (Ok (pk, r'), db')
      ∧ lookup_row pk (core_consumptionrecord db') = Some r'
      ∧ same_raw r' (ConsumptionRecordSerializer.set_attrs old (writable d))
      ∧ derived_by factor r'
      ∧ (∀ row, row.1 ≠ pk →
           row ∈ core_consumptionrecord db' ↔ row ∈ core_consumptionrecord db).
Proof.
  intros Hwf Hin Howner Hacc Hdep Hdate factor. split.
  - rewrite (post_acceptable _ _ _ _ Hacc Hdate). apply save_conflict.
    apply violates_unique_together_true. exists (pk, old). split; [done|].
    split; [|done]. simpl.
    unfold ConsumptionRecord.unique_together, writable; simpl.
    by rewrite Hdep, Howner.
  - assert (lookup_row pk (owned_by user (core_consumptionrecord db)) = Some old) as Hl.
    { apply lookup_row_elem_of; [apply owned_by_NoDup, Hwf|].
      by apply owned_by_elem_of. }
    pose proof (update_acceptable partial user pk d db old Hl
                  (acceptable_partial partial d Hacc)) as Hupd.
    assert (ConsumptionRecord.unique_together
              (ConsumptionRecordSerializer.set_attrs old (writable d))
            = ConsumptionRecord.unique_together old) as Htriple.
    { unfold ConsumptionRecord.unique_together, writable; simpl.
      by rewrite Hdep, Hdate. }
    assert (violates_unique_together (Some pk)
              (ConsumptionRecordSerializer.set_attrs old (writable d))
              (core_consumptionrecord db) = false) as Hv.
    { apply violates_unique_together_false. intros row Hrow Heq. f_equal.
      apply (wf_unique_together _ Hwf row (pk, old)); [done|done|].
      by rewrite Heq, Htriple. }
    assert (is_Some (lookup_row pk (core_consumptionrecord db))) as Hsome.
    { rewrite (lookup_row_elem_of pk _ old); [done|apply Hwf|done]. }
    pose proof (save_existing pk _ db Hv Hsome) as Hs.
    eexists _, _. split; [by rewrite Hupd|].
    pose proof (save_lookup _ _ _ _ _ Hwf Hs) as Hlook.
    apply save_Ok in Hs as (_ & _ & _ & _ & Hother).
    split; [exact Hlook|]. split; [apply calculate_emissions_same_raw|].
    split; [apply calculate_emissions_derived|exact Hother].
Qed.

Lemma doubled_body_acceptable : acceptable false doubled_body.
Proof. unfold acceptable; simpl. repeat split; vm_compute; reflexivity. Qed.

(** The sample record exists; the same triple is posted again and is then
    put with a doubled electricity reading. *)
Lemma duplicate_create_conflicts_update_recomputes_witness :
  ConsumptionRecordListCreateView.post 7 doubled_body one_record_db
  = (Err IntegrityError, one_record_db)
  ∧ ∃ r' db',
      ConsumptionRecordDetailView.put 7 1 doubled_body one_record_db = (Ok (1%Z, r'), db')
      ∧ lookup_row 1 (core_consumptionrecord db') = Some r'
      ∧ ConsumptionRecord.electricity_kwh r' = 200%float.
Proof.
  destruct (duplicate_create_conflicts_update_recomputes false 7 1
              (calculate_emissions Command.emission_factors
                 (ConsumptionRecordSerializer.new_instance 7 (writable sample_body)
                    (datetime._ymd2ord 2024 6 5)))
              doubled_body one_record_db one_record_db_wf)
    as [Hpost (r' & db' & Hput & Hlook & Hraw & _)].
  - rewrite (proj1 one_record_db_rows). apply list_elem_of_singleton. reflexivity.
  - reflexivity.
  - exact doubled_body_acceptable.
  - reflexivity.
  - reflexivity.
  - split; [exact Hpost|]. exists r', db'. split; [exact Hput|]. split; [exact Hlook|].
    destruct Hraw as (_ & _ & _ & Hkwh & _). exact Hkwh.
Defined.

(** * Negative quantities *)

(** C6, as the specification states it, fails: a create request with
    electricity_kwh = -100 is not rejected.  It is stored, with negative
    electricity emissions. *)
Lemma negative_quantity_is_accepted :
  has_negative_quantity negative_body
  ∧ (¬ ∃ fields,
        ConsumptionRecordListCreateView.post 7 negative_body seeded_db
        = (Err (ValidationError fields), seeded_db))
  ∧ ∃ res db',
      ConsumptionRecordListCreateView.post 7 negative_body seeded_db = (Ok res, db')
      ∧ core_consumptionrecord seeded_db = []
      ∧ core_consumptionrecord db' = [res]
      ∧ ConsumptionRecord.electricity_kwh res.2 = (-100)%float
      ∧ ConsumptionRecord.electricity_emissions res.2 = (-82)%float.
Proof.
  split; [|split].
  - exists (-100)%float. split; [by left|reflexivity].
  - intros [fields Hpost]. vm_compute in Hpost. discriminate Hpost.
  - eexists _, _. split; [vm_compute; reflexivity|].
    repeat split; vm_compute; reflexivity.
Qed.

(** C6, amended: a create or update request is rejected with a validation
    error exactly when its body is not acceptable, that is when department or
    date is missing (in a non-partial request), a field is malformed or the
    department is not one of the five codes; the sign of a quantity is not
    examined.  Every rejected request, whatever the error, leaves the database
    unchanged, and an accepted create stores the quantities as submitted, a
    negative one included, with the derived fields computed from them. *)
Theorem rejected_requests_write_nothing (partial : bool) user pk d db :
  let factor := λ k dflt, default dflt (factor_lookup (core_emissionfactor db) k) in
  (∀ e db', ConsumptionRecordListCreateView.post user d db = (Err e, db') → db' = db)
  ∧ (∀ e db', ConsumptionRecordDetailView.update partial user pk d db = (Err e, db') →
              db' = db)
  ∧ (∀ out db', ConsumptionRecordListCreateView.post user d db = (out, db') →
       (∃ fields, out = Err (ValidationError fields)) ↔ ¬ acceptable false d)
  ∧ (∀ out db', ConsumptionRecordDetailView.update partial user pk d db = (out, db') →
       (∃ fields, out = Err (ValidationError fields))
       ↔ ¬ acceptable partial d
         ∧ is_Some (lookup_row pk (owned_by user (core_consumptionrecord db))))
  ∧ (∀ res db', ConsumptionRecordListCreateView.post user d db = (Ok res, db') →
       res ∈ core_consumptionrecord db'
       ∧ (∃ date, ConsumptionRecordSerializer.data.date d = Given date
            ∧ same_raw res.2
                (ConsumptionRecordSerializer.new_instance user (writable d) date))
       ∧ derived_by factor res.2)
  ∧ (∀ res db',
       ConsumptionRecordDetailView.update partial user pk d db = (Ok res, db') →
       res ∈ core_consumptionrecord db'
       ∧ (∃ old, lookup_row pk (owned_by user (core_consumptionrecord db)) = Some old
            ∧ same_raw res.2 (ConsumptionRecordSerializer.set_attrs old (writable d)))
       ∧ derived_by factor res.2).
Proof.
  intros factor. split; [|split; [|split; [|split; [|split]]]].
  - intros e db'. apply post_Err.
  - intros e db'. apply update_Err.
  - intros out db' [(Hacc & _ & fields & ->)|(Hacc & date & _ & Hs)]%post_cases.
    + split; eauto.
    + split; [|done]. intros [fields ->]. by apply save_Err in Hs as [? _].
  - intros out db'
      [(Hnone & -> & _)|(r & Hl & [(Hacc & _ & fields & ->)|[Hacc Hs]])]%update_cases.
    + split; [by intros [fields ?]|]. rewrite Hnone. by intros [_ [? ?]].
    + rewrite Hl. split; eauto.
    + split; [|by intros [? _]]. intros [fields ->]. by apply save_Err in Hs as [? _].
  - intros res db' [(_ & _ & fields & Hout)|(_ & date & Hdate & Hs)]%post_cases; [done|].
    apply save_Ok in Hs as (Hres & Hin & _).
    split; [done|]. rewrite Hres. split.
    + exists date. split; [done|]. apply calculate_emissions_same_raw.
    + apply calculate_emissions_derived.
  - intros res db'
      [(_ & Hout & _)|(old & Hold & [(_ & _ & fields & Hout)|[_ Hs]])]%update_cases;
      [done|done|].
    apply save_Ok in Hs as (Hres & Hin & _).
    split; [done|]. rewrite Hres. split.
    + exists old. split; [done|]. apply calculate_emissions_same_raw.
    + apply calculate_emissions_derived.
Qed.

(** The negative reading is stored as submitted, with emissions computed
    from it. *)
Lemma rejected_requests_write_nothing_witness :
  let r := calculate_emissions (core_emissionfactor seeded_db)
             (ConsumptionRecordSerializer.new_instance 7 (writable negative_body)
                (datetime._ymd2ord 2024 8 5)) in
  let db' := mkDB (core_emissionfactor seeded_db) [(1%Z, r)] 2 in
  ConsumptionRecordListCreateView.post 7 negative_body seeded_db = (Ok (1%Z, r), db')
  ∧ derived_by
      (λ k dflt, default dflt (factor_lookup (core_emissionfactor seeded_db) k)) r.
Proof.
  intros r db'.
  assert (ConsumptionRecordListCreateView.post 7 negative_body seeded_db
          = (Ok (1%Z, r), db')) as Hpost by (vm_compute; reflexivity).
  split; [exact Hpost|].
  destruct (rejected_requests_write_nothing false 7 1 negative_body seeded_db)
    as (_ & _ & _ & _ & Hstored & _).
  destruct (Hstored (1%Z, r) db' Hpost) as (_ & _ & Hd).
  exact Hd.
Defined.

(** * Grouping *)

Section group_by.
Context {K : Type} `{EqDecision K} (R : relation K) `{!RelDecision R}.
Context (key : Z * ConsumptionRecord.t → K).

Lemma group_by_keys rows :
  (group_by R key rows).*1 = merge_sort R (remove_dups (key <$> rows)).
Proof.
  unfold group_by. rewrite <-list_fmap_compose. apply list_fmap_id.
Qed.

(** Exactly one group per key. *)
Lemma group_by_NoDup rows : NoDup (group_by R key rows).*1.
Proof.
  rewrite group_by_keys, merge_sort_Permutation. apply NoDup_remove_dups.
Qed.

(** Groups come in ascending key order. *)
Lemma group_by_Sorted `{!Total R} rows : Sorted R (group_by R key rows).*1.
Proof. rewrite group_by_keys. by apply Sorted_merge_sort. Qed.

(** The keys are those of the rows. *)
Lemma group_by_key_elem_of rows k :
  k ∈ (group_by R key rows).*1 ↔ ∃ row, row ∈ rows ∧ key row = k.
Proof.
  rewrite group_by_keys, merge_sort_Permutation, elem_of_remove_dups,
    list_elem_of_fmap.
  split; intros (row & H1 & H2); exists row; by split.
Qed.

(** A group holds exactly the rows with its key, in row order. *)
Lemma elem_of_group_by rows g :
  g ∈ group_by R key rows ↔
  g.2 = filter (λ row, key row = g.1) rows ∧ ∃ row, row ∈ rows ∧ key row = g.1.
Proof.
  rewrite <-group_by_key_elem_of, group_by_keys.
  unfold group_by. rewrite list_elem_of_fmap. split.
  - intros (k & -> & Hk). done.
  - intros [Hrows Hk]. exists g.1. split; [|done].
    destruct g as [k rows']. simpl in *. by subst rows'.
Qed.

Lemma group_by_nil : group_by R key [] = [].
Proof. done. Qed.

Lemma group_by_eq_nil rows : group_by R key rows = [] ↔ rows = [].
Proof.
  split; [|by intros ->].
  intros Hnil. destruct rows as [|row rows]; [done|]. exfalso.
  assert (key row ∈ (group_by R key (row :: rows)).*1) as Hin
    by (apply group_by_key_elem_of; exists row; split; [left|done]).
  rewrite Hnil in Hin. by apply elem_of_nil in Hin.
Qed.
End group_by.

(** * The dashboard *)

Lemma sum_of_nil column : sum_of column [] = PyInt 0.
Proof. done. Qed.

(** The two optional filters and the ownership filter amount to one
    conjunctive filter. *)
Lemma records_filtered_set user year month db rows :
  DashboardStatsView.records user year month db = Ok rows →
  rows = filtered_set user year month db.
Proof.
  unfold DashboardStatsView.records, filtered_set, owned_by,
    DashboardStatsView.filter_year, DashboardStatsView.filter_month.
  destruct year as [| |y]; [|done|case_bool_decide; [|done]];
    (destruct month as [| |m]; [|done|]); intros [= <-];
    rewrite ?list_filter_filter; apply list_filter_iff; intros row;
    unfold in_filtered_set; simpl; tauto.
Qed.

(** A request is answered unless a parameter is not an integer or the year is
    outside the calendar. *)
Lemma records_Ok user year month db :
  year ≠ Malformed →
  (∀ y, year = Given y → (datetime.MINYEAR ≤ y ≤ datetime.MAXYEAR)%Z) →
  month ≠ Malformed →
  DashboardStatsView.records user year month db = Ok (filtered_set user year month db).
Proof.
  intros Hyear Hrange Hmonth.
  destruct (DashboardStatsView.records user year month db) as [rows|e] eqn:Hr.
  - by rewrite (records_filtered_set _ _ _ _ _ Hr).
  - exfalso. revert Hr.
    unfold DashboardStatsView.records, DashboardStatsView.filter_year,
      DashboardStatsView.filter_month.
    destruct year as [| |y]; simpl in *.
    + by destruct month.
    + done.
    + rewrite bool_decide_eq_true_2 by (by apply Hrange). by destruct month.
Qed.

Lemma get_Ok user year month today db resp :
  DashboardStatsView.get user year month today db = Ok resp →
  ∃ rows, DashboardStatsView.records user year month db = Ok rows
    ∧ resp = DashboardStatsView.Response.mk
               (sum_of ConsumptionRecord.total_emissions rows)
               (sum_of ConsumptionRecord.electricity_emissions rows)
               (sum_of ConsumptionRecord.fuel_emissions rows)
               (sum_of ConsumptionRecord.water_emissions rows)
               (sum_of ConsumptionRecord.waste_emissions rows)
               (DashboardStatsView.department_breakdown rows)
               (DashboardStatsView.monthly_trend user today db)
               (length rows).
Proof.
  unfold DashboardStatsView.get.
  destruct (DashboardStatsView.records user year month db) as [rows|e]; [|done].
  intros [= <-]. by exists rows.
Qed.

(** The monthly trend is the trend of all the user's rows. *)
Lemma monthly_trend_owned user today db :
  DashboardStatsView.monthly_trend user today db
  = trend_of today (owned_by user (core_consumptionrecord db)).
Proof.
  unfold DashboardStatsView.monthly_trend, DashboardStatsView.monthly_data,
    DashboardStatsView.trend_rows, trend_of, owned_by.
  do 2 f_equal. rewrite list_filter_filter. apply list_filter_iff.
  intros row. simpl. tauto.
Qed.

(** The department breakdown has one entry per department of the rows, with
    the sum over the rows of that department. *)
Lemma department_breakdown_elem_of rows dept v :
  (dept, v) ∈ DashboardStatsView.department_breakdown rows ↔
  (∃ row, row ∈ rows ∧ ConsumptionRecord.department row.2 = dept)
  ∧ v = sum_of ConsumptionRecord.total_emissions
          (filter (λ row, ConsumptionRecord.department row.2 = dept) rows).
Proof.
  unfold DashboardStatsView.department_breakdown, DashboardStatsView.department_data.
  rewrite list_elem_of_fmap. split.
  - intros ([k g] & [= -> ->] & [Hg Hk]%elem_of_group_by). simpl in *.
    by rewrite Hg.
  - intros [Hk ->].
    exists (dept, filter (λ row, ConsumptionRecord.department row.2 = dept) rows).
    split; [done|]. by apply elem_of_group_by.
Qed.

Lemma department_breakdown_NoDup rows :
  NoDup (DashboardStatsView.department_breakdown rows).*1.
Proof.
  unfold DashboardStatsView.department_breakdown, DashboardStatsView.department_data.
  rewrite <-list_fmap_compose.
  apply (group_by_NoDup String.le (λ row, ConsumptionRecord.department row.2)).
Qed.

(** What the monthly query returns: the months are those of the user's rows
    dated on or after [today - 365], each once and in ascending order, and a
    month's group holds the rows of that month. *)
Lemma monthly_data_spec user today db :
  let data := DashboardStatsView.monthly_data user today db in
  Sorted Z.le data.*1
  ∧ NoDup data.*1
  ∧ (∀ month, month ∈ data.*1 ↔
       ∃ row, row ∈ core_consumptionrecord db
         ∧ ConsumptionRecord.institute row.2 = user
         ∧ (datetime.sub_days today 365 ≤ ConsumptionRecord.date row.2)%Z
         ∧ TruncMonth (ConsumptionRecord.date row.2) = month)
  ∧ (∀ g, g ∈ data →
       g.2 = filter (λ row, TruncMonth (ConsumptionRecord.date row.2) = g.1)
               (DashboardStatsView.trend_rows user today db)).
Proof.
  unfold DashboardStatsView.monthly_data. simpl.
  split; [apply (group_by_Sorted Z.le _)|].
  split; [apply (group_by_NoDup Z.le _)|]. split.
  - intros month. rewrite group_by_key_elem_of. unfold DashboardStatsView.trend_rows.
    split.
    + intros (row & [[Hu Hd] Hin]%list_elem_of_filter & Hm). by exists row.
    + intros (row & Hin & Hu & Hd & Hm). exists row. split; [|done].
      by apply list_elem_of_filter.
  - by intros g [Hg _]%elem_of_group_by.
Qed.

(** A record dated 400 days before the evaluation date plays no part in the
    trend: storing it leaves the trend as it was. *)
Lemma monthly_trend_excludes_400_days_ago user today efs rows n row n' :
  ConsumptionRecord.date row.2 = datetime.sub_days today 400 →
  DashboardStatsView.monthly_trend user today (mkDB efs (rows ++ [row]) n')
  = DashboardStatsView.monthly_trend user today (mkDB efs rows n).
Proof.
  intros Hdate.
  unfold DashboardStatsView.monthly_trend, DashboardStatsView.monthly_data,
    DashboardStatsView.trend_rows. simpl.
  rewrite filter_app, filter_cons_False, filter_nil, app_nil_r; [done|].
  rewrite Hdate. unfold datetime.sub_days. lia.
Qed.

(** A record of the user dated 10 days before the evaluation date has its
    month in the trend. *)
Lemma monthly_trend_includes_10_days_ago user today db row :
  row ∈ core_consumptionrecord db →
  ConsumptionRecord.institute row.2 = user →
  ConsumptionRecord.date row.2 = datetime.sub_days today 10 →
  datetime.strftime_Y_m (TruncMonth (ConsumptionRecord.date row.2))
  ∈ DashboardStatsView.item.month <$> DashboardStatsView.monthly_trend user today db.
Proof.
  intros Hin Hu Hdate.
  destruct (monthly_data_spec user today db) as (_ & _ & Hmonths & _).
  assert (TruncMonth (ConsumptionRecord.date row.2)
          ∈ (DashboardStatsView.monthly_data user today db).*1) as Hm.
  { apply Hmonths. exists row. repeat split; try done.
    rewrite Hdate. unfold datetime.sub_days. lia. }
  apply list_elem_of_fmap in Hm as (g & Hg1 & Hg).
  unfold DashboardStatsView.monthly_trend. rewrite <-list_fmap_compose.
  apply list_elem_of_fmap. exists g. split; [|done]. simpl. by rewrite Hg1.
Qed.

(** No day of a closed range of dates falls in a month, decided by running
    through the range. *)
Lemma not_within_trailing_year today month :
  Forall (λ d, TruncMonth d ≠ month) (seqZ (datetime.sub_days today 365) 366) →
  ¬ within_trailing_year today month.
Proof.
  intros Hall (d & Hd & Hm). rewrite Forall_forall in Hall.
  apply (Hall d); [|done]. apply elem_of_seqZ. unfold datetime.sub_days in *. lia.
Qed.

(** C5, evaluated where the code departs from it: on 15 June 2024, with a
    record dated 5 June 2024 and one dated 25 December 2024, the trend has an
    entry for December 2024, a month with no day in the trailing 365 days. *)
Theorem future_month_in_trend :
  DashboardStatsView.item.month
    <$> DashboardStatsView.monthly_trend 7 today_example two_record_db
  = ["2024-06"; "2024-12"]
  ∧ (DashboardStatsView.monthly_data 7 today_example two_record_db).*1
    = [datetime._ymd2ord 2024 6 1; datetime._ymd2ord 2024 12 1]
  ∧ within_trailing_year today_example (datetime._ymd2ord 2024 6 1)
  ∧ ¬ within_trailing_year today_example (datetime._ymd2ord 2024 12 1).
Proof.
  split; [vm_compute; reflexivity|]. split; [vm_compute; reflexivity|]. split.
  - exists (datetime._ymd2ord 2024 6 5). split; vm_compute; [|reflexivity].
    split; discriminate.
  - apply not_within_trailing_year. refine (bool_decide_unpack _ _).
    vm_compute. exact I.
Qed.

(** C4, as the specification states it, fails for the monthly trend: with the
    filter year = 2023 the filtered set of institute 7 is empty, yet the trend
    of the response has the entry of June 2024, which is not the trend of the
    filtered set. *)
Lemma trend_ignores_filters :
  ∃ resp,
    DashboardStatsView.get 7 (Given 2023%Z) Absent today_example one_record_db = Ok resp
    ∧ DashboardStatsView.records 7 (Given 2023%Z) Absent one_record_db = Ok []
    ∧ DashboardStatsView.Response.record_count resp = 0
    ∧ trend_of today_example (filtered_set 7 (Given 2023%Z) Absent one_record_db) = []
    ∧ DashboardStatsView.item.month <$> DashboardStatsView.Response.monthly_trend resp
      = ["2024-06"]
    ∧ DashboardStatsView.Response.monthly_trend resp
      ≠ trend_of today_example (filtered_set 7 (Given 2023%Z) Absent one_record_db).
Proof.
  eexists. split; [vm_compute; reflexivity|].
  repeat split; try (vm_compute; reflexivity).
  vm_compute. discriminate.
Qed.

(** C4, amended: for every dashboard request that is answered, the optional
    year and month filters and the ownership filter act as one conjunction;
    the five emission sums, the department breakdown and record_count are
    computed over that filtered set.  The monthly trend is computed over all
    records of the institute, whatever the year and month filters are. *)
Theorem stats_over_filtered_set user year month today db resp :
  DashboardStatsView.get user year month today db = Ok resp →
  let rows := filtered_set user year month db in
  DashboardStatsView.records user year month db = Ok rows
  ∧ DashboardStatsView.Response.total_emissions resp
    = sum_of ConsumptionRecord.total_emissions rows
  ∧ DashboardStatsView.Response.electricity_emissions resp
    = sum_of ConsumptionRecord.electricity_emissions rows
  ∧ DashboardStatsView.Response.fuel_emissions resp
    = sum_of ConsumptionRecord.fuel_emissions rows
  ∧ DashboardStatsView.Response.water_emissions resp
    = sum_of ConsumptionRecord.water_emissions rows
  ∧ DashboardStatsView.Response.waste_emissions resp
    = sum_of ConsumptionRecord.waste_emissions rows
  ∧ DashboardStatsView.Response.record_count resp = length rows
  ∧ NoDup (DashboardStatsView.Response.department_breakdown resp).*1
  ∧ (∀ dept v,
       (dept, v) ∈ DashboardStatsView.Response.department_breakdown resp ↔
       (∃ row, row ∈ rows ∧ ConsumptionRecord.department row.2 = dept)
       ∧ v = sum_of ConsumptionRecord.total_emissions
               (filter (λ row, ConsumptionRecord.department row.2 = dept) rows))
  ∧ DashboardStatsView.Response.monthly_trend resp
    = trend_of today (filtered_set user Absent Absent db).
Proof.
  intros (rows' & Hrows & ->)%get_Ok rows.
  pose proof (records_filtered_set _ _ _ _ _ Hrows) as ->. fold rows. simpl.
  do 7 (split; [done|]).
  split; [apply department_breakdown_NoDup|].
  split; [intros dept v; apply department_breakdown_elem_of|].
  rewrite monthly_trend_owned. unfold filtered_set, owned_by. do 2 f_equal.
  apply list_filter_iff. intros row. unfold in_filtered_set. simpl. tauto.
Qed.

(** Institute 7 holds a record of June and one of December 2024; the request
    for June 2024 counts one record and sums its emissions. *)
Lemma stats_over_filtered_set_witness :
  ∃ resp,
    DashboardStatsView.get 7 (Given 2024%Z) (Given 6%Z) today_example two_record_db
    = Ok resp
    ∧ DashboardStatsView.Response.record_count resp = 1
    ∧ DashboardStatsView.Response.total_emissions resp = PyFloat 138.94%float.
Proof.
  destruct (DashboardStatsView.get 7 (Given 2024%Z) (Given 6%Z) today_example
              two_record_db) as [resp|e] eqn:Hget;
    [|vm_compute in Hget; discriminate Hget].
  exists resp. split; [reflexivity|].
  destruct (stats_over_filtered_set 7 (Given 2024%Z) (Given 6%Z) today_example
              two_record_db resp Hget)
    as (_ & Htotal & _ & _ & _ & _ & Hcount & _).
  rewrite Htotal, Hcount. split; vm_compute; reflexivity.
Defined.

(** * The empty filtered set *)

Lemma trend_rows_owned user today db :
  DashboardStatsView.trend_rows user today db
  = filter (λ row, (datetime.sub_days today 365 ≤ ConsumptionRecord.date row.2)%Z)
      (owned_by user (core_consumptionrecord db)).
Proof.
  unfold DashboardStatsView.trend_rows, owned_by. rewrite list_filter_filter.
  apply list_filter_iff. intros row. simpl. tauto.
Qed.

Lemma monthly_trend_nil user today db :
  DashboardStatsView.monthly_trend user today db = []
  ↔ DashboardStatsView.trend_rows user today db = [].
Proof.
  unfold DashboardStatsView.monthly_trend, DashboardStatsView.monthly_data.
  rewrite <-(group_by_eq_nil Z.le (λ row, TruncMonth (ConsumptionRecord.date row.2))).
  split; [apply fmap_nil_inv|by intros ->].
Qed.

(** C8, as the specification states it, fails for the monthly trend: with the
    filter month = 1 the filtered set of institute 7 is empty, and the trend
    of the response is not. *)
Lemma empty_filtered_set_nonempty_trend :
  DashboardStatsView.records 7 Absent (Given 1%Z) one_record_db = Ok []
  ∧ ∃ resp,
      DashboardStatsView.get 7 Absent (Given 1%Z) today_example one_record_db = Ok resp
      ∧ DashboardStatsView.Response.monthly_trend resp ≠ []
      ∧ DashboardStatsView.item.month <$> DashboardStatsView.Response.monthly_trend resp
        = ["2024-06"].
Proof.
  split; [vm_compute; reflexivity|].
  eexists. split; [vm_compute; reflexivity|].
  split; [vm_compute; discriminate|vm_compute; reflexivity].
Qed.

(** C8, amended: a dashboard request whose year, if given, is a number from
    1 to 9999, whose month, if given, is a number, and whose filtered set is
    empty is answered, with every emission sum the number 0, an empty
    department breakdown and record_count 0.  The monthly trend of the answer
    is empty exactly when the institute has no record dated on or after 365
    days before the evaluation date, in particular when it owns no record at
    all. *)
Theorem empty_set_gives_zero_stats user year month today db :
  year ≠ Malformed →
  (∀ y, year = Given y → (datetime.MINYEAR ≤ y ≤ datetime.MAXYEAR)%Z) →
  month ≠ Malformed →
  filtered_set user year month db = [] →
  ∃ resp,
    DashboardStatsView.get user year month today db = Ok resp
    ∧ DashboardStatsView.Response.total_emissions resp = PyInt 0
    ∧ DashboardStatsView.Response.electricity_emissions resp = PyInt 0
    ∧ DashboardStatsView.Response.fuel_emissions resp = PyInt 0
    ∧ DashboardStatsView.Response.water_emissions resp = PyInt 0
    ∧ DashboardStatsView.Response.waste_emissions resp = PyInt 0
    ∧ DashboardStatsView.Response.department_breakdown resp = []
    ∧ DashboardStatsView.Response.record_count resp = 0
    ∧ (DashboardStatsView.Response.monthly_trend resp = []
       ↔ DashboardStatsView.trend_rows user today db = [])
    ∧ (owned_by user (core_consumptionrecord db) = [] →
       DashboardStatsView.Response.monthly_trend resp = []).
Proof.
  intros Hyear Hrange Hmonth Hempty.
  pose proof (records_Ok user year month db Hyear Hrange Hmonth) as Hrows.
  rewrite Hempty in Hrows. unfold DashboardStatsView.get. rewrite Hrows.
  eexists. split; [reflexivity|]. simpl. do 7 (split; [done|]).
  split; [apply monthly_trend_nil|].
  intros Hnone. apply monthly_trend_nil. rewrite trend_rows_owned. by rewrite Hnone.
Qed.

(** Institute 7 holds one record, of June 2024.  Its request for June 2023
    is answered: the filtered set is empty, all sums are 0 and nothing is
    counted, while the trend keeps the month of the record. *)
Lemma empty_set_gives_zero_stats_witness :
  filtered_set 7 (Given 2023%Z) (Given 6%Z) one_record_db = []
  ∧ owned_by 7 (core_consumptionrecord one_record_db) ≠ []
  ∧ ∃ resp,
      DashboardStatsView.get 7 (Given 2023%Z) (Given 6%Z) today_example one_record_db
      = Ok resp
      ∧ DashboardStatsView.Response.total_emissions resp = PyInt 0
      ∧ DashboardStatsView.Response.electricity_emissions resp = PyInt 0
      ∧ DashboardStatsView.Response.department_breakdown resp = []
      ∧ DashboardStatsView.Response.record_count resp = 0
      ∧ DashboardStatsView.Response.monthly_trend resp ≠ [].
Proof.
  assert (filtered_set 7 (Given 2023%Z) (Given 6%Z) one_record_db = []) as Hempty
    by (vm_compute; reflexivity).
  split; [exact Hempty|]. split; [vm_compute; discriminate|].
  destruct (empty_set_gives_zero_stats 7 (Given 2023%Z) (Given 6%Z) today_example
              one_record_db)
    as (resp & Hget & Htotal & Helectricity & _ & _ & _ & Hbreakdown & Hcount
        & Htrend & _).
  - discriminate.
  - intros y [= <-]. vm_compute. split; discriminate.
  - discriminate.
  - exact Hempty.
  - exists resp. split; [exact Hget|]. split; [exact Htotal|].
    split; [exact Helectricity|]. split; [exact Hbreakdown|]. split; [exact Hcount|].
    rewrite Htrend. vm_compute. discriminate.
Defined.

(** * The record views: ownership, retrieval and deletion *)

Lemma lookup_row_foreign user pk rows :
  (∀ r, (pk, r) ∈ rows → ConsumptionRecord.institute r ≠ user) →
  lookup_row pk (owned_by user rows) = None.
Proof.
  intros Hforeign. apply lookup_row_None.
  intros [k r] [Hu Hin]%owned_by_elem_of Hk. simpl in *. subst k.
  by apply (Hforeign r).
Qed.

Lemma foreign_by_Forall user pk (rows : list (Z * ConsumptionRecord.t)) :
  Forall (λ row, row.1 = pk → ConsumptionRecord.institute row.2 ≠ user) rows →
  ∀ r, (pk, r) ∈ rows → ConsumptionRecord.institute r ≠ user.
Proof.
  intros Hall r Hin. rewrite Forall_forall in Hall. by apply (Hall (pk, r)).
Qed.

Lemma lookup_row_owned user pk r rows :
  NoDup rows.*1 → (pk, r) ∈ rows → ConsumptionRecord.institute r = user →
  lookup_row pk (owned_by user rows) = Some r.
Proof.
  intros Hnd Hin Hu. apply lookup_row_elem_of; [by apply owned_by_NoDup|].
  by apply owned_by_elem_of.
Qed.

Lemma lookup_row_owned_inv user pk r rows :
  lookup_row pk (owned_by user rows) = Some r →
  (pk, r) ∈ rows ∧ ConsumptionRecord.institute r = user.
Proof. intros [Hu Hin]%lookup_row_Some%owned_by_elem_of. done. Qed.

Lemma two_record_db_wf : wf two_record_db.
Proof.
  eapply post_wf; [apply one_record_db_wf|]. apply surjective_pairing.
Qed.

Lemma shared_db_wf : wf shared_db.
Proof.
  eapply post_wf; [apply two_record_db_wf|]. apply surjective_pairing.
Qed.

(** X1: a record of another institute does not exist for the caller:
    retrieving, updating and deleting it all answer 404 and leave the database
    as it was. *)
Theorem foreign_record_is_not_found (partial : bool) user pk d db :
  (∀ r, (pk, r) ∈ core_consumptionrecord db → ConsumptionRecord.institute r ≠ user) →
  ConsumptionRecordDetailView.get_object user pk db = (Err Http404, db)
  ∧ ConsumptionRecordDetailView.update partial user pk d db = (Err Http404, db)
  ∧ ConsumptionRecordDetailView.delete user pk db = (Err Http404, db).
Proof.
  intros Hforeign%(lookup_row_foreign user).
  unfold ConsumptionRecordDetailView.update, ConsumptionRecordDetailView.delete, bind,
    ConsumptionRecordDetailView.get_object, ConsumptionRecordDetailView.get_queryset.
  by rewrite Hforeign.
Qed.

(** Institute 8 asks for record 1, which institute 7 owns. *)
Lemma foreign_record_is_not_found_witness :
  ConsumptionRecordDetailView.get_object 8 1 two_record_db = (Err Http404, two_record_db)
  ∧ ConsumptionRecordDetailView.put 8 1 doubled_body two_record_db
    = (Err Http404, two_record_db)
  ∧ ConsumptionRecordDetailView.delete 8 1 two_record_db = (Err Http404, two_record_db).
Proof.
  apply (foreign_record_is_not_found false 8 1 doubled_body two_record_db).
  apply foreign_by_Forall. refine (bool_decide_unpack _ _). vm_compute. exact I.
Defined.

(** The rows a save leaves are the old ones and the one it computed. *)
Lemma save_rows_from pk self db out db' row :
  save pk self db = (out, db') →
  row ∈ core_consumptionrecord db' →
  row ∈ core_consumptionrecord db
  ∨ row.2 = calculate_emissions (core_emissionfactor db) self.
Proof.
  intros [(_ & -> & _)|(_ & _ & k & _ & Hcase)]%save_cases Hin; [by left|].
  destruct Hcase as [(_ & _ & Hrows & _)|[(_ & _ & Hrows & _)|(_ & _ & Hrows & _)]];
    rewrite Hrows in Hin.
  - apply elem_of_replace_row in Hin as [[-> _]|[Hin _]]; [by right|by left].
  - apply elem_of_app in Hin as [Hin| ->%list_elem_of_singleton]; [by left|by right].
  - apply elem_of_app in Hin as [Hin| ->%list_elem_of_singleton]; [by left|by right].
Qed.

(** A save by [user] of an instance owned by [user] keeps the rows of the
    other institutes, and adds none. *)
Lemma save_keeps_foreign_rows user pk self db out db' row :
  (∀ k r, pk = Some k → (k, r) ∈ core_consumptionrecord db →
          ConsumptionRecord.institute r = user) →
  ConsumptionRecord.institute self = user →
  save pk self db = (out, db') →
  ConsumptionRecord.institute row.2 ≠ user →
  row ∈ core_consumptionrecord db' ↔ row ∈ core_consumptionrecord db.
Proof.
  intros Hown Hself Hs Hrow.
  apply save_cases in Hs as [(_ & -> & _)|(_ & _ & k & _ & Hcase)]; [done|].
  destruct Hcase as [(-> & _ & Hrows & _)|[(_ & _ & Hrows & _)|(_ & _ & Hrows & _)]];
    rewrite Hrows.
  - rewrite elem_of_replace_row. split.
    + intros [[-> _]|[Hin _]]; [by destruct Hrow|done].
    + intros Hin. right. split; [done|]. intros Hk. apply Hrow.
      destruct row as [k' r]. simpl in *. subst k'. by eapply Hown.
  - rewrite elem_of_app, list_elem_of_singleton. split; [|by left].
    intros [Hin| ->]; [done|]. by destruct Hrow.
  - rewrite elem_of_app, list_elem_of_singleton. split; [|by left].
    intros [Hin| ->]; [done|]. by destruct Hrow.
Qed.

(** X2: a create, update or delete request of one institute neither adds,
    changes nor removes a record of another institute. *)
Theorem requests_leave_other_institutes_alone user db db' row :
  wf db →
  request_by user db db' →
  ConsumptionRecord.institute row.2 ≠ user →
  row ∈ core_consumptionrecord db' ↔ row ∈ core_consumptionrecord db.
Proof.
  intros Hwf Hreq Hrow. destruct Hreq as [d|partial pk d|pk].
  - destruct (ConsumptionRecordListCreateView.post user d db) as [out db1] eqn:Hpost.
    apply post_cases in Hpost as [(_ & -> & _)|(_ & date & _ & Hs)]; [done|].
    simpl. refine (save_keeps_foreign_rows user None _ db out db1 row _ _ Hs Hrow);
      [by intros k r [=]|done].
  - destruct (ConsumptionRecordDetailView.update partial user pk d db)
      as [out db1] eqn:Hupd.
    apply update_cases in Hupd
      as [(_ & _ & ->)|(old & [Hin Hu]%lookup_row_owned_inv & [(_ & -> & _)|[_ Hs]])];
      [done|done|].
    simpl.
    refine (save_keeps_foreign_rows user (Some pk) _ db out db1 row _ _ Hs Hrow);
      [|done].
    intros k r [= <-] Hr. by rewrite (NoDup_fst_unique _ pk r old (wf_pk _ Hwf) Hr Hin).
  - unfold ConsumptionRecordDetailView.delete, bind,
      ConsumptionRecordDetailView.get_object, ConsumptionRecordDetailView.get_queryset.
    destruct (lookup_row pk _) as [old|] eqn:Hl; [|done].
    apply lookup_row_owned_inv in Hl as [Hin Hu]. simpl.
    rewrite list_elem_of_filter. split; [by intros [_ ?]|].
    intros Hr. split; [|done]. intros Hk. apply Hrow.
    destruct row as [k r]. simpl in *. subst k.
    by rewrite (NoDup_fst_unique _ pk r old (wf_pk _ Hwf) Hr Hin).
Qed.

(** Institute 7 deletes its record 1 from a database in which institute 8
    holds record 3: that record stays. *)
Lemma requests_leave_other_institutes_alone_witness :
  let r8 := calculate_emissions Command.emission_factors
              (ConsumptionRecordSerializer.new_instance 8 (writable sample_body)
                 (datetime._ymd2ord 2024 6 5)) in
  (3%Z, r8) ∈ core_consumptionrecord shared_db
  ∧ ((3%Z, r8) ∈ core_consumptionrecord
                   (ConsumptionRecordDetailView.delete 7 1 shared_db).2
     ↔ (3%Z, r8) ∈ core_consumptionrecord shared_db).
Proof.
  intros r8. split.
  - apply lookup_row_Some. vm_compute. reflexivity.
  - apply (requests_leave_other_institutes_alone 7 shared_db
             (ConsumptionRecordDetailView.delete 7 1 shared_db).2 (3%Z, r8)
             shared_db_wf (by_delete 7 shared_db 1)).
    simpl. discriminate.
Defined.

Lemma delete_cases user pk db out db' :
  ConsumptionRecordDetailView.delete user pk db = (out, db') →
  (lookup_row pk (owned_by user (core_consumptionrecord db)) = None
   ∧ out = Err Http404 ∧ db' = db)
  ∨ (is_Some (lookup_row pk (owned_by user (core_consumptionrecord db)))
     ∧ out = Ok ()
     ∧ db' = mkDB (core_emissionfactor db)
               (filter (λ row, row.1 ≠ pk) (core_consumptionrecord db))
               (next_id db)).
Proof.
  unfold ConsumptionRecordDetailView.delete, bind,
    ConsumptionRecordDetailView.get_object, ConsumptionRecordDetailView.get_queryset.
  destruct (lookup_row pk _) as [old|]; intros [= <- <-]; [right|left]; done.
Qed.

(** X3: deleting one's own record succeeds and removes exactly that record:
    every other record and the factor table stay as they were, the table
    invariant is kept, and the record can no longer be retrieved. *)
Theorem delete_removes_exactly_the_record user pk old db :
  wf db →
  (pk, old) ∈ core_consumptionrecord db →
  ConsumptionRecord.institute old = user →
  ∃ db',
    ConsumptionRecordDetailView.delete user pk db = (Ok (), db')
    ∧ (∀ row, row ∈ core_consumptionrecord db'
              ↔ row ∈ core_consumptionrecord db ∧ row ≠ (pk, old))
    ∧ core_emissionfactor db' = core_emissionfactor db
    ∧ wf db'
    ∧ ConsumptionRecordDetailView.get_object user pk db' = (Err Http404, db').
Proof.
  intros Hwf Hin Hu.
  destruct (ConsumptionRecordDetailView.delete user pk db) as [out db'] eqn:Hdel.
  pose proof (delete_wf _ _ _ _ _ Hwf Hdel) as Hwf'.
  apply delete_cases in Hdel as [(Hnone & _)|(_ & -> & ->)].
  { by rewrite (lookup_row_owned user pk old _ (wf_pk _ Hwf) Hin Hu) in Hnone. }
  exists (mkDB (core_emissionfactor db)
            (filter (λ row, row.1 ≠ pk) (core_consumptionrecord db)) (next_id db)).
  split; [done|]. simpl. split; [|split; [done|split; [done|]]].
  - intros row. rewrite list_elem_of_filter. split.
    + intros [Hk Hr]. split; [done|]. by intros ->.
    + intros [Hr Hne]. split; [|done]. intros Hk. apply Hne.
      destruct row as [k r]. simpl in *. subst k.
      by rewrite (NoDup_fst_unique _ pk r old (wf_pk _ Hwf) Hr Hin).
  - unfold ConsumptionRecordDetailView.get_object,
      ConsumptionRecordDetailView.get_queryset. simpl.
    rewrite (proj2 (lookup_row_None pk _)); [done|].
    intros row [_ [Hk _]%list_elem_of_filter]%owned_by_elem_of. done.
Qed.

(** Institute 7 deletes its June record. *)
Lemma delete_removes_exactly_the_record_witness :
  ∃ db',
    ConsumptionRecordDetailView.delete 7 1 two_record_db = (Ok (), db')
    ∧ length (core_consumptionrecord db') = 1
    ∧ ConsumptionRecordDetailView.get_object 7 1 db' = (Err Http404, db').
Proof.
  destruct (delete_removes_exactly_the_record 7 1
              (calculate_emissions Command.emission_factors
                 (ConsumptionRecordSerializer.new_instance 7 (writable sample_body)
                    (datetime._ymd2ord 2024 6 5)))
              two_record_db two_record_db_wf)
    as (db' & Hdel & _ & _ & _ & Hget).
  - apply lookup_row_Some. vm_compute. reflexivity.
  - reflexivity.
  - exists db'. split; [exact Hdel|]. split; [|exact Hget].
    vm_compute in Hdel. injection Hdel as <-. reflexivity.
Defined.

(** X4: a record that a create or an update has saved can be retrieved, and
    by its owner only: under the reported id the caller retrieves a record
    with that id, the caller as institute and the reported department and
    date, this record is in the caller's list, and every other institute is
    answered 404 for the id.  Nothing is said of the quantities, which the
    table may store in another representation than the one reported. *)
Theorem saved_record_can_be_retrieved (partial : bool) user pk d db res db' :
  wf db →
  ConsumptionRecordListCreateView.post user d db = (Ok res, db')
  ∨ ConsumptionRecordDetailView.update partial user pk d db = (Ok res, db') →
  (∃ row,
     ConsumptionRecordDetailView.get_object user res.1 db' = (Ok row, db')
     ∧ row.1 = res.1
     ∧ ConsumptionRecord.institute row.2 = user
     ∧ ConsumptionRecord.department row.2 = ConsumptionRecord.department res.2
     ∧ ConsumptionRecord.date row.2 = ConsumptionRecord.date res.2
     ∧ row ∈ ConsumptionRecordListCreateView.get user db')
  ∧ ∀ other, other ≠ user →
      ConsumptionRecordDetailView.get_object other res.1 db' = (Err Http404, db').
Proof.
  intros Hwf Hreq.
  assert (∃ pk' self, save pk' self db = (Ok res, db')
                      ∧ ConsumptionRecord.institute self = user) as (pk' & self & Hs & Hu).
  { destruct Hreq as [Hpost|Hupd].
    - apply post_cases in Hpost as [(_ & _ & fields & Hout)|(_ & date & _ & Hs)];
        [done|]. by eexists _, _.
    - apply update_cases in Hupd
        as [(_ & Hout & _)|(old & [_ Hu]%lookup_row_owned_inv
                            & [(_ & _ & fields & Hout)|[_ Hs]])]; [done|done|].
      by eexists _, _. }
  pose proof (save_wf _ _ _ _ _ Hwf Hs) as Hwf'.
  pose proof (save_lookup _ _ _ _ _ Hwf Hs) as Hl%lookup_row_Some.
  apply save_Ok in Hs as (Hres & _).
  assert (ConsumptionRecord.institute res.2 = user) as Hres_u by (by rewrite Hres).
  destruct res as [k r]. simpl in *.
  pose proof (lookup_row_owned user k r _ (wf_pk _ Hwf') Hl Hres_u) as Hlook.
  split.
  - exists (k, r). split.
    { unfold ConsumptionRecordDetailView.get_object,
        ConsumptionRecordDetailView.get_queryset. by rewrite Hlook. }
    do 4 (split; [done|]).
    unfold ConsumptionRecordListCreateView.get,
      ConsumptionRecordListCreateView.get_queryset.
    rewrite merge_sort_Permutation. by apply owned_by_elem_of.
  - intros other Hne.
    unfold ConsumptionRecordDetailView.get_object,
      ConsumptionRecordDetailView.get_queryset.
    rewrite lookup_row_foreign; [done|].
    intros r' Hin. rewrite (NoDup_fst_unique _ k r' r (wf_pk _ Hwf') Hin Hl). congruence.
Qed.

Lemma seeded_db_wf : wf seeded_db.
Proof.
  destruct (seed_frame _ _ _ empty_db _ _ (surjective_pairing (Command.handle empty_db)))
    as [Hrows Hnext].
  by apply (wf_frame empty_db); [| |apply wf_empty].
Qed.

(** The sample record is created for institute 7 and reported as record 1:
    institute 7 retrieves it, institute 8 does not. *)
Lemma saved_record_can_be_retrieved_witness :
  ∃ r row,
    ConsumptionRecordListCreateView.post 7 sample_body seeded_db
    = (Ok (1%Z, r), one_record_db)
    ∧ ConsumptionRecordDetailView.get_object 7 1 one_record_db = (Ok row, one_record_db)
    ∧ row.1 = 1%Z
    ∧ ConsumptionRecord.department row.2 = "HOSTEL"
    ∧ ConsumptionRecord.date row.2 = datetime._ymd2ord 2024 6 5
    ∧ ConsumptionRecordDetailView.get_object 8 1 one_record_db
      = (Err Http404, one_record_db).
Proof.
  assert (∃ r, ConsumptionRecordListCreateView.post 7 sample_body seeded_db
               = (Ok (1%Z, r), one_record_db)
               ∧ ConsumptionRecord.department r = "HOSTEL"
               ∧ ConsumptionRecord.date r = datetime._ymd2ord 2024 6 5)
    as (r & Hpost & Hdept & Hdate).
  { eexists. split; [|split]; vm_compute; reflexivity. }
  destruct (saved_record_can_be_retrieved false 7 1 sample_body seeded_db
              (1%Z, r) one_record_db seeded_db_wf (or_introl Hpost))
    as [(row & Hget & Hid & _ & Hrow_dept & Hrow_date & _) Hother].
  change ((1%Z, r).1) with 1%Z in Hget, Hid, Hother.
  change ((1%Z, r).2) with r in Hrow_dept, Hrow_date.
  exists r, row. split; [exact Hpost|]. split; [exact Hget|]. split; [exact Hid|].
  split; [by rewrite Hrow_dept|]. split; [by rewrite Hrow_date|].
  apply Hother. discriminate.
Defined.

(** * Invariants of the record table *)

Lemma reachable_two_record_db : rtc step empty_db two_record_db.
Proof.
  apply (rtc_l _ _ seeded_db); [apply step_seed|].
  apply (rtc_l _ _ one_record_db); [apply (step_post seeded_db 7 sample_body)|].
  apply rtc_once. apply (step_post one_record_db 7 december_body).
Qed.

(** X5: in every database that requests and commands have built from an
    empty record table, two different rows differ in institute, department or
    date: there is at most one record per institute, department and day. *)
Theorem one_record_per_institute_department_day efs n db row1 row2 :
  rtc step (mkDB efs [] n) db →
  row1 ∈ core_consumptionrecord db →
  row2 ∈ core_consumptionrecord db →
  row1 ≠ row2 →
  ConsumptionRecord.unique_together row1.2 ≠ ConsumptionRecord.unique_together row2.2.
Proof.
  intros Hwf%reachable_wf H1 H2 Hne Heq. apply Hne.
  pose proof (wf_unique_together _ Hwf row1 row2 H1 H2 Heq) as Hpk.
  destruct row1 as [k1 r1], row2 as [k2 r2]. simpl in *. subst k2. f_equal.
  by eapply NoDup_fst_unique; [apply Hwf| |].
Qed.

(** The June and the December record of the example database. *)
Lemma one_record_per_institute_department_day_witness :
  let r1 := calculate_emissions Command.emission_factors
              (ConsumptionRecordSerializer.new_instance 7 (writable sample_body)
                 (datetime._ymd2ord 2024 6 5)) in
  let r2 := calculate_emissions Command.emission_factors
              (ConsumptionRecordSerializer.new_instance 7 (writable december_body)
                 (datetime._ymd2ord 2024 12 25)) in
  core_consumptionrecord two_record_db = [(1%Z, r1); (2%Z, r2)]
  ∧ ConsumptionRecord.unique_together r1 ≠ ConsumptionRecord.unique_together r2.
Proof.
  intros r1 r2.
  assert (core_consumptionrecord two_record_db = [(1%Z, r1); (2%Z, r2)]) as Hrows
    by (vm_compute; reflexivity).
  split; [exact Hrows|].
  apply (one_record_per_institute_department_day [] 1 two_record_db
           (1%Z, r1) (2%Z, r2) reachable_two_record_db).
  - rewrite Hrows. apply list_elem_of_here.
  - rewrite Hrows. apply list_elem_of_further, list_elem_of_here.
  - discriminate.
Defined.

Lemma calculate_emissions_total efs self : total_is_sum (calculate_emissions efs self).
Proof. reflexivity. Qed.

(** Every request and command keeps the totals of the stored rows. *)
Lemma step_total_is_sum db db' :
  step db db' →
  (∀ row, row ∈ core_consumptionrecord db → total_is_sum row.2) →
  ∀ row, row ∈ core_consumptionrecord db' → total_is_sum row.2.
Proof.
  intros Hstep Hall row Hin. destruct Hstep as [user d|partial user pk d|user pk|ef|].
  - destruct (ConsumptionRecordListCreateView.post user d db) as [out db1] eqn:Hpost.
    apply post_cases in Hpost as [(_ & -> & _)|(_ & date & _ & Hs)]; [by apply Hall|].
    destruct (save_rows_from _ _ _ _ _ row Hs Hin) as [Hold| ->]; [by apply Hall|].
    apply calculate_emissions_total.
  - destruct (ConsumptionRecordDetailView.update partial user pk d db)
      as [out db1] eqn:Hupd.
    apply update_cases in Hupd as [(_ & _ & ->)|(old & _ & [(_ & -> & _)|[_ Hs]])];
      [by apply Hall|by apply Hall|].
    destruct (save_rows_from _ _ _ _ _ row Hs Hin) as [Hold| ->]; [by apply Hall|].
    apply calculate_emissions_total.
  - destruct (ConsumptionRecordDetailView.delete user pk db) as [out db1] eqn:Hdel.
    apply delete_cases in Hdel as [(_ & _ & ->)|(_ & _ & ->)]; [by apply Hall|].
    simpl in Hin. apply list_elem_of_filter in Hin as [_ Hin]. by apply Hall.
  - destruct (update_or_create_frame ef db _ _ (surjective_pairing _)) as [Hrows _].
    rewrite Hrows in Hin. by apply Hall.
  - destruct (seed_frame _ _ _ db _ _ (surjective_pairing (Command.handle db)))
      as [Hrows _].
    rewrite Hrows in Hin. by apply Hall.
Qed.

Lemma steps_total_is_sum db db' :
  rtc step db db' →
  (∀ row, row ∈ core_consumptionrecord db → total_is_sum row.2) →
  ∀ row, row ∈ core_consumptionrecord db' → total_is_sum row.2.
Proof.
  induction 1 as [db|db1 db2 db3 Hstep _ IH]; [done|].
  intros Hall. apply IH. by apply (step_total_is_sum db1).
Qed.

(** X6: in every database built from an empty record table, the stored
    total of each record is the binary64 sum of its four stored components,
    also after the emission factors have changed. *)
Theorem stored_totals_are_sums efs n db row :
  rtc step (mkDB efs [] n) db →
  row ∈ core_consumptionrecord db →
  total_is_sum row.2.
Proof.
  intros Hsteps. apply (steps_total_is_sum _ _ Hsteps).
  by intros row' ?%elem_of_nil.
Qed.

(** The December record of the example database. *)
Lemma stored_totals_are_sums_witness :
  total_is_sum
    (calculate_emissions Command.emission_factors
       (ConsumptionRecordSerializer.new_instance 7 (writable december_body)
          (datetime._ymd2ord 2024 12 25))).
Proof.
  apply (stored_totals_are_sums [] 1 two_record_db
           (2%Z, calculate_emissions Command.emission_factors
                   (ConsumptionRecordSerializer.new_instance 7 (writable december_body)
                      (datetime._ymd2ord 2024 12 25)))
           reachable_two_record_db).
  apply lookup_row_Some. vm_compute. reflexivity.
Defined.

(** * Updates *)

Lemma set_attrs_empty r :
  ConsumptionRecordSerializer.set_attrs r (writable empty_body) = r.
Proof. by destruct r. Qed.

Lemma empty_body_acceptable : acceptable true empty_body.
Proof. by repeat split. Qed.

(** Saving an existing row of a well-formed table under its own triple. *)
Lemma save_own_triple pk old self db :
  wf db →
  (pk, old) ∈ core_consumptionrecord db →
  ConsumptionRecord.unique_together self = ConsumptionRecord.unique_together old →
  save (Some pk) self db
  = (Ok (pk, calculate_emissions (core_emissionfactor db) self),
     mkDB (core_emissionfactor db)
          (replace_row pk (calculate_emissions (core_emissionfactor db) self)
             (core_consumptionrecord db))
          (next_id db)).
Proof.
  intros Hwf Hin Htriple. apply save_existing.
  - apply violates_unique_together_false. intros row Hrow Heq. f_equal.
    apply (wf_unique_together _ Hwf row (pk, old)); [done|done|].
    by rewrite Heq, Htriple.
  - rewrite (lookup_row_elem_of pk _ old); [done|apply Hwf|done].
Qed.

(** X7: a PATCH without any field changes no raw quantity of the record but
    still recomputes its derived fields with the factor table of the moment,
    so it replaces the frozen snapshot by current values. *)
Theorem empty_patch_recomputes user pk old db :
  wf db →
  (pk, old) ∈ core_consumptionrecord db →
  ConsumptionRecord.institute old = user →
  let r := calculate_emissions (core_emissionfactor db) old in
  ∃ db',
    ConsumptionRecordDetailView.patch user pk empty_body db = (Ok (pk, r), db')
    ∧ lookup_row pk (core_consumptionrecord db') = Some r
    ∧ same_raw r old
    ∧ derived_by (λ k dflt, default dflt (factor_lookup (core_emissionfactor db) k)) r.
Proof.
  intros Hwf Hin Hu r.
  pose proof (lookup_row_owned user pk old _ (wf_pk _ Hwf) Hin Hu) as Hl.
  pose proof (update_acceptable true user pk empty_body db old Hl empty_body_acceptable)
    as Hupd.
  rewrite set_attrs_empty in Hupd.
  rewrite (save_own_triple pk old old db Hwf Hin eq_refl) in Hupd.
  eexists. split; [exact Hupd|].
  rewrite <-(save_own_triple pk old old db Hwf Hin eq_refl) in Hupd.
  split; [|split].
  - apply (save_lookup (Some pk) old db (pk, r)); [done|].
    by rewrite (save_own_triple pk old old db Hwf Hin eq_refl).
  - apply calculate_emissions_same_raw.
  - apply calculate_emissions_derived.
Qed.

(** The grid factor is lowered after the sample record was saved; an empty
    PATCH of the record then stores the total of the new factor. *)
Lemma empty_patch_recomputes_witness :
  let db := (update_or_create grid_factor_2025 one_record_db).2 in
  ConsumptionRecord.total_emissions <$> lookup_row 1 (core_consumptionrecord db)
  = Some 138.942%float
  ∧ ∃ r db',
      ConsumptionRecordDetailView.patch 7 1 empty_body db = (Ok (1%Z, r), db')
      ∧ lookup_row 1 (core_consumptionrecord db') = Some r
      ∧ ConsumptionRecord.total_emissions r = 127.942%float.
Proof.
  intros db. split; [vm_compute; reflexivity|].
  destruct (empty_patch_recomputes 7 1
              (calculate_emissions Command.emission_factors
                 (ConsumptionRecordSerializer.new_instance 7 (writable sample_body)
                    (datetime._ymd2ord 2024 6 5)))
              db)
    as (db' & Hpatch & Hlook & _).
  - apply (wf_frame one_record_db); [| |apply one_record_db_wf];
      apply (update_or_create_frame grid_factor_2025 one_record_db
               (update_or_create grid_factor_2025 one_record_db).1), surjective_pairing.
  - apply lookup_row_Some. vm_compute. reflexivity.
  - reflexivity.
  - eexists _, db'. split; [exact Hpatch|]. split; [exact Hlook|].
    vm_compute. reflexivity.
Defined.

(** X8: an update that would give a record the department and date of
    another record of the same institute is refused by the uniqueness
    constraint, and nothing is written. *)
Theorem update_onto_existing_triple_conflicts (partial : bool) user pk1 r1 pk2 r2 d db :
  wf db →
  (pk1, r1) ∈ core_consumptionrecord db →
  (pk2, r2) ∈ core_consumptionrecord db →
  pk1 ≠ pk2 →
  ConsumptionRecord.institute r1 = user →
  ConsumptionRecord.institute r2 = user →
  acceptable partial d →
  ConsumptionRecordSerializer.data.department d = Given (ConsumptionRecord.department r2) →
  ConsumptionRecordSerializer.data.date d = Given (ConsumptionRecord.date r2) →
  ConsumptionRecordDetailView.update partial user pk1 d db = (Err IntegrityError, db).
Proof.
  intros Hwf H1 H2 Hne Hu1 Hu2 Hacc Hdep Hdate.
  pose proof (lookup_row_owned user pk1 r1 _ (wf_pk _ Hwf) H1 Hu1) as Hl.
  rewrite (update_acceptable partial user pk1 d db r1 Hl Hacc).
  apply save_conflict. apply violates_unique_together_true.
  exists (pk2, r2). split; [done|]. split; [|by intros [= ->]]. simpl.
  unfold ConsumptionRecord.unique_together, writable. simpl.
  by rewrite Hdep, Hdate, Hu1, Hu2.
Qed.

Lemma moved_body_acceptable : acceptable false moved_body.
Proof. unfold acceptable; simpl. repeat split; vm_compute; reflexivity. Qed.

(** The June record is moved onto the department and day of the December
    record. *)
Lemma update_onto_existing_triple_conflicts_witness :
  ConsumptionRecordDetailView.put 7 1 moved_body two_record_db
  = (Err IntegrityError, two_record_db).
Proof.
  apply (update_onto_existing_triple_conflicts false 7
           1 (calculate_emissions Command.emission_factors
                (ConsumptionRecordSerializer.new_instance 7 (writable sample_body)
                   (datetime._ymd2ord 2024 6 5)))
           2 (calculate_emissions Command.emission_factors
                (ConsumptionRecordSerializer.new_instance 7 (writable december_body)
                   (datetime._ymd2ord 2024 12 25)))
           moved_body two_record_db two_record_db_wf).
  - apply lookup_row_Some. vm_compute. reflexivity.
  - apply lookup_row_Some. vm_compute. reflexivity.
  - discriminate.
  - reflexivity.
  - reflexivity.
  - exact moved_body_acceptable.
  - reflexivity.
  - reflexivity.
Defined.

Lemma replace_row_idemp pk r rows :
  replace_row pk r (replace_row pk r rows) = replace_row pk r rows.
Proof.
  unfold replace_row. rewrite <-list_fmap_compose. apply list_fmap_ext.
  intros i [k x] _. simpl. destruct (decide (k = pk)) as [->|Hne]; simpl.
  - by rewrite decide_True.
  - by rewrite decide_False.
Qed.

Lemma set_attrs_again r old vd :
  same_raw r (ConsumptionRecordSerializer.set_attrs old vd) →
  same_raw (ConsumptionRecordSerializer.set_attrs r vd)
           (ConsumptionRecordSerializer.set_attrs old vd).
Proof.
  unfold same_raw. simpl.
  intros (-> & -> & -> & -> & -> & -> & -> & -> & ->).
  repeat split;
    match goal with
    | |- default (default _ ?v) ?v = _ => by destruct v
    end.
Qed.

(** On the columns of the record type a repeated update finds nothing to
    change. *)
Lemma update_again (partial : bool) user pk d db res db' :
  wf db →
  ConsumptionRecordDetailView.update partial user pk d db = (Ok res, db') →
  ConsumptionRecordDetailView.update partial user pk d db' = (Ok res, db').
Proof.
  intros Hwf Hupd. pose proof (update_wf _ _ _ _ _ _ _ Hwf Hupd) as Hwf'.
  apply update_cases in Hupd
    as [(_ & Hout & _)|(old & Hold & [(_ & _ & fields & Hout)|[Hacc Hs]])];
    [done|done|].
  apply lookup_row_owned_inv in Hold as [Hin Hu].
  apply save_cases in Hs as [[Hout _]|(_ & Hefs & k & [= ->] & Hcase)]; [done|].
  destruct Hcase as [([= <-] & _ & Hrows & Hnext)|[([= <-] & Hnone & _)|(Hpk & _)]];
    [|exfalso; by apply (proj1 (lookup_row_None pk _) Hnone (pk, old) Hin)|done].
  set (r := calculate_emissions (core_emissionfactor db)
              (ConsumptionRecordSerializer.set_attrs old (writable d))) in *.
  assert ((pk, r) ∈ core_consumptionrecord db') as Hin'.
  { rewrite Hrows. apply elem_of_replace_row. left. eauto. }
  assert (ConsumptionRecord.institute r = user) as Hu' by done.
  pose proof (lookup_row_owned user pk r _ (wf_pk _ Hwf') Hin' Hu') as Hl'.
  rewrite (update_acceptable partial user pk d db' r Hl' Hacc).
  assert (same_raw (ConsumptionRecordSerializer.set_attrs r (writable d))
                   (ConsumptionRecordSerializer.set_attrs old (writable d))) as Hraw
    by apply set_attrs_again, calculate_emissions_same_raw.
  rewrite (save_own_triple pk r _ db' Hwf' Hin'); cycle 1.
  { destruct Hraw as (Hi & Hd & Hdt & _).
    unfold ConsumptionRecord.unique_together. by rewrite Hi, Hd, Hdt. }
  rewrite Hefs, (calculate_emissions_ignores_derived _ _ _ Hraw). fold r.
  rewrite Hrows, replace_row_idemp, <-Hrows, <-Hefs.
  by destruct db'.
Qed.

(** X9: apart from the updated_at timestamp, which every save rewrites, an
    update is idempotent: sending the same body for the same record again,
    the factors being unchanged, succeeds, reports the same id, owner,
    department, date, quantities and derived fields, stores them, and leaves
    every other record, the factor table and the next id as the first update
    left them. *)
Theorem update_is_idempotent (partial : bool) user pk d db res db' :
  wf db →
  ConsumptionRecordDetailView.update partial user pk d db = (Ok res, db') →
  ∃ res2 db2,
    ConsumptionRecordDetailView.update partial user pk d db' = (Ok res2, db2)
    ∧ res2.1 = res.1
    ∧ same_raw res2.2 res.2
    ∧ same_derived res2.2 res.2
    ∧ res2 ∈ core_consumptionrecord db2
    ∧ (∀ row, row.1 ≠ res.1 →
         row ∈ core_consumptionrecord db2 ↔ row ∈ core_consumptionrecord db')
    ∧ core_emissionfactor db2 = core_emissionfactor db'
    ∧ next_id db2 = next_id db'.
Proof.
  intros Hwf Hupd. pose proof (update_again _ _ _ _ _ _ _ Hwf Hupd) as Hagain.
  exists res, db'. split; [exact Hagain|]. split; [done|].
  split; [by repeat split|]. split; [by repeat split|].
  split; [|by repeat split].
  apply update_cases in Hagain
    as [(_ & Hout & _)|(old & _ & [(_ & _ & fields & Hout)|[_ Hs]])]; [done|done|].
  by apply save_Ok in Hs as (_ & Hin & _).
Qed.

(** The doubled reading is put twice ([put] is [update false]). *)
Lemma update_is_idempotent_witness :
  ∃ res db' res2 db2,
    ConsumptionRecordDetailView.update false 7 1 doubled_body one_record_db = (Ok res, db')
    ∧ ConsumptionRecord.electricity_emissions res.2 = 164%float
    ∧ ConsumptionRecordDetailView.update false 7 1 doubled_body db' = (Ok res2, db2)
    ∧ res2.1 = 1%Z
    ∧ ConsumptionRecord.electricity_kwh res2.2 = 200%float
    ∧ ConsumptionRecord.electricity_emissions res2.2 = 164%float.
Proof.
  assert (∃ res db',
            ConsumptionRecordDetailView.update false 7 1 doubled_body one_record_db = (Ok res, db')
            ∧ res.1 = 1%Z
            ∧ ConsumptionRecord.electricity_kwh res.2 = 200%float
            ∧ ConsumptionRecord.electricity_emissions res.2 = 164%float)
    as (res & db' & Hput & Hid & Hkwh & He).
  { eexists _, _. split; [|split; [|split]]; vm_compute; reflexivity. }
  destruct (update_is_idempotent false 7 1 doubled_body one_record_db res db'
              one_record_db_wf Hput)
    as (res2 & db2 & Hagain & Hid2 & Hraw & Hderived & _).
  exists res, db', res2, db2. split; [exact Hput|]. split; [exact He|].
  split; [exact Hagain|]. split; [exact (eq_trans Hid2 Hid)|].
  destruct Hraw as (_ & _ & _ & Hkwh2 & _). destruct Hderived as (He2 & _).
  split; [exact (eq_trans Hkwh2 Hkwh)|exact (eq_trans He2 He)].
Defined.


(** * The list of records *)

(** X10: the list view returns the caller's records and no others, each as
    often as it is stored, the most recent date first. *)
Theorem list_is_own_records_latest_first user db :
  let l := ConsumptionRecordListCreateView.get user db in
  l ≡ₚ owned_by user (core_consumptionrecord db)
  ∧ (∀ row, row ∈ l ↔ ConsumptionRecord.institute row.2 = user
                       ∧ row ∈ core_consumptionrecord db)
  ∧ StronglySorted date_descending l.
Proof.
  unfold ConsumptionRecordListCreateView.get,
    ConsumptionRecordListCreateView.get_queryset. simpl.
  split; [apply merge_sort_Permutation|]. split.
  - intros row. rewrite merge_sort_Permutation. apply owned_by_elem_of.
  - apply StronglySorted_merge_sort; apply _.
Qed.

(** * Seeding the factor table *)

Lemma same_key_factor_key c s ef : same_key c s ef ↔ factor_key ef = (c, s).
Proof. unfold same_key, factor_key. split; [by intros [-> ->]|by intros [= -> ->]]. Qed.

Lemma NoDup_fmap_unique {A B} (f : A → B) (l : list A) x y :
  NoDup (f <$> l) → x ∈ l → y ∈ l → f x = f y → x = y.
Proof.
  induction l as [|a l IH]; simpl; [by intros _ ?%elem_of_nil|].
  intros [Ha Hl]%NoDup_cons [->|Hx]%elem_of_cons [->|Hy]%elem_of_cons Heq.
  - done.
  - exfalso. apply Ha. rewrite Heq. by apply list_elem_of_fmap_2.
  - exfalso. apply Ha. rewrite <-Heq. by apply list_elem_of_fmap_2.
  - by apply IH.
Qed.

Lemma filter_ext_elem {A} (P Q : A → Prop)
    `{!∀ x, Decision (P x)} `{!∀ x, Decision (Q x)} (l : list A) :
  (∀ x, x ∈ l → P x ↔ Q x) → filter P l = filter Q l.
Proof.
  induction l as [|a l IH]; intros Hiff; [done|].
  assert (filter P l = filter Q l) as Hl
    by (apply IH; intros x Hx; by apply Hiff, list_elem_of_further).
  destruct (decide (P a)) as [Hp|Hp].
  - rewrite !filter_cons_True; [by rewrite Hl| |done].
    by apply (Hiff a), Hp; apply list_elem_of_here.
  - rewrite !filter_cons_False; [done| |done].
    intros Hq. by apply Hp, (Hiff a); [apply list_elem_of_here|].
Qed.

(** What [update_or_create] does to a factor table with distinct keys. *)
Lemma update_or_create_spec defaults db :
  NoDup (factor_key <$> core_emissionfactor db) →
  let created := bool_decide (factor_key defaults ∉ factor_key <$> core_emissionfactor db) in
  ∃ db',
    update_or_create defaults db = (Ok (defaults, created), db')
    ∧ factor_key <$> core_emissionfactor db'
      = (factor_key <$> core_emissionfactor db)
          ++ (if created then [factor_key defaults] else [])
    ∧ NoDup (factor_key <$> core_emissionfactor db')
    ∧ defaults ∈ core_emissionfactor db'
    ∧ (∀ ef, factor_key ef ≠ factor_key defaults →
         ef ∈ core_emissionfactor db' ↔ ef ∈ core_emissionfactor db)
    ∧ core_consumptionrecord db' = core_consumptionrecord db
    ∧ next_id db' = next_id db.
Proof.
  intros Hnd created. unfold update_or_create.
  set (c := EmissionFactor.category defaults).
  set (s := EmissionFactor.sub_category defaults).
  assert (Exists (same_key c s) (core_emissionfactor db)
          ↔ factor_key defaults ∈ factor_key <$> core_emissionfactor db) as Hex.
  { rewrite Exists_exists, list_elem_of_fmap. split.
    - intros (ef & Hin & Hk%same_key_factor_key). by exists ef.
    - intros (ef & Hk & Hin). exists ef. split; [done|]. by apply same_key_factor_key. }
  case_bool_decide as Hfound.
  - assert (created = false) as ->.
    { unfold created. apply bool_decide_eq_false. intros Hn. by apply Hn, Hex. }
    eexists. split; [done|]. simpl.
    assert (factor_key <$> ((λ ef, if decide (same_key c s ef) then defaults else ef)
                              <$> core_emissionfactor db)
            = factor_key <$> core_emissionfactor db) as Hkeys.
    { rewrite <-list_fmap_compose. apply list_fmap_ext. intros i ef _. simpl.
      case_decide as Hk; [|done]. by apply same_key_factor_key in Hk as ->. }
    rewrite Hkeys, app_nil_r. do 2 (split; [done|]). split; [|split; [|done]].
    + apply Exists_exists in Hfound as (ef & Hin & Hk).
      apply list_elem_of_fmap. exists ef. by rewrite decide_True.
    + intros ef Hne. rewrite list_elem_of_fmap. split.
      * intros (ef' & -> & Hin). by case_decide.
      * intros Hin. exists ef. split; [|done]. rewrite decide_False; [done|].
        by intros Hk%same_key_factor_key.
  - assert (created = true) as ->.
    { unfold created. apply bool_decide_eq_true. by rewrite <-Hex. }
    eexists. split; [done|]. simpl. rewrite fmap_app. simpl.
    split; [done|]. split; [|split; [|split; [|done]]].
    + apply NoDup_app. split; [done|]. split; [|apply NoDup_singleton].
      intros k Hk ->%list_elem_of_singleton. by apply Hfound, Hex.
    + apply elem_of_app. right. apply list_elem_of_here.
    + intros ef Hne. rewrite elem_of_app, list_elem_of_singleton. split; [|by left].
      intros [Hin| ->]; done.
Qed.

(** The loop of the command over factors with distinct keys. *)
Lemma seed_spec efs : ∀ created_count updated_count db,
  NoDup (factor_key <$> efs) →
  NoDup (factor_key <$> core_emissionfactor db) →
  ∃ created updated db',
    Command.seed efs created_count updated_count db = (Ok (created, updated), db')
    ∧ created
      = created_count
        + length (filter (λ ef, factor_key ef ∉ factor_key <$> core_emissionfactor db) efs)
    ∧ created + updated = created_count + updated_count + length efs
    ∧ (∀ ef, ef ∈ efs → ef ∈ core_emissionfactor db')
    ∧ (∀ ef, factor_key ef ∉ factor_key <$> efs →
         ef ∈ core_emissionfactor db' ↔ ef ∈ core_emissionfactor db)
    ∧ NoDup (factor_key <$> core_emissionfactor db')
    ∧ core_consumptionrecord db' = core_consumptionrecord db
    ∧ next_id db' = next_id db.
Proof.
  induction efs as [|ef efs IH]; intros c u db Hefs Hdb.
  - exists c, u, db. simpl. unfold ret.
    split; [done|]. split; [lia|]. split; [lia|].
    split; [by intros ef ?%elem_of_nil|]. by repeat split.
  - apply NoDup_cons in Hefs as [Hef Hefs]. simpl in Hef.
    destruct (update_or_create_spec ef db Hdb)
      as (db1 & Huc & Hkeys & Hnd1 & Hin1 & Hother1 & Hrows1 & Hnext1).
    assert (∀ ef', ef' ∈ efs → factor_key ef' ≠ factor_key ef) as Hdiff.
    { intros ef' Hin' Heq. apply Hef. rewrite <-Heq. by apply list_elem_of_fmap_2. }
    assert (filter (λ ef', factor_key ef' ∉ factor_key <$> core_emissionfactor db1) efs
            = filter (λ ef', factor_key ef' ∉ factor_key <$> core_emissionfactor db) efs)
      as Hfilter.
    { apply filter_ext_elem. intros ef' Hin'. rewrite Hkeys, elem_of_app.
      split; [intros Hn Hk; apply Hn; by left|].
      intros Hn [Hk|Hk]; [done|]. case_bool_decide; [|by apply elem_of_nil in Hk].
      apply list_elem_of_singleton in Hk. by apply (Hdiff ef'). }
    simpl. unfold bind at 1. rewrite Huc. simpl.
    case_bool_decide as Hnew.
    + destruct (IH (S c) u db1 Hefs Hnd1)
        as (c' & u' & db' & Hseed & Hc & Hsum & Hall & Hother & Hnd' & Hrows & Hnext).
      exists c', u', db'. split; [done|]. rewrite filter_cons_True by done.
      rewrite Hfilter in Hc. simpl. split; [lia|]. split; [lia|].
      split; [|split; [|split; [done|split; congruence]]].
      * intros ef' [->|Hin']%elem_of_cons; [|by apply Hall].
        apply Hother; [|done]. intros Hk. by apply Hef.
      * intros ef' Hk. rewrite Hother, Hother1; [done| |].
        -- intros Heq. apply Hk. rewrite Heq. apply list_elem_of_here.
        -- intros Hk'. apply Hk. by apply list_elem_of_further.
    + destruct (IH c (S u) db1 Hefs Hnd1)
        as (c' & u' & db' & Hseed & Hc & Hsum & Hall & Hother & Hnd' & Hrows & Hnext).
      exists c', u', db'. split; [done|].
      rewrite filter_cons_False by (intros Hn; exact (Hn Hnew)).
      rewrite Hfilter in Hc. simpl. split; [lia|]. split; [lia|].
      split; [|split; [|split; [done|split; congruence]]].
      * intros ef' [->|Hin']%elem_of_cons; [|by apply Hall].
        apply Hother; [|done]. intros Hk. by apply Hef.
      * intros ef' Hk. rewrite Hother, Hother1; [done| |].
        -- intros Heq. apply Hk. rewrite Heq. apply list_elem_of_here.
        -- intros Hk'. apply Hk. by apply list_elem_of_further.
Qed.

Lemma emission_factors_NoDup : NoDup (factor_key <$> Command.emission_factors).
Proof. refine (bool_decide_unpack _ _). vm_compute. exact I. Qed.

(** X11: on a factor table with distinct keys the seeding command succeeds
    and reports as created the standard factors whose key was not in the
    table and as updated the others, ten in all; afterwards each of the ten
    standard factors is a row of the table, rows under other keys are as
    before, keys are still distinct, and no consumption record is touched. *)
Theorem seeding_installs_the_standard_factors db :
  NoDup (factor_key <$> core_emissionfactor db) →
  ∃ created updated db',
    Command.handle db = (Ok (created, updated), db')
    ∧ created
      = length (filter (λ ef, factor_key ef ∉ factor_key <$> core_emissionfactor db)
                  Command.emission_factors)
    ∧ created + updated = 10
    ∧ (∀ ef, ef ∈ Command.emission_factors → ef ∈ core_emissionfactor db')
    ∧ (∀ ef, factor_key ef ∉ factor_key <$> Command.emission_factors →
         ef ∈ core_emissionfactor db' ↔ ef ∈ core_emissionfactor db)
    ∧ NoDup (factor_key <$> core_emissionfactor db')
    ∧ core_consumptionrecord db' = core_consumptionrecord db.
Proof.
  intros Hdb.
  destruct (seed_spec Command.emission_factors 0 0 db emission_factors_NoDup Hdb)
    as (c & u & db' & Hseed & Hc & Hsum & Hall & Hother & Hnd & Hrows & _).
  exists c, u, db'. split; [exact Hseed|]. split; [exact Hc|].
  split; [exact Hsum|]. by split; [|split; [|split]].
Qed.

(** A table that holds only an outdated grid factor and a factor for biogas:
    nine factors are created and one is updated, and the biogas row stays. *)
Lemma seeding_installs_the_standard_factors_witness :
  ∃ db',
    Command.handle stale_factors_db = (Ok (9, 1), db')
    ∧ biogas_factor ∈ core_emissionfactor db'
    ∧ ∀ ef, ef ∈ Command.emission_factors → ef ∈ core_emissionfactor db'.
Proof.
  destruct (seeding_installs_the_standard_factors stale_factors_db)
    as (c & u & db' & Hseed & Hc & Hsum & Hall & Hother & _).
  - refine (bool_decide_unpack _ _). vm_compute. exact I.
  - vm_compute in Hc. subst c. assert (u = 1) as -> by lia.
    exists db'. split; [exact Hseed|]. split; [|exact Hall].
    apply Hother.
    + refine (bool_decide_unpack _ _). vm_compute. exact I.
    + apply list_elem_of_further, list_elem_of_here.
Defined.

(** Seeding a table that holds the factors under distinct keys changes
    nothing. *)
Lemma seed_settled efs : ∀ created_count updated_count db,
  NoDup (factor_key <$> core_emissionfactor db) →
  (∀ ef, ef ∈ efs → ef ∈ core_emissionfactor db) →
  Command.seed efs created_count updated_count db
  = (Ok (created_count, updated_count + length efs), db).
Proof.
  induction efs as [|ef efs IH]; intros c u db Hnd Hall; simpl.
  - unfold ret. do 3 f_equal. lia.
  - assert (update_or_create ef db = (Ok (ef, false), db)) as Huc.
    { unfold update_or_create. rewrite bool_decide_eq_true_2; cycle 1.
      { apply Exists_exists. exists ef. split; [apply Hall, list_elem_of_here|done]. }
      do 2 f_equal. destruct db as [table rows n]. simpl in *. f_equal.
      rewrite <-(list_fmap_id table) at 2. apply list_fmap_ext. intros i ef' Hi. simpl.
      case_decide as Hk; [|done].
      apply (NoDup_fmap_unique factor_key table); [done|apply Hall, list_elem_of_here| |].
      - by eapply list_elem_of_lookup_2.
      - symmetry. by apply same_key_factor_key. }
    unfold bind at 1. rewrite Huc. simpl.
    rewrite IH; [|done|by intros ef' Hin; apply Hall, list_elem_of_further].
    do 3 f_equal. lia.
Qed.

(** X12: the seeding command is idempotent: run again on the table it has
    left, it creates nothing, reports all ten factors as updated, and leaves
    the database as it is. *)
Theorem seeding_twice_changes_nothing db out db' :
  NoDup (factor_key <$> core_emissionfactor db) →
  Command.handle db = (out, db') →
  Command.handle db' = (Ok (0, 10), db').
Proof.
  intros Hdb Hfirst.
  destruct (seed_spec Command.emission_factors 0 0 db emission_factors_NoDup Hdb)
    as (c & u & db1 & Hseed & _ & _ & Hall & _ & Hnd & _).
  unfold Command.handle in Hfirst. rewrite Hseed in Hfirst. injection Hfirst as _ <-.
  unfold Command.handle. by rewrite (seed_settled _ 0 0 db1 Hnd Hall).
Qed.

(** The command is run on the empty database, and then again. *)
Lemma seeding_twice_changes_nothing_witness :
  (Command.handle empty_db).1 = Ok (10, 0)
  ∧ Command.handle (Command.handle empty_db).2
    = (Ok (0, 10), (Command.handle empty_db).2).
Proof.
  split; [vm_compute; reflexivity|].
  apply (seeding_twice_changes_nothing empty_db (Command.handle empty_db).1).
  - apply NoDup_nil_2.
  - apply surjective_pairing.
Defined.

(** X13: the ten seeded values agree with the fallback defaults of the
    calculator: after the command has run on an empty factor table, every
    record gets the same derived fields as with no factor table at all. *)
Theorem fresh_seed_equals_the_fallback_defaults rows n self :
  calculate_emissions (core_emissionfactor (Command.handle (mkDB [] rows n)).2) self
  = calculate_emissions [] self.
Proof.
  assert (core_emissionfactor (Command.handle (mkDB [] rows n)).2
          = Command.emission_factors) as -> by (vm_compute; reflexivity).
  assert (∀ k dflt, (k, dflt) ∈ used_sub_categories →
            dict_get (factors Command.emission_factors) k dflt
            = dict_get (factors []) k dflt) as Hd.
  { intros k dflt Hk. unfold used_sub_categories in Hk.
    repeat (apply elem_of_cons in Hk as [[= -> ->]|Hk]; [vm_compute; reflexivity|]).
    by apply elem_of_nil in Hk. }
  unfold calculate_emissions. cbv zeta.
  rewrite (Hd "GRID" 0.82%float), (Hd "DIESEL" 2.68%float), (Hd "PETROL" 2.31%float),
    (Hd "LPG" 2.98%float), (Hd "MUNICIPAL_WATER" 0.344%float),
    (Hd "GENERAL_WASTE" 0.58%float);
    [done|unfold used_sub_categories;
          repeat first [apply list_elem_of_here|apply list_elem_of_further]..].
Qed.

(** * What one institute sees *)

Lemma owned_by_snoc_foreign user rows row :
  ConsumptionRecord.institute row.2 ≠ user →
  owned_by user (rows ++ [row]) = owned_by user rows.
Proof.
  intros Hne. unfold owned_by.
  by rewrite filter_app, filter_cons_False, filter_nil, app_nil_r.
Qed.

Lemma owned_by_replace_row_foreign user pk r rows :
  ConsumptionRecord.institute r ≠ user →
  (∀ old, (pk, old) ∈ rows → ConsumptionRecord.institute old ≠ user) →
  owned_by user (replace_row pk r rows) = owned_by user rows.
Proof.
  intros Hr. induction rows as [|[k x] rows IH]; intros Hold; [done|].
  assert (owned_by user (replace_row pk r rows) = owned_by user rows) as Hrows.
  { apply IH. intros old Hin. by apply Hold, list_elem_of_further. }
  unfold replace_row, owned_by in *. rewrite fmap_cons. simpl.
  destruct (decide (k = pk)) as [->|Hne].
  - rewrite !filter_cons_False; [done| |done].
    simpl. apply Hold, list_elem_of_here.
  - destruct (decide (ConsumptionRecord.institute x = user)) as [Hx|Hx].
    + rewrite !filter_cons_True by done. by rewrite Hrows.
    + by rewrite !filter_cons_False.
Qed.

Lemma owned_by_delete_foreign user pk rows :
  (∀ old, (pk, old) ∈ rows → ConsumptionRecord.institute old ≠ user) →
  owned_by user (filter (λ row, row.1 ≠ pk) rows) = owned_by user rows.
Proof.
  induction rows as [|[k x] rows IH]; intros Hold; [done|].
  assert (owned_by user (filter (λ row, row.1 ≠ pk) rows) = owned_by user rows) as Hrows.
  { apply IH. intros old Hin. by apply Hold, list_elem_of_further. }
  unfold owned_by in *. destruct (decide (k = pk)) as [->|Hne].
  - rewrite (filter_cons_False (λ row, row.1 ≠ pk)) by (simpl; by intros Hn).
    rewrite Hrows, filter_cons_False; [done|]. simpl. apply Hold, list_elem_of_here.
  - rewrite (filter_cons_True (λ row, row.1 ≠ pk)) by done.
    destruct (decide (ConsumptionRecord.institute x = user)) as [Hx|Hx].
    + rewrite !filter_cons_True by done. by rewrite Hrows.
    + by rewrite !filter_cons_False.
Qed.

(** A save of a record of [other] leaves the rows of [user] as they are, in
    the same order. *)
Lemma save_keeps_foreign_view user other pk self db out db' :
  other ≠ user →
  ConsumptionRecord.institute self = other →
  (∀ k old, pk = Some k → (k, old) ∈ core_consumptionrecord db →
            ConsumptionRecord.institute old = other) →
  save pk self db = (out, db') →
  owned_by user (core_consumptionrecord db') = owned_by user (core_consumptionrecord db).
Proof.
  intros Hne Hself Hold Hs.
  assert (ConsumptionRecord.institute (calculate_emissions (core_emissionfactor db) self)
          ≠ user) as Hr.
  { rewrite (proj1 (calculate_emissions_same_raw _ self)). congruence. }
  apply save_cases in Hs as [(_ & -> & _)|(_ & _ & k & _ & Hcase)]; [done|].
  destruct Hcase as [(-> & _ & -> & _)|[(_ & _ & -> & _)|(_ & _ & -> & _)]].
  - apply owned_by_replace_row_foreign; [done|].
    intros old Hin. rewrite (Hold k old eq_refl Hin). done.
  - by apply owned_by_snoc_foreign.
  - by apply owned_by_snoc_foreign.
Qed.

(** A write request of [other] leaves the rows of [user] as they are. *)
Lemma request_keeps_foreign_view user other db db' :
  wf db → other ≠ user → request_by other db db' →
  owned_by user (core_consumptionrecord db') = owned_by user (core_consumptionrecord db).
Proof.
  intros Hwf Hne [d|partial pk d|pk].
  - destruct (ConsumptionRecordListCreateView.post other d db) as [out db1] eqn:Hpost.
    apply post_cases in Hpost as [(_ & -> & _)|(_ & date & _ & Hs)]; [done|].
    refine (save_keeps_foreign_view user other _ _ _ _ _ Hne _ _ Hs); [done|].
    by intros k old [=].
  - destruct (ConsumptionRecordDetailView.update partial other pk d db)
      as [out db1] eqn:Hupd.
    apply update_cases in Hupd
      as [(_ & _ & ->)|(old & [Hin Hu]%lookup_row_owned_inv & [(_ & -> & _)|[_ Hs]])];
      [done|done|].
    refine (save_keeps_foreign_view user other _ _ _ _ _ Hne _ _ Hs); [done|].
    intros k old' [= <-] Hin'.
    by rewrite (NoDup_fst_unique _ pk old' old (wf_pk _ Hwf) Hin' Hin).
  - destruct (ConsumptionRecordDetailView.delete other pk db) as [out db1] eqn:Hdel.
    apply delete_cases in Hdel as [(_ & _ & ->)|([old Hold] & _ & ->)]; [done|].
    apply lookup_row_owned_inv in Hold as [Hin Hu]. simpl.
    apply owned_by_delete_foreign. intros old' Hin'.
    rewrite (NoDup_fst_unique _ pk old' old (wf_pk _ Hwf) Hin' Hin). congruence.
Qed.

(** X14: no institute can change what another one sees: after a create,
    update or delete request of another institute the caller's record list,
    dashboard statistics and department comparison are what they were. *)
Theorem views_are_isolated_from_other_institutes user other db db' :
  wf db →
  other ≠ user →
  request_by other db db' →
  ConsumptionRecordListCreateView.get user db' = ConsumptionRecordListCreateView.get user db
  ∧ (∀ year month today,
       DashboardStatsView.get user year month today db'
       = DashboardStatsView.get user year month today db)
  ∧ ComparisonView.get user db' = ComparisonView.get user db.
Proof.
  intros Hwf Hne Hreq.
  pose proof (request_keeps_foreign_view user other db db' Hwf Hne Hreq) as Heq.
  split; [|split].
  - unfold ConsumptionRecordListCreateView.get,
      ConsumptionRecordListCreateView.get_queryset. by rewrite Heq.
  - intros year month today.
    unfold DashboardStatsView.get, DashboardStatsView.records,
      DashboardStatsView.monthly_trend, DashboardStatsView.monthly_data.
    by rewrite !trend_rows_owned, Heq.
  - unfold ComparisonView.get. by rewrite Heq.
Qed.

(** Institute 7 deletes its June record; institute 8 sees what it saw. *)
Lemma views_are_isolated_from_other_institutes_witness :
  length (core_consumptionrecord shared_db) = 3
  ∧ length (core_consumptionrecord (ConsumptionRecordDetailView.delete 7 1 shared_db).2) = 2
  ∧ ConsumptionRecordListCreateView.get 8 (ConsumptionRecordDetailView.delete 7 1 shared_db).2
    = ConsumptionRecordListCreateView.get 8 shared_db
  ∧ ComparisonView.get 8 (ConsumptionRecordDetailView.delete 7 1 shared_db).2
    = ComparisonView.get 8 shared_db.
Proof.
  split; [vm_compute; reflexivity|]. split; [vm_compute; reflexivity|].
  destruct (views_are_isolated_from_other_institutes 8 7 shared_db
              (ConsumptionRecordDetailView.delete 7 1 shared_db).2 shared_db_wf)
    as (Hlist & _ & Hcomparison).
  - discriminate.
  - apply by_delete.
  - by split.
Defined.

(** * The department comparison *)

Lemma dict_snoc pairs kv : dict (pairs ++ [kv]) = <[kv.1 := kv.2]> (dict pairs).
Proof. unfold dict. by rewrite foldl_app. Qed.

(** A key of [dict pairs] maps to the value of its last pair. *)
Lemma dict_lookup pairs k :
  dict pairs !! k = snd <$> last (filter (λ kv, kv.1 = k) pairs).
Proof.
  induction pairs as [|kv pairs IH] using rev_ind; [done|].
  rewrite dict_snoc, filter_app, filter_cons, filter_nil.
  destruct (decide (kv.1 = k)) as [<-|Hne].
  - by rewrite lookup_insert_eq, last_snoc.
  - by rewrite lookup_insert_ne, app_nil_r.
Qed.

(** [dept_names.get(code, code)] is the display name of the code. *)
Lemma dict_get_display_name code :
  display_name_of code (default code (dict ConsumptionRecord.DEPARTMENT_CHOICES !! code)).
Proof.
  rewrite dict_lookup.
  destruct (last (filter (λ kv, kv.1 = code) ConsumptionRecord.DEPARTMENT_CHOICES))
    as [[k name]|] eqn:Hlast.
  - left. apply last_Some in Hlast as [l Hl].
    assert ((k, name) ∈ filter (λ kv : string * string, kv.1 = code)
                          ConsumptionRecord.DEPARTMENT_CHOICES) as Hin.
    { rewrite Hl. apply elem_of_app. right. apply list_elem_of_singleton. done. }
    apply list_elem_of_filter in Hin as [Hk Hin]. simpl in *. by subst k.
  - right. split; [|done]. apply last_None in Hlast.
    intros ([k name] & Hk & Hin)%list_elem_of_fmap. simpl in Hk. subst k.
    assert ((code, name) ∈ filter (λ kv : string * string, kv.1 = code)
                             ConsumptionRecord.DEPARTMENT_CHOICES) as Hin'
      by (by apply list_elem_of_filter).
    rewrite Hlast in Hin'. by apply elem_of_nil in Hin'.
Qed.

(** X15: the comparison has exactly one entry for each department in which
    the caller has a record and none for another department, in ascending
    order of the department code; it is empty exactly when the caller has no
    record.  Each entry carries the display name of its department, or the
    code when the choices do not list it.  The figures of the entries are
    left open. *)
Theorem comparison_has_one_entry_per_department user db :
  let result := ComparisonView.get user db in
  let depts := ComparisonView.item.department <$> result in
  (∀ dept, dept ∈ depts ↔
     ∃ row, row ∈ core_consumptionrecord db
       ∧ ConsumptionRecord.institute row.2 = user
       ∧ ConsumptionRecord.department row.2 = dept)
  ∧ NoDup depts
  ∧ Sorted String.le depts
  ∧ (result = [] ↔ owned_by user (core_consumptionrecord db) = [])
  ∧ ∀ it, it ∈ result →
      display_name_of (ComparisonView.item.department it)
        (ComparisonView.item.department_name it).
Proof.
  intros result depts.
  assert (depts
          = (group_by String.le (λ row, ConsumptionRecord.department row.2)
               (owned_by user (core_consumptionrecord db))).*1) as Hdepts.
  { unfold depts, result, ComparisonView.get, ComparisonView.comparison.
    rewrite <-list_fmap_compose. by apply list_fmap_ext. }
  split; [|split; [|split; [|split]]].
  - intros dept. rewrite Hdepts, group_by_key_elem_of. split.
    + intros (row & [Hu Hin]%owned_by_elem_of & Hd). by exists row.
    + intros (row & Hin & Hu & Hd). exists row. split; [|done].
      by apply owned_by_elem_of.
  - rewrite Hdepts. apply group_by_NoDup.
  - rewrite Hdepts. apply group_by_Sorted, _.
  - unfold result, ComparisonView.get, ComparisonView.comparison.
    rewrite <-(group_by_eq_nil String.le (λ row, ConsumptionRecord.department row.2)).
    split; [apply fmap_nil_inv|by intros ->].
  - intros it Hit.
    unfold result, ComparisonView.get, ComparisonView.comparison in Hit.
    apply list_elem_of_fmap in Hit as (g & -> & _). simpl.
    apply dict_get_display_name.
Qed.

(** Institute 7 holds two records of the hostel and one of the laboratories:
    its comparison has the two entries Hostel and Laboratories, in this
    order. *)
Lemma comparison_has_one_entry_per_department_witness :
  length (owned_by 7 (core_consumptionrecord four_record_db)) = 3
  ∧ ComparisonView.item.department <$> ComparisonView.get 7 four_record_db
    = ["HOSTEL"; "LABS"]
  ∧ ComparisonView.item.department_name <$> ComparisonView.get 7 four_record_db
    = ["Hostel"; "Laboratories"]
  ∧ NoDup (ComparisonView.item.department <$> ComparisonView.get 7 four_record_db)
  ∧ Sorted String.le
      (ComparisonView.item.department <$> ComparisonView.get 7 four_record_db).
Proof.
  split; [vm_compute; reflexivity|]. split; [vm_compute; reflexivity|].
  split; [vm_compute; reflexivity|].
  destruct (comparison_has_one_entry_per_department 7 four_record_db)
    as (_ & Hnodup & Hsorted & _).
  split; [exact Hnodup|exact Hsorted].
Defined.

(** X16: without year and month filters the dashboard agrees with the other
    two read endpoints: its department breakdown lists the departments and
    totals of the comparison, in the same order, and its record count is the
    length of the record list. *)
Theorem unfiltered_dashboard_agrees_with_comparison_and_list user today db :
  ∃ resp,
    DashboardStatsView.get user Absent Absent today db = Ok resp
    ∧ DashboardStatsView.Response.department_breakdown resp
      = (λ it, (ComparisonView.item.department it, ComparisonView.item.total_emissions it))
          <$> ComparisonView.get user db
    ∧ DashboardStatsView.Response.record_count resp
      = length (ConsumptionRecordListCreateView.get user db).
Proof.
  eexists. split; [reflexivity|]. simpl. split.
  - unfold DashboardStatsView.department_breakdown, DashboardStatsView.department_data,
      ComparisonView.get, ComparisonView.comparison.
    rewrite <-list_fmap_compose. by apply list_fmap_ext.
  - unfold ConsumptionRecordListCreateView.get,
      ConsumptionRecordListCreateView.get_queryset.
    by rewrite merge_sort_Permutation.
Qed.

(** * Departments *)

Lemma acceptable_department partial d :
  acceptable partial d →
  match ConsumptionRecordSerializer.data.department d with
  | Given dept => dept ∈ ConsumptionRecord.DEPARTMENT_CHOICES.*1
  | Absent => partial = true
  | Malformed => False
  end.
Proof.
  intros [Hdept _]. destruct (ConsumptionRecordSerializer.data.department d); simpl in *.
  - by destruct partial.
  - done.
  - by apply bool_decide_eq_true in Hdept.
Qed.

(** Every request and command keeps the departments of the stored rows among
    the choices. *)
Lemma step_departments db db' :
  step db db' →
  (∀ row, row ∈ core_consumptionrecord db →
     ConsumptionRecord.department row.2 ∈ ConsumptionRecord.DEPARTMENT_CHOICES.*1) →
  ∀ row, row ∈ core_consumptionrecord db' →
    ConsumptionRecord.department row.2 ∈ ConsumptionRecord.DEPARTMENT_CHOICES.*1.
Proof.
  intros Hstep Hall row Hin. destruct Hstep as [user d|partial user pk d|user pk|ef|].
  - destruct (ConsumptionRecordListCreateView.post user d db) as [out db1] eqn:Hpost.
    apply post_cases in Hpost as [(_ & -> & _)|(Hacc & date & _ & Hs)]; [by apply Hall|].
    destruct (save_rows_from _ _ _ _ _ row Hs Hin) as [Hold|Hrow]; [by apply Hall|].
    rewrite Hrow.
    destruct (calculate_emissions_same_raw (core_emissionfactor db)
                (ConsumptionRecordSerializer.new_instance user (writable d) date))
      as (_ & -> & _).
    apply acceptable_department in Hacc. simpl.
    by destruct (ConsumptionRecordSerializer.data.department d).
  - destruct (ConsumptionRecordDetailView.update partial user pk d db)
      as [out db1] eqn:Hupd.
    apply update_cases in Hupd
      as [(_ & _ & ->)|(old & [Hold _]%lookup_row_owned_inv & [(_ & -> & _)|[Hacc Hs]])];
      [by apply Hall|by apply Hall|].
    destruct (save_rows_from _ _ _ _ _ row Hs Hin) as [Hrow|Hrow]; [by apply Hall|].
    rewrite Hrow.
    destruct (calculate_emissions_same_raw (core_emissionfactor db)
                (ConsumptionRecordSerializer.set_attrs old (writable d)))
      as (_ & -> & _).
    apply acceptable_department in Hacc. simpl.
    destruct (ConsumptionRecordSerializer.data.department d); simpl; [|done..].
    apply (Hall (pk, old) Hold).
  - destruct (ConsumptionRecordDetailView.delete user pk db) as [out db1] eqn:Hdel.
    apply delete_cases in Hdel as [(_ & _ & ->)|(_ & _ & ->)]; [by apply Hall|].
    simpl in Hin. apply list_elem_of_filter in Hin as [_ Hin]. by apply Hall.
  - destruct (update_or_create_frame ef db _ _ (surjective_pairing _)) as [Hrows _].
    rewrite Hrows in Hin. by apply Hall.
  - destruct (seed_frame _ _ _ db _ _ (surjective_pairing (Command.handle db)))
      as [Hrows _].
    rewrite Hrows in Hin. by apply Hall.
Qed.

Lemma steps_departments db db' :
  rtc step db db' →
  (∀ row, row ∈ core_consumptionrecord db →
     ConsumptionRecord.department row.2 ∈ ConsumptionRecord.DEPARTMENT_CHOICES.*1) →
  ∀ row, row ∈ core_consumptionrecord db' →
    ConsumptionRecord.department row.2 ∈ ConsumptionRecord.DEPARTMENT_CHOICES.*1.
Proof.
  induction 1 as [db|db1 db2 db3 Hstep _ IH]; [done|].
  intros Hall. apply IH. by apply (step_departments db1).
Qed.

(** X17: in every database built from an empty record table the department
    of each stored record is one of the five department codes: no create and
    no full or partial update stores another value. *)
Theorem stored_departments_are_choices efs n db row :
  rtc step (mkDB efs [] n) db →
  row ∈ core_consumptionrecord db →
  ConsumptionRecord.department row.2 ∈ ConsumptionRecord.DEPARTMENT_CHOICES.*1.
Proof.
  intros Hsteps. apply (steps_departments _ _ Hsteps).
  by intros row' ?%elem_of_nil.
Qed.

(** The December record of the example database. *)
Lemma stored_departments_are_choices_witness :
  ConsumptionRecord.department
    (calculate_emissions Command.emission_factors
       (ConsumptionRecordSerializer.new_instance 7 (writable december_body)
          (datetime._ymd2ord 2024 12 25)))
  ∈ ConsumptionRecord.DEPARTMENT_CHOICES.*1.
Proof.
  apply (stored_departments_are_choices [] 1 two_record_db
           (2%Z, calculate_emissions Command.emission_factors
                   (ConsumptionRecordSerializer.new_instance 7 (writable december_body)
                      (datetime._ymd2ord 2024 12 25)))
           reachable_two_record_db).
  apply lookup_row_Some. vm_compute. reflexivity.
Defined.

(** X18: in every database built from an empty record table each entry of
    the comparison carries the display name of its department; the fallback
    to the bare code is never taken. *)
Theorem comparison_names_resolve efs n user db it :
  rtc step (mkDB efs [] n) db →
  it ∈ ComparisonView.get user db →
  (ComparisonView.item.department it, ComparisonView.item.department_name it)
  ∈ ConsumptionRecord.DEPARTMENT_CHOICES.
Proof.
  intros Hsteps Hit. unfold ComparisonView.get, ComparisonView.comparison in Hit.
  apply list_elem_of_fmap in Hit as ([dept rows] & -> & Hg).
  apply elem_of_group_by in Hg as (_ & row & [_ Hin]%owned_by_elem_of & Hkey).
  simpl in *.
  assert (dept ∈ ConsumptionRecord.DEPARTMENT_CHOICES.*1) as Hdept.
  { rewrite <-Hkey. apply (steps_departments _ _ Hsteps); [|done].
    by intros row' ?%elem_of_nil. }
  clear -Hdept. simpl in Hdept.
  repeat (apply elem_of_cons in Hdept as [->|Hdept];
          [vm_compute; repeat first [apply list_elem_of_here|apply list_elem_of_further]|]).
  by apply elem_of_nil in Hdept.
Qed.

(** The first entry of institute 7's comparison in the example database. *)
Lemma comparison_names_resolve_witness :
  ∃ it,
    ComparisonView.get 7 two_record_db !! 0 = Some it
    ∧ ComparisonView.item.department_name it = "Hostel"
    ∧ (ComparisonView.item.department it, ComparisonView.item.department_name it)
      ∈ ConsumptionRecord.DEPARTMENT_CHOICES.
Proof.
  assert (∃ it, ComparisonView.get 7 two_record_db !! 0 = Some it
                ∧ ComparisonView.item.department_name it = "Hostel")
    as (it & Hit & Hname).
  { eexists. split; vm_compute; reflexivity. }
  exists it. split; [exact Hit|]. split; [exact Hname|].
  apply (comparison_names_resolve [] 1 7 two_record_db it reachable_two_record_db).
  by apply list_elem_of_lookup_2 in Hit.
Defined.

(** * Record ids *)

Lemma filter_all {A} (P : A → Prop) `{!∀ x, Decision (P x)} (l : list A) :
  (∀ x, x ∈ l → P x) → filter P l = l.
Proof.
  induction l as [|a l IH]; intros Hall; [done|].
  rewrite filter_cons_True by apply Hall, list_elem_of_here.
  f_equal. apply IH. intros x Hx. by apply Hall, list_elem_of_further.
Qed.

(** X19: a successful create gets an id above every id of the table;
    deleting the new record restores the record table and the factor table,
    and the next id to hand out stays above the deleted one. *)
Theorem create_then_delete_restores_the_table user d db res db1 :
  wf db →
  ConsumptionRecordListCreateView.post user d db = (Ok res, db1) →
  (∀ row, row ∈ core_consumptionrecord db → (row.1 < res.1)%Z)
  ∧ ∃ db2,
      ConsumptionRecordDetailView.delete user res.1 db1 = (Ok (), db2)
      ∧ core_consumptionrecord db2 = core_consumptionrecord db
      ∧ core_emissionfactor db2 = core_emissionfactor db
      ∧ (res.1 < next_id db2)%Z.
Proof.
  intros Hwf Hpost. pose proof (post_wf _ _ _ _ _ Hwf Hpost) as Hwf1.
  apply post_cases in Hpost as [(_ & _ & fields & Hout)|(_ & date & _ & Hs)]; [done|].
  apply save_cases in Hs as [(Hout & _)|(_ & Hefs & k & [= ->] & Hcase)]; [done|].
  destruct Hcase as [(Hpk & _)|[(Hpk & _)|(_ & -> & Hrows & Hnext)]]; [done|done|].
  simpl. split; [apply Hwf|].
  set (r := calculate_emissions (core_emissionfactor db)
              (ConsumptionRecordSerializer.new_instance user (writable d) date)) in *.
  destruct (ConsumptionRecordDetailView.delete user (next_id db) db1)
    as [out db2] eqn:Hdel.
  apply delete_cases in Hdel as [(Hnone & _)|(_ & -> & ->)].
  { rewrite (lookup_row_owned user (next_id db) r) in Hnone; [done|apply Hwf1| |done].
    rewrite Hrows. apply elem_of_app. right. apply list_elem_of_here. }
  eexists. split; [done|]. simpl. split; [|split; [done|lia]].
  rewrite Hrows, filter_app, filter_cons_False, filter_nil, app_nil_r; [|by intros Hn].
  apply filter_all. intros row Hrow. pose proof (wf_next_id _ Hwf row Hrow). lia.
Qed.

(** The December record is created as record 2 and deleted again. *)
Lemma create_then_delete_restores_the_table_witness :
  ∃ r db2,
    ConsumptionRecordListCreateView.post 7 december_body one_record_db
    = (Ok (2%Z, r), two_record_db)
    ∧ ConsumptionRecordDetailView.delete 7 2 two_record_db = (Ok (), db2)
    ∧ core_consumptionrecord db2 = core_consumptionrecord one_record_db
    ∧ (2 < next_id db2)%Z.
Proof.
  assert (∃ r, ConsumptionRecordListCreateView.post 7 december_body one_record_db
               = (Ok (2%Z, r), two_record_db)) as [r Hpost].
  { eexists. vm_compute. reflexivity. }
  destruct (create_then_delete_restores_the_table 7 december_body one_record_db
              (2%Z, r) two_record_db one_record_db_wf Hpost)
    as (_ & db2 & Hdel & Hrows & _ & Hnext).
  change ((2%Z, r).1) with 2%Z in Hdel, Hnext.
  exists r, db2. split; [exact Hpost|]. split; [exact Hdel|].
  split; [exact Hrows|exact Hnext].
Defined.

(** The id [pk] has been handed out, and every row under it belongs to
    [user]. *)
Lemma save_keeps_owner pk user pk0 self db out db' :
  (pk < next_id db)%Z →
  (∀ r, (pk, r) ∈ core_consumptionrecord db → ConsumptionRecord.institute r = user) →
  (∀ k, pk0 = Some k →
     ∃ old, lookup_row k (core_consumptionrecord db) = Some old
       ∧ ConsumptionRecord.institute self = ConsumptionRecord.institute old) →
  save pk0 self db = (out, db') →
  (pk < next_id db')%Z
  ∧ ∀ r, (pk, r) ∈ core_consumptionrecord db' → ConsumptionRecord.institute r = user.
Proof.
  intros Hnext Hown Hold Hs.
  apply save_cases in Hs as [(_ & -> & _)|(_ & _ & k & _ & Hcase)]; [done|].
  destruct Hcase as [(-> & _ & -> & ->)|[(-> & Hnone & _)|(_ & -> & -> & ->)]].
  - split; [done|]. intros r [[[= -> ->] _]|[Hin _]]%elem_of_replace_row; [|by apply Hown].
    destruct (Hold k eq_refl) as (old & Hl%lookup_row_Some & Hinst).
    rewrite (proj1 (calculate_emissions_same_raw _ self)), Hinst. by apply Hown.
  - destruct (Hold k eq_refl) as (old & Hl & _). by rewrite Hl in Hnone.
  - split; [lia|]. intros r [Hin|[= Hpk _]%list_elem_of_singleton]%elem_of_app; [|lia].
    by apply Hown.
Qed.

Lemma step_keeps_owner pk user db db' :
  wf db →
  step db db' →
  (pk < next_id db)%Z →
  (∀ r, (pk, r) ∈ core_consumptionrecord db → ConsumptionRecord.institute r = user) →
  (pk < next_id db')%Z
  ∧ ∀ r, (pk, r) ∈ core_consumptionrecord db' → ConsumptionRecord.institute r = user.
Proof.
  intros Hwf Hstep Hnext Hown. destruct Hstep as [u d|partial u pk0 d|u pk0|ef|].
  - destruct (ConsumptionRecordListCreateView.post u d db) as [out db1] eqn:Hpost.
    apply post_cases in Hpost as [(_ & -> & _)|(_ & date & _ & Hs)]; [done|].
    refine (save_keeps_owner pk user _ _ _ _ _ Hnext Hown _ Hs). by intros k [=].
  - destruct (ConsumptionRecordDetailView.update partial u pk0 d db)
      as [out db1] eqn:Hupd.
    apply update_cases in Hupd
      as [(_ & _ & ->)|(old & [Hin _]%lookup_row_owned_inv & [(_ & -> & _)|[_ Hs]])];
      [done|done|].
    refine (save_keeps_owner pk user _ _ _ _ _ Hnext Hown _ Hs).
    intros k [= <-]. exists old. split; [|done].
    by apply lookup_row_elem_of; [apply Hwf|].
  - destruct (ConsumptionRecordDetailView.delete u pk0 db) as [out db1] eqn:Hdel.
    apply delete_cases in Hdel as [(_ & _ & ->)|(_ & _ & ->)]; [done|].
    simpl. split; [done|]. intros r [_ Hin]%list_elem_of_filter. by apply Hown.
  - destruct (update_or_create_frame ef db _ _ (surjective_pairing _)) as [-> ->].
    done.
  - destruct (seed_frame _ _ _ db _ _ (surjective_pairing (Command.handle db)))
      as [-> ->].
    done.
Qed.

Lemma steps_keep_owner pk user db db' :
  rtc step db db' →
  wf db →
  (pk < next_id db)%Z →
  (∀ r, (pk, r) ∈ core_consumptionrecord db → ConsumptionRecord.institute r = user) →
  ∀ r, (pk, r) ∈ core_consumptionrecord db' → ConsumptionRecord.institute r = user.
Proof.
  induction 1 as [db|db1 db2 db3 Hstep _ IH]; intros Hwf Hnext Hown; [done|].
  destruct (step_keeps_owner pk user db1 db2 Hwf Hstep Hnext Hown) as [Hnext2 Hown2].
  apply IH; [by apply (step_wf db1)|done|done].
Qed.

(** X20: a record id belongs to one institute for good: whatever requests
    and commands follow, a record found under the id of an existing record
    has the institute of that record, also when the record was deleted in
    between. *)
Theorem record_ids_keep_their_institute db db' pk r r' :
  wf db →
  rtc step db db' →
  (pk, r) ∈ core_consumptionrecord db →
  (pk, r') ∈ core_consumptionrecord db' →
  ConsumptionRecord.institute r' = ConsumptionRecord.institute r.
Proof.
  intros Hwf Hsteps Hin Hin'.
  apply (steps_keep_owner pk (ConsumptionRecord.institute r) db db' Hsteps Hwf); [| |done].
  - apply (wf_next_id _ Hwf (pk, r) Hin).
  - intros r0 Hin0. by rewrite (NoDup_fst_unique _ pk r0 r (wf_pk _ Hwf) Hin0 Hin).
Qed.

(** Institute 8 fails to take over record 1, which institute 7 then
    updates. *)
Lemma record_ids_keep_their_institute_witness :
  ∃ r r',
    (1%Z, r) ∈ core_consumptionrecord one_record_db
    ∧ (1%Z, r') ∈ core_consumptionrecord
                    (ConsumptionRecordDetailView.update false 7 1 doubled_body
                       (ConsumptionRecordDetailView.update false 8 1 doubled_body
                          one_record_db).2).2
    ∧ ConsumptionRecord.electricity_kwh r' = 200%float
    ∧ ConsumptionRecord.institute r' = ConsumptionRecord.institute r.
Proof.
  assert (∃ r, lookup_row 1 (core_consumptionrecord one_record_db) = Some r)
    as [r Hr%lookup_row_Some].
  { eexists. vm_compute. reflexivity. }
  assert (∃ r', lookup_row 1 (core_consumptionrecord
                    (ConsumptionRecordDetailView.update false 7 1 doubled_body
                       (ConsumptionRecordDetailView.update false 8 1 doubled_body
                          one_record_db).2).2) = Some r'
                ∧ ConsumptionRecord.electricity_kwh r' = 200%float)
    as (r' & Hr'%lookup_row_Some & Hkwh).
  { eexists. split; vm_compute; reflexivity. }
  exists r, r'. split; [exact Hr|]. split; [exact Hr'|]. split; [exact Hkwh|].
  refine (record_ids_keep_their_institute one_record_db
            (ConsumptionRecordDetailView.update false 7 1 doubled_body
               (ConsumptionRecordDetailView.update false 8 1 doubled_body
                  one_record_db).2).2
            1 r r' one_record_db_wf _ Hr Hr').
  eapply rtc_l; [apply (step_update one_record_db false 8 1 doubled_body)|].
  apply rtc_once, step_update.
Defined.

(** * The report *)

Lemma report_records_filtered_set user year db rows :
  GenerateReportView.records user year db = Ok rows →
  rows = filtered_set user year Absent db.
Proof.
  intros Hrecords. apply (records_filtered_set user year Absent db).
  unfold DashboardStatsView.records. unfold GenerateReportView.records in Hrecords.
  by rewrite Hrecords.
Qed.

(** X21: the report shows the department table exactly when the caller has
    a record in the selected year (any record when no year is given): the
    table then has, below its header, one line per department of those
    records, in ascending order of the department code, and a line holds the
    department's display name, or its code when the choices do not list it,
    followed by one cell for the amount, whose content is left open;
    otherwise the report says that no department data is available. *)
Theorem report_table_iff_records format_2f user year db flowable :
  GenerateReportView.get format_2f user year db = Ok flowable →
  let rows := filtered_set user year Absent db in
  match flowable with
  | GenerateReportView.Paragraph text =>
      rows = [] ∧ text = "No department data available."
  | GenerateReportView.Table data =>
      rows ≠ []
      ∧ ∃ depts lines,
          data = ["Department"; "Emissions (kg CO2e)"] :: lines
          ∧ (∀ dept, dept ∈ depts ↔
               ∃ row, row ∈ rows ∧ ConsumptionRecord.department row.2 = dept)
          ∧ NoDup depts
          ∧ Sorted String.le depts
          ∧ Forall2 (λ dept line,
                       ∃ name amount, line = [name; amount] ∧ display_name_of dept name)
              depts lines
  end.
Proof.
  unfold GenerateReportView.get.
  destruct (GenerateReportView.records user year db) as [records|e] eqn:Hrecords;
    [|done].
  apply report_records_filtered_set in Hrecords as ->. intros [= <-]. cbv zeta.
  set (rows := filtered_set user year Absent db).
  unfold GenerateReportView.department_breakdown, GenerateReportView.dept_data,
    GenerateReportView.department_data.
  set (groups := group_by String.le (λ row, ConsumptionRecord.department row.2) rows).
  simpl. rewrite !length_fmap. case_bool_decide as Hlen.
  - split.
    + intros Hnil. unfold groups in Hlen. rewrite Hnil, group_by_nil in Hlen.
      simpl in Hlen. lia.
    + exists groups.*1. eexists. split; [done|].
      split; [intros dept; apply group_by_key_elem_of|].
      split; [apply group_by_NoDup|]. split; [apply group_by_Sorted, _|].
      rewrite <-list_fmap_compose. apply Forall2_fmap, Forall_Forall2_diag, Forall_forall.
      intros g _. simpl. eexists _, _. split; [done|]. apply dict_get_display_name.
  - split; [|done].
    apply (group_by_eq_nil String.le (λ row, ConsumptionRecord.department row.2)).
    fold groups. destruct groups; [done|]. simpl in Hlen. lia.
Qed.

(** Institute 7 has two records of the hostel and one of the laboratories,
    all of 2024.  Its report for 2024 has the table with the lines of Hostel
    and Laboratories, whatever fills the amount cells; its report for 2023 has
    no table. *)
Lemma report_table_iff_records_witness :
  (∃ data,
     GenerateReportView.get (λ _, "-") 7 (Given 2024%Z) four_record_db
     = Ok (GenerateReportView.Table data)
     ∧ length (filtered_set 7 (Given 2024%Z) Absent four_record_db) = 3
     ∧ head <$> data = [Some "Department"; Some "Hostel"; Some "Laboratories"]
     ∧ filtered_set 7 (Given 2024%Z) Absent four_record_db ≠ [])
  ∧ GenerateReportView.get (λ _, "-") 7 (Given 2023%Z) four_record_db
    = Ok (GenerateReportView.Paragraph "No department data available.")
  ∧ filtered_set 7 (Given 2023%Z) Absent four_record_db = [].
Proof.
  split.
  - assert (∃ data,
              GenerateReportView.get (λ _, "-") 7 (Given 2024%Z) four_record_db
              = Ok (GenerateReportView.Table data)
              ∧ length (filtered_set 7 (Given 2024%Z) Absent four_record_db) = 3
              ∧ head <$> data = [Some "Department"; Some "Hostel"; Some "Laboratories"])
      as (data & Hget & Hlen & Hnames).
    { eexists. split; [|split]; vm_compute; reflexivity. }
    exists data. split; [exact Hget|]. split; [exact Hlen|]. split; [exact Hnames|].
    exact (proj1 (report_table_iff_records (λ _, "-") 7 (Given 2024%Z) four_record_db
                    _ Hget)).
  - assert (GenerateReportView.get (λ _, "-") 7 (Given 2023%Z) four_record_db
            = Ok (GenerateReportView.Paragraph "No department data available."))
      as Hget by (vm_compute; reflexivity).
    split; [exact Hget|].
    exact (proj1 (report_table_iff_records (λ _, "-") 7 (Given 2023%Z) four_record_db
                    _ Hget)).
Defined.

(** * Months *)

(** The month that [_ord2ymd] gives is a month of the calendar. *)
Lemma month_range d : (1 ≤ datetime.month d ≤ 12)%Z.
Proof.
  unfold datetime.month, datetime._ord2ymd. cbv zeta.
  set (n := (((((d - 1) `mod` datetime._DI400Y) `mod` datetime._DI100Y)
               `mod` datetime._DI4Y) `mod` 365)%Z).
  assert (0 ≤ n < 365)%Z as Hn by (apply Z.mod_pos_bound; lia).
  clearbody n. destruct (_ || _); [simpl; lia|].
  assert (Z.shiftr (n + 50) 5 = (n + 50) `div` 32)%Z as ->
    by (by rewrite Z.shiftr_div_pow2).
  assert (1 ≤ (n + 50) `div` 32 ≤ 12)%Z as Hmonth.
  { split; [apply Z.div_le_lower_bound; lia|].
    assert ((n + 50) `div` 32 < 13)%Z; [|lia].
    apply Z.div_lt_upper_bound; lia. }
  generalize dependent ((n + 50) `div` 32)%Z. intros month Hmonth.
  match goal with
  | |- context [if (n <? ?preceding)%Z then _ else _] =>
      destruct (Z.ltb_spec n preceding) as [Hlt|Hge]
  end; simpl; [|lia].
  split; [|lia]. destruct (decide (month = 1%Z)) as [->|]; [|lia].
  simpl in Hlt. lia.
Qed.

(** X22: a month number outside 1..12 is no error for the dashboard: no
    record matches it, so the answer is that of the empty set, with all sums
    the integer 0, no department and a record count of 0. *)
Theorem month_out_of_range_gives_empty_stats user m today db :
  ¬ (1 ≤ m ≤ 12)%Z →
  ∃ resp,
    DashboardStatsView.get user Absent (Given m) today db = Ok resp
    ∧ DashboardStatsView.Response.record_count resp = 0
    ∧ DashboardStatsView.Response.total_emissions resp = PyInt 0
    ∧ DashboardStatsView.Response.electricity_emissions resp = PyInt 0
    ∧ DashboardStatsView.Response.fuel_emissions resp = PyInt 0
    ∧ DashboardStatsView.Response.water_emissions resp = PyInt 0
    ∧ DashboardStatsView.Response.waste_emissions resp = PyInt 0
    ∧ DashboardStatsView.Response.department_breakdown resp = [].
Proof.
  intros Hm.
  assert (DashboardStatsView.records user Absent (Given m) db = Ok []) as Hrecords.
  { unfold DashboardStatsView.records. simpl. f_equal.
    induction (owned_by user (core_consumptionrecord db)) as [|row rows IH]; [done|].
    rewrite filter_cons_False; [done|].
    intros Hrow. apply Hm. rewrite <-Hrow. apply month_range. }
  unfold DashboardStatsView.get. rewrite Hrecords. eexists. split; [done|].
  simpl. by rewrite !sum_of_nil.
Qed.

(** Month 13 of institute 7, which has two records. *)
Lemma month_out_of_range_gives_empty_stats_witness :
  length (owned_by 7 (core_consumptionrecord two_record_db)) = 2
  ∧ ∃ resp,
      DashboardStatsView.get 7 Absent (Given 13%Z) today_example two_record_db = Ok resp
      ∧ DashboardStatsView.Response.record_count resp = 0
      ∧ DashboardStatsView.Response.total_emissions resp = PyInt 0.
Proof.
  split; [vm_compute; reflexivity|].
  destruct (month_out_of_range_gives_empty_stats 7 13 today_example two_record_db)
    as (resp & Hget & Hcount & Htotal & _); [lia|].
  by exists resp.
Defined.
